(** * NOAA satellite receiver: a shallow embedding of [noaa_capture.py]

    The development follows the class [NOAACapture]: the orbital element
    lookup ([get_tle_data]), the pass duration refiner
    ([calculate_pass_duration]), the predictor ([predict_next_passes]),
    the capture session ([capture_pass]), the image pipeline
    ([process_audio], [send_to_epaper]) and the scheduler loop
    ([run_scheduler]).

    Conventions.
    - A Python [str] is a [string]; a character is a code point below 256.
    - A [datetime] is an exact integer counting seconds: the instants of
      the clock and of the propagator fall on whole seconds.
    - An [ephem.Date] is a Python float, the days since the last day of
      1899 at noon: a binary64 number, with the arithmetic of the machine.
    - A Python float that is only compared and truncated (an elevation in
      degrees) is a rational number.
    - The external collaborators (propagator, recorder, resampler, decoder,
      transfer tool) are black boxes: functions handed to the model. *)

From Stdlib Require Import List ZArith NArith QArith Qround Bool Ascii String DecimalString.
From Stdlib Require Import Sorted Lia Floats.
Import ListNotations.

Local Open Scope string_scope.
Local Open Scope Z_scope.

(** ** Python strings *)

Module PyStr.

(** [str.isspace] on one character, for code points below 256. *)
Definition is_space (c : ascii) : bool :=
  let n := nat_of_ascii c in
  (((9 <=? n) && (n <=? 13)) || ((28 <=? n) && (n <=? 32))
   || (n =? 133) || (n =? 160))%nat.

Fixpoint lstrip (s : string) : string :=
  match s with
  | EmptyString => EmptyString
  | String c s' => if is_space c then lstrip s' else s
  end.

Fixpoint rstrip (s : string) : string :=
  match s with
  | EmptyString => EmptyString
  | String c s' =>
      match rstrip s' with
      | EmptyString => if is_space c then EmptyString else String c EmptyString
      | r => String c r
      end
  end.

(** [s.strip()] *)
Definition strip (s : string) : string := rstrip (lstrip s).

(** [needle in hay] *)
Fixpoint contains (needle hay : string) : bool :=
  String.prefix needle hay
  || match hay with
     | EmptyString => false
     | String _ hay' => contains needle hay'
     end.

(** [s.replace(a, b)] for single characters [a] and [b]. *)
Fixpoint replace_char (a b : ascii) (s : string) : string :=
  match s with
  | EmptyString => EmptyString
  | String c s' => String (if Ascii.eqb c a then b else c) (replace_char a b s')
  end.

(** [s.endswith(suffix)] *)
Fixpoint endswith (s suffix : string) : bool :=
  String.eqb s suffix
  || match s with
     | EmptyString => false
     | String _ s' => endswith s' suffix
     end.

(** [needle] occurs in [hay]. *)
Definition Substring (needle hay : string) : Prop :=
  exists pre post, hay = pre ++ needle ++ post.

End PyStr.

(** ** Orbital element lookup: [get_tle_data] *)

Module Tle.

(** The dictionary returned by [get_tle_data]. *)
Record Record_ := mkRecord { name : string; line1 : string; line2 : string }.

(** What [weather.tle] is when it is read: absent ([os.path.exists] is
    false), unreadable ([open] or [readlines] raises), or its lines as
    [readlines] returns them. *)
Inductive File :=
| Absent
| Unreadable
| Lines (lines : list string).

(** The loop [for i in range(len(lines) - 2)]: [i] stops two short of the
    end, so that [lines[i+1]] and [lines[i+2]] exist. *)
Fixpoint search (sat_name : string) (lines : list string) : option Record_ :=
  match lines with
  | l0 :: ((l1 :: l2 :: _) as rest) =>
      if PyStr.contains sat_name l0
      then Some (mkRecord (PyStr.strip l0) (PyStr.strip l1) (PyStr.strip l2))
      else search sat_name rest
  | _ => None
  end.

Definition get_tle_data (tle_file : File) (sat_name : string) : option Record_ :=
  match tle_file with
  | Absent => None
  | Unreadable => None
  | Lines lines => search sat_name lines
  end.

(** A file of two records, as [readlines] gives it. *)
Definition two_records : list string :=
  [ "NOAA 15" ++ String "010" "";
    "1 25338U 98030A   24001.50000000  .00000200  00000-0  10000-3 0  9990" ++ String "010" "";
    "2 25338  98.5700  30.0000 0010000 100.0000 260.0000 14.26000000330000" ++ String "010" "";
    "NOAA 19" ++ String "010" "";
    "1 33591U 09005A   24001.50000000  .00000200  00000-0  10000-3 0  9990" ++ String "010" "";
    "2 33591  99.0500  60.0000 0014000 120.0000 240.0000 14.13000000770000" ++ String "010" "" ].

End Tle.

(** ** Pass duration refiner: [calculate_pass_duration] *)

Module Refiner.

(** [ephem.hour], [ephem.minute] and [ephem.second], in days
    (ephem/__init__.py). *)
Definition hour : float := (1 / 24)%float.
Definition minute : float := (hour / 60)%float.
Definition second : float := (minute / 60)%float.

(** What [observer.next_pass(sat)] does at a cursor date: it returns the
    tuple (of which the code reads the rise time [tr], the maximum
    altitude [altt] and the set time [ts]), raises [ValueError], or raises
    another exception. [altt_deg] is [math.degrees(altt)]. *)
Inductive NextPass :=
| Pass (tr : float) (altt_deg : Q) (ts : float)
| NoMorePasses
| Failure.

(** The propagator ([ephem]) for the configured observer.
    [readtle r] is false when [ephem.readtle] raises on the record;
    [alt_deg r t] is [math.degrees(sat.alt)] after [sat.compute(observer)]
    at date [t], or [None] when the computation raises.
    [of_datetime now] is the date that [observer.date = now] stores, and
    [datetime d] is [d.datetime()]: the conversions are the library's,
    and nothing is assumed of them; one need not undo the other. *)
Record Ephem := mkEphem {
  readtle : Tle.Record_ -> bool;
  alt_deg : Tle.Record_ -> float -> option Q;
  next_pass : Tle.Record_ -> float -> NextPass;
  of_datetime : Z -> float;
  datetime : float -> Z
}.

(** [int(x)] on a float that is only compared and truncated: truncation
    towards zero. *)
Definition py_int (x : Q) : Z :=
  if Qle_bool 0 x then Qfloor x else Qceiling x.

(** [a < b] on floats. *)
Definition Qlt_bool (a b : Q) : bool := negb (Qle_bool b a).

(** [int(x)] on a binary64 float: truncation towards zero; [None] when
    [x] is an infinity or a NaN, for which [int] raises [OverflowError]
    or [ValueError]. *)
Definition py_int_float (x : float) : option Z :=
  match Prim2SF x with
  | S754_zero _ => Some 0
  | S754_finite s m e => Some (cond_Zopp s (Z.shiftl (Z.pos m) e))
  | S754_infinity _ => None
  | S754_nan => None
  end.

(** A binary64 number that is a zero, or has the sign [s]. *)
Definition signed (s : bool) (x : spec_float) : Prop :=
  match x with
  | S754_zero _ => True
  | S754_infinity s' => s' = s
  | S754_nan => False
  | S754_finite s' _ _ => s' = s
  end.

(** [int((current_time - aos_time) * 86400)] *)
Definition elapsed (aos_time current_time : float) : option Z :=
  py_int_float ((current_time - aos_time) * 86400)%float.

(** The body of [for _ in range(40)], run [n] times from [current_time].
    The first component lists the dates given to [sat.compute], in order;
    the second is the value returned, [None] when an exception left the
    loop. After the last round the code returns [600, int(max_el)]. *)
Fixpoint scan (n : nat) (elev : float -> option Q) (aos_time current_time : float)
         (max_el : Q) : list float * option (Z * Z) :=
  match n with
  | O => ([], Some (600, py_int max_el))
  | S n' =>
      match elev current_time with
      | None => ([current_time], None)
      | Some el =>
          let max_el := if Qlt_bool max_el el then el else max_el in
          if Qlt_bool el 0 && (aos_time <? current_time)%float
          then ([current_time],
                match elapsed aos_time current_time with
                | Some duration => Some (duration, py_int max_el)
                | None => None
                end)
          else
            let (dates, r) :=
              scan n' elev aos_time (current_time + second * 30)%float max_el in
            (current_time :: dates, r)
      end
  end.

(** [calculate_pass_duration] together with the dates it sampled. *)
Definition calculate_pass_duration_run (eph : Ephem) (tle_file : Tle.File)
           (sat_name : string) (aos_time : float) : list float * (Z * Z) :=
  match Tle.get_tle_data tle_file sat_name with
  | None => ([], (0, 0))
  | Some tle =>
      if readtle eph tle then
        match scan 40 (alt_deg eph tle) aos_time aos_time 0 with
        | (dates, Some r) => (dates, r)
        | (dates, None) => (dates, (600, 0))
        end
      else ([], (600, 0))
  end.

Definition calculate_pass_duration (eph : Ephem) (tle_file : Tle.File)
           (sat_name : string) (aos_time : float) : Z * Z :=
  snd (calculate_pass_duration_run eph tle_file sat_name aos_time).

(** The date of sample [i]: [i] times [current_time + ephem.second * 30]
    from the rise time. *)
Fixpoint date (aos_time : float) (i : nat) : float :=
  match i with
  | O => aos_time
  | S i' => (date aos_time i' + second * 30)%float
  end.

(** The dates of the first [m] samples. *)
Definition sample_dates (aos_time : float) (m : nat) : list float :=
  map (date aos_time) (seq 0 m).

(** Conversions for the examples. An instant counts the seconds since the
    origin of the dates; [seconds_of] rounds to the nearest second. *)
Definition float_of_Z (t : Z) : float := SF2Prim (binary_normalize prec emax t 0 false).

Definition days_of (t : Z) : float := (float_of_Z t / 86400)%float.

Definition seconds_of (d : float) : Z :=
  match py_int_float (d * 86400 + 0.5)%float with
  | Some t => t
  | None => 0
  end.


(** Noon on the first day of 2024, and the first day of 2100, as dates. *)
Definition noon_2024_01_01 : float := 45291%float.

End Refiner.

(** ** Pass predictor: [predict_next_passes] *)

Module Predictor.
Import Refiner.

(** One entry of [config['satellites']]. *)
Record SatConfig := mkSat { enabled : bool; frequency : Z }.

(** The dictionary appended to [passes]. *)
Record PassInfo := mkPass {
  satellite : string;
  aos : Z;
  los : Z;
  max_elevation : Q;
  duration : Z;
  frequency_ : Z
}.

Section Predict.
Variable eph : Ephem.
Variable tle_file : Tle.File.
(** [config['reception']['min_elevation']] *)
Variable min_elevation : Q.
Variable end_time : Z.

(** The loop [while observer.date.datetime() < end_time] for one
    satellite; [cursor] is [observer.date] and [passes] the shared list.
    An exception other than [ValueError] leaves the loop for the handler
    of the satellite, which logs it: the list keeps what was appended.
    [None] only when [fuel] rounds were not enough. *)
Fixpoint find_passes (fuel : nat) (sat_name : string) (sat_config : SatConfig)
         (tle : Tle.Record_) (cursor : float) (passes : list PassInfo)
  : option (list PassInfo) :=
  match fuel with
  | O => None
  | S fuel' =>
      if datetime eph cursor <? end_time then
        match next_pass eph tle cursor with
        | Pass tr altt_deg ts =>
            if datetime eph tr >? end_time then Some passes
            else
              let passes :=
                if Qle_bool min_elevation altt_deg then
                  let (duration, _) := calculate_pass_duration eph tle_file sat_name tr in
                  (passes ++ [mkPass sat_name (datetime eph tr) (datetime eph ts)
                                     altt_deg duration (frequency sat_config)])%list
                else passes in
              find_passes fuel' sat_name sat_config tle (ts + minute)%float passes
        | NoMorePasses => Some passes
        | Failure => Some passes
        end
      else Some passes
  end.

(** The loop over [config['satellites'].items()]; [observer.date = now]
    for each satellite. *)
Fixpoint each_satellite (fuel : nat) (sats : list (string * SatConfig))
         (now : Z) (passes : list PassInfo) : option (list PassInfo) :=
  match sats with
  | [] => Some passes
  | (sat_name, sat_config) :: rest =>
      if negb (enabled sat_config) then each_satellite fuel rest now passes
      else
        match Tle.get_tle_data tle_file sat_name with
        | None => each_satellite fuel rest now passes
        | Some tle =>
            if readtle eph tle then
              match find_passes fuel sat_name sat_config tle (of_datetime eph now)
                                passes with
              | None => None
              | Some passes => each_satellite fuel rest now passes
              end
            else each_satellite fuel rest now passes
        end
  end.
End Predict.

(** [passes.sort(key=lambda x: x['aos'])]: a stable sort. *)
Fixpoint insert_by_aos (p : PassInfo) (l : list PassInfo) : list PassInfo :=
  match l with
  | [] => [p]
  | q :: l' => if aos p <=? aos q then p :: l else q :: insert_by_aos p l'
  end.

Fixpoint sort_by_aos (l : list PassInfo) : list PassInfo :=
  match l with
  | [] => []
  | p :: l' => insert_by_aos p (sort_by_aos l')
  end.

(** [predict_next_passes(hours)] called at instant [now]; [fuel] bounds
    the rounds of each satellite's [while] loop. *)
Definition predict_next_passes (eph : Ephem) (tle_file : Tle.File)
           (sats : list (string * SatConfig)) (min_elevation : Q)
           (fuel : nat) (now : Z) (hours : Z) : option (list PassInfo) :=
  let end_time := now + 3600 * hours in
  option_map sort_by_aos
    (each_satellite eph tle_file min_elevation end_time fuel sats now []).


(** The list is in non-decreasing order of [aos]. *)
Definition ordered_by_aos (l : list PassInfo) : Prop :=
  Sorted (fun p q => aos p <= aos q) l.

(** The invariants of a prediction. *)
Definition pass_invariant (p : PassInfo) : Prop :=
  aos p < los p /\ 0 <= duration p /\ (0 <= max_elevation p)%Q
  /\ (max_elevation p <= 90)%Q.

(** One satellite, enabled. *)
Definition one_satellite : list (string * SatConfig) :=
  [("NOAA 15", mkSat true 137620000)].

(** A propagator that reports one pass, rising at the instant [tr] with
    maximum altitude [altt] and setting at the instant [ts], and whose
    samples are 10 degrees until the instant 700 and negative afterwards. *)
Definition one_pass (tr : Z) (altt : Q) (ts : Z) : Ephem :=
  mkEphem (fun _ => true)
          (fun _ t => Some (if seconds_of t <? 700 then 10 # 1 else - (1 # 1))%Q)
          (fun _ cursor => if seconds_of cursor <? tr
                           then Pass (days_of tr) altt (days_of ts)
                           else NoMorePasses)
          days_of seconds_of.

End Predictor.

(** ** The process and its surroundings *)

Module Sys.

(** The exceptions that matter to the handlers. All of them derive from
    [Exception] except [KeyboardInterrupt]. *)
Inductive exn :=
| CalledProcessError
| TimeoutExpired
| OSError
| ValueError
| UnicodeDecodeError
| KeyboardInterrupt.

Definition is_Exception (e : exn) : bool :=
  match e with
  | KeyboardInterrupt => false
  | _ => true
  end.

(** The files that exist, each with its size in bytes. The first entry
    for a path is the file. *)
Definition FS := list (string * Z).

Definition path_eqb (path : string) (entry : string * Z) : bool :=
  String.eqb (fst entry) path.

(** [os.path.exists(path)] *)
Definition exists_ (fs : FS) (path : string) : bool :=
  existsb (path_eqb path) fs.

(** [os.path.getsize(path)] of a file that exists. *)
Definition getsize (fs : FS) (path : string) : Z :=
  match find (path_eqb path) fs with
  | Some entry => snd entry
  | None => 0
  end.

Definition unlink (fs : FS) (path : string) : FS :=
  filter (fun entry => negb (path_eqb path entry)) fs.

(** [os.path.join(a, b)] *)
Definition path_join (a b : string) : string :=
  if String.prefix "/" b then b
  else if String.eqb a "" || PyStr.endswith a "/" then a ++ b
  else a ++ "/" ++ b.

Inductive Level := DEBUG | INFO | WARNING | ERROR.

(** The image kinds, in the order [process_audio] generates them. *)
Inductive Kind := Basic | MSA | MSA_PRECIP | HVCT | THERM.

(** The log lines of the lookup, the refiner, the predictor, the capture
    session, the pipeline and the scheduler. *)
Inductive LogMsg :=
| StartingCapture (sat_name : string) (aos : Z)
| WaitingUntilAOS (wait_seconds : Z)
| RecordingFor (duration : Z)
| Command (cmd : list string)
| CaptureComplete (audio_file : string)
| AudioEmptyOrMissing (audio_file : string)
| ErrorDuringCapture (e : exn)
| SendingToDisplay (image_file : string)
| SentToDisplay
| FailedToSend
| ProcessingAudio (audio_file : string)
| AudioResampled
| FailedToResample
| Generated (kind : Kind) (output_file : string)
| GenerationFailed (kind : Kind)
| RemovedRawAudio (audio_file : string)
| TleFileNotFound
| SatelliteNotFound (sat_name : string)
| ErrorReadingTle
| ErrorCalculatingDuration
| PredictingPasses (hours : Z)
| PassPredicted (sat_name : string) (aos : Z) (max_alt_deg : Q) (duration : Z)
| ErrorPredicting (sat_name : string)
| NoPassesFound
| NextPassIs (sat_name : string) (aos : Z)
| SleepingFor (wait_seconds : Z)
| NoPassesScheduled
| StartingScheduler
| SchedulerStopped
| ErrorInScheduler (e : exn).

(** What the process does to the outside, in order. *)
Inductive Event :=
| Log (level : Level) (msg : LogMsg)
| Makedirs (path : string)
| Sleep (seconds : Z)
| Run (argv : list string)
| Popen (argv : list string)
| Terminate
| Wait (timeout : Z)
| Kill
| Remove (path : string).

(** The state the code reads and changes: the clock ([datetime.utcnow()],
    in seconds), the files, and the instant of a pending Ctrl-C, if any.
    The clock moves in [time.sleep] and in [process.wait], and that is
    where a Ctrl-C is delivered; the time the programs of [subprocess.run]
    take is not counted. *)
Record World := mkWorld {
  clock : Z;
  files : FS;
  sigint : option Z
}.

Inductive Outcome (A : Type) :=
| Ret (a : A)
| Raise (e : exn)
| Diverge.
Arguments Ret {A} a.
Arguments Raise {A} e.
Arguments Diverge {A}.

Record Result (A : Type) := mkResult {
  outcome : Outcome A;
  final : World;
  emitted : list Event
}.
Arguments mkResult {A} _ _ _.
Arguments outcome {A} _.
Arguments final {A} _.
Arguments emitted {A} _.

(** A piece of code: from the state before to the outcome, the state
    after and the events in between. *)
Definition M (A : Type) := World -> Result A.

Definition ret {A} (a : A) : M A := fun w => mkResult (Ret a) w [].

Definition raise {A} (e : exn) : M A := fun w => mkResult (Raise e) w [].

Definition diverge {A} : M A := fun w => mkResult Diverge w [].

Definition bind {A B} (m : M A) (k : A -> M B) : M B :=
  fun w =>
    let r := m w in
    match outcome r with
    | Ret a =>
        let r' := k a (final r) in
        mkResult (outcome r') (final r') (emitted r ++ emitted r')
    | Raise e => mkResult (Raise e) (final r) (emitted r)
    | Diverge => mkResult Diverge (final r) (emitted r)
    end.

(** [try: body / except <catches>: handler] *)
Definition try_except {A} (body : M A) (catches : exn -> bool)
           (handler : exn -> M A) : M A :=
  fun w =>
    let r := body w in
    match outcome r with
    | Raise e =>
        if catches e then
          let r' := handler e (final r) in
          mkResult (outcome r') (final r') (emitted r ++ emitted r')
        else r
    | _ => r
    end.

Definition emit (e : Event) : M unit := fun w => mkResult (Ret tt) w [e].

Definition log (level : Level) (msg : LogMsg) : M unit := emit (Log level msg).

Definition utcnow : M Z := fun w => mkResult (Ret (clock w)) w [].

Definition get_files : M FS := fun w => mkResult (Ret (files w)) w [].

Definition set_files (fs : FS) : M unit :=
  fun w => mkResult (Ret tt) (mkWorld (clock w) fs (sigint w)) [].

(** [time.sleep(seconds)] *)
Definition sleep (seconds : Z) : M unit :=
  fun w =>
    if seconds <? 0 then mkResult (Raise ValueError) w []
    else
      match sigint w with
      | Some t =>
          if t <? clock w + seconds
          then mkResult (Raise KeyboardInterrupt)
                        (mkWorld (Z.max (clock w) t) (files w) None)
                        [Sleep seconds]
          else mkResult (Ret tt) (mkWorld (clock w + seconds) (files w) (sigint w))
                        [Sleep seconds]
      | None => mkResult (Ret tt) (mkWorld (clock w + seconds) (files w) None)
                         [Sleep seconds]
      end.

(** [os.remove(path)]: raises when there is no such file. *)
Definition os_remove (path : string) : M unit :=
  fun w =>
    if exists_ (files w) path
    then mkResult (Ret tt) (mkWorld (clock w) (unlink (files w) path) (sigint w))
                  [Remove path]
    else mkResult (Raise OSError) w [Remove path].

(** One run of an external program to its end: its exit status, or the
    exception [subprocess.run] raises instead (the program is missing,
    the timeout expired), and the files afterwards. *)
Inductive ToolRun :=
| Exit (returncode : Z) (fs : FS)
| Fails (e : exn) (fs : FS).

(** A recorder started by [subprocess.Popen]: the files after it ran for
    so many seconds and was told to terminate, and the seconds it then
    takes to exit, [None] when it does not exit at all. *)
Record Process := mkProcess {
  started : Z;
  recorded : Z -> FS;
  exit_delay : option Z
}.

(** [config['processing']]: a key is [None] when the file does not have
    it, and [config.get(key, True)] then gives [True]. *)
Record Processing := mkProcessing {
  generate_basic : option bool;
  generate_msa : option bool;
  generate_msa_precip : option bool;
  generate_hvct : option bool;
  generate_therm : option bool;
  save_raw_audio : option bool
}.

Definition get_or_true (value : option bool) : bool :=
  match value with
  | Some b => b
  | None => true
  end.

Record Reception := mkReception {
  min_elevation : Q;
  rtl_sdr_gain : Z;
  sample_rate : Z;
  frequency_offset : Z
}.

Record Directories := mkDirectories {
  dir_audio : string;
  dir_images : string
}.

Record Config := mkConfig {
  directories : Directories;
  satellites : list (string * Predictor.SatConfig);
  reception : Reception;
  processing : Processing
}.

(** The configuration and the collaborators. [stderr_decodes] tells
    whether what a program run on these files writes to its standard error
    is valid UTF-8; [glob_wildcards] is what [glob.glob] returns on these
    files for a pattern that has wildcards before its last star;
    [makedirs_ok] tells whether
    [os.makedirs(path, exist_ok=True)] succeeds; [strftime] formats an
    instant as [%Y%m%d_%H%M%S]; [predict_fuel] bounds the rounds of the
    predictor's loops. *)
Record Env := mkEnv {
  config : Config;
  eph : Refiner.Ephem;
  tle_file : Tle.File;
  subprocess_run : list string -> FS -> ToolRun;
  subprocess_popen : list string -> FS -> option (Z -> FS) * option Z;
  stderr_decodes : list string -> FS -> bool;
  glob_wildcards : string -> FS -> list string;
  makedirs_ok : string -> FS -> bool;
  strftime : Z -> string;
  predict_fuel : nat
}.

(** [subprocess.run(argv, ...)], giving the return code. *)
Definition run (env : Env) (argv : list string) : M Z :=
  fun w =>
    match subprocess_run env argv (files w) with
    | Exit returncode fs =>
        mkResult (Ret returncode) (mkWorld (clock w) fs (sigint w)) [Run argv]
    | Fails e fs =>
        mkResult (Raise e) (mkWorld (clock w) fs (sigint w)) [Run argv]
    end.

(** [subprocess.run(argv, check=True, ...)] *)
Definition run_checked (env : Env) (argv : list string) : M unit :=
  bind (run env argv)
       (fun returncode => if returncode =? 0 then ret tt else raise CalledProcessError).

(** [os.makedirs(path, exist_ok=True)] *)
Definition os_makedirs (env : Env) (path : string) : M unit :=
  fun w =>
    if makedirs_ok env path (files w)
    then mkResult (Ret tt) w [Makedirs path]
    else mkResult (Raise OSError) w [Makedirs path].

(** [subprocess.Popen(argv, ...)]: [OSError] when the program cannot be
    started. *)
Definition popen (env : Env) (argv : list string) : M Process :=
  fun w =>
    match subprocess_popen env argv (files w) with
    | (Some rec, delay) =>
        mkResult (Ret (mkProcess (clock w) rec delay)) w [Popen argv]
    | (None, _) => mkResult (Raise OSError) w [Popen argv]
    end.

(** [process.terminate()]: what was recorded is what the recorder wrote
    in the time it ran. *)
Definition terminate (process : Process) : M unit :=
  fun w =>
    mkResult (Ret tt)
             (mkWorld (clock w) (recorded process (clock w - started process)) (sigint w))
             [Terminate].

(** Whether the process has exited when [timeout] seconds have passed. *)
Definition exits_within (process : Process) (timeout : Z) : bool :=
  match exit_delay process with
  | Some delay => delay <=? timeout
  | None => false
  end.

(** The seconds [process.wait(timeout)] blocks: until the process has
    exited, and no longer than [timeout]. *)
Definition wait_time (process : Process) (timeout : Z) : Z :=
  match exit_delay process with
  | Some delay => Z.max 0 (Z.min delay timeout)
  | None => Z.max 0 timeout
  end.

(** [process.wait(timeout=5)]: returns when the process has exited, raises
    [TimeoutExpired] when the timeout has passed first. *)
Definition wait (process : Process) (timeout : Z) : M unit :=
  fun w =>
    let seconds := wait_time process timeout in
    let w' := mkWorld (clock w + seconds) (files w) (sigint w) in
    let interrupted :=
      match sigint w with
      | Some t => t <? clock w + seconds
      | None => false
      end in
    if interrupted
    then mkResult (Raise KeyboardInterrupt)
                  (mkWorld (match sigint w with
                            | Some t => Z.max (clock w) t
                            | None => clock w
                            end) (files w) None)
                  [Wait timeout]
    else if exits_within process timeout then mkResult (Ret tt) w' [Wait timeout]
    else mkResult (Raise TimeoutExpired) w' [Wait timeout].

Definition kill (process : Process) : M unit := emit Kill.

Declare Scope m_scope.
Delimit Scope m_scope with M.
Notation "x <- m ;; k" := (bind m (fun x => k))
  (at level 61, m at next level, right associativity) : m_scope.
Notation "m ;; k" := (bind m (fun _ => k))
  (at level 61, right associativity) : m_scope.

End Sys.

(** ** Image pipeline: [send_to_epaper] and [process_audio] *)

Module Pipeline.
Import Sys.
Local Open Scope m_scope.

(** [audio_file.replace('.wav', '_resampled.wav')] *)
Fixpoint replace_wav (s : string) : string :=
  match s with
  | EmptyString => EmptyString
  | String c s' =>
      match c, s' with
      | "."%char, String "w" (String "a" (String "v" rest)) =>
          "_resampled.wav" ++ replace_wav rest
      | _, _ => String c (replace_wav s')
      end
  end.

(** [sorted(names)] on strings. *)
Fixpoint insert_name (x : string) (l : list string) : list string :=
  match l with
  | [] => [x]
  | y :: l' => if String.leb x y then x :: l else y :: insert_name x l'
  end.

Fixpoint sorted (l : list string) : list string :=
  match l with
  | [] => []
  | x :: l' => insert_name x (sorted l')
  end.

Fixpoint no_slash (s : string) : bool :=
  match s with
  | EmptyString => true
  | String c s' => negb (Ascii.eqb c "/") && no_slash s'
  end.

(** What follows the last ["/"] of a path. *)
Fixpoint last_component (s : string) : string :=
  match s with
  | EmptyString => EmptyString
  | String c s' =>
      if no_slash s' then (if Ascii.eqb c "/" then s' else s)
      else last_component s'
  end.

(** Whether a string has one of the characters [*], [?] and [[], which
    [glob] reads as wildcards. *)
Fixpoint has_magic (s : string) : bool :=
  match s with
  | EmptyString => false
  | String c s' =>
      Ascii.eqb c "*" || Ascii.eqb c "?" || Ascii.eqb c "[" || has_magic s'
  end.

(** Whether [path] matches [stem*.png], for a [stem] free of the
    characters [*], [?] and [[]: the star stands for any characters but
    ["/"], and not for a leading dot of the file name. *)
Definition matches_png (stem path : string) : bool :=
  let n := String.length stem in
  let rest := String.substring n (String.length path - n) path in
  String.prefix stem path
  && PyStr.endswith rest ".png"
  && no_slash rest
  && negb (String.eqb (last_component stem) "" && String.prefix "." rest).

(** [glob.glob(os.path.join(image_dir, f"{filename_base}*.png"))]: the
    directory and the base name are part of the pattern, so that a
    wildcard character in them is read as one, and not as itself. *)
Definition glob_png (env : Env) (fs : FS) (image_dir filename_base : string)
  : list string :=
  if has_magic (path_join image_dir filename_base)
  then glob_wildcards env (path_join image_dir (filename_base ++ "*.png")) fs
  else filter (matches_png (path_join image_dir filename_base)) (map fst fs).

Definition send_to_epaper (env : Env) (image_file : string) : M unit :=
  try_except
    (log INFO (SendingToDisplay image_file) ;;
     returncode <- run env ["sshpass"; "-p"; "1234"; "scp"; "-o";
                            "StrictHostKeyChecking=no"; image_file;
                            "epaper@192.168.1.220:~/incoming/"] ;;
     if returncode =? 0 then log INFO SentToDisplay else log ERROR FailedToSend)
    is_Exception
    (fun _ => log ERROR FailedToSend).

Definition is_CalledProcessError (e : exn) : bool :=
  match e with
  | CalledProcessError => true
  | _ => false
  end.

(** The command line of the decoder for one kind. *)
Definition noaa_apt_cmd (kind : Kind) (resampled_file output_file : string)
  : list string :=
  match kind with
  | Basic => ["noaa-apt"; resampled_file; "-o"; output_file]
  | MSA => ["noaa-apt"; resampled_file; "-c"; "msa"; "-o"; output_file]
  | MSA_PRECIP => ["noaa-apt"; resampled_file; "-c"; "msa-precip"; "-o"; output_file]
  | HVCT => ["noaa-apt"; resampled_file; "-c"; "hvct"; "-o"; output_file]
  | THERM => ["noaa-apt"; resampled_file; "-c"; "therm"; "-o"; output_file]
  end.

Definition suffix (kind : Kind) : string :=
  match kind with
  | Basic => ".png"
  | MSA => "_MSA.png"
  | MSA_PRECIP => "_MSA_PRECIP.png"
  | HVCT => "_HVCT.png"
  | THERM => "_THERM.png"
  end.

Definition output_file (image_dir filename_base : string) (kind : Kind) : string :=
  path_join image_dir (filename_base ++ suffix kind).

(** [e.stderr.decode()] on the standard error of the run of [argv] on the
    files [fs]: raises when it is not valid UTF-8. *)
Definition decode_stderr (env : Env) (argv : list string) (fs : FS) : M unit :=
  if stderr_decodes env argv fs then ret tt else raise UnicodeDecodeError.

(** One [try: subprocess.run(noaa_apt_cmd, check=True, ...)] block; the
    result tells whether the decoder succeeded. The basic block logs a
    failure as an error, the others at debug level. The handlers of the
    basic and of the MSA block decode the standard error of the decoder for
    their log line, and that is done before the line is logged; the other
    three handlers do not look at it. *)
Definition generate (env : Env) (kind : Kind) (resampled_file output_file : string)
  : M bool :=
  fs <- get_files ;;
  try_except
    (run_checked env (noaa_apt_cmd kind resampled_file output_file) ;;
     log INFO (Generated kind output_file) ;;
     ret true)
    is_CalledProcessError
    (fun _ =>
       match kind with
       | Basic | MSA =>
           decode_stderr env (noaa_apt_cmd kind resampled_file output_file) fs
       | _ => ret tt
       end ;;
       log (match kind with Basic => ERROR | _ => DEBUG end) (GenerationFailed kind) ;;
       ret false).

(** A false colour block: nothing is kept of its result. *)
Definition generate_if (env : Env) (flag : option bool) (kind : Kind)
           (resampled_file image_dir filename_base : string) : M unit :=
  if get_or_true flag
  then generate env kind resampled_file (output_file image_dir filename_base kind) ;;
       ret tt
  else ret tt.

Definition sox_cmd (audio_file resampled_file : string) : list string :=
  ["sox"; "-t"; "raw"; "-r"; "60000"; "-e"; "signed"; "-b"; "16"; "-c"; "1";
   audio_file; "-r"; "11025"; resampled_file].

(** A string in a condition: true when it is not empty. *)
Definition truthy (s : string) : bool := negb (String.eqb s "").

(** The choice of the image to send, after the five blocks. *)
Definition forward (env : Env) (first_image : option string)
           (image_dir filename_base : string) : M unit :=
  fs <- get_files ;;
  let found :=
    match first_image with
    | Some image => truthy image && exists_ fs image
    | None => false
    end in
  match first_image, found with
  | Some image, true => send_to_epaper env image
  | _, _ =>
      match sorted (glob_png env fs image_dir filename_base) with
      | image :: _ => send_to_epaper env image
      | [] => ret tt
      end
  end.

Definition catch_all (e : exn) : bool := true.

Definition process_audio (env : Env) (audio_file filename_base sat_name : string)
  : M unit :=
  log INFO (ProcessingAudio audio_file) ;;
  let image_dir := dir_images (directories (config env)) in
  os_makedirs env image_dir ;;
  let resampled_file := replace_wav audio_file in
  resampled <- try_except
                 (run_checked env (sox_cmd audio_file resampled_file) ;;
                  log INFO AudioResampled ;;
                  ret true)
                 is_CalledProcessError
                 (fun _ => log ERROR FailedToResample ;; ret false) ;;
  if negb resampled then ret tt
  else
    let config := processing (config env) in
    first_image <-
      (if get_or_true (generate_basic config)
       then
         ok <- generate env Basic resampled_file
                        (output_file image_dir filename_base Basic) ;;
         ret (if ok then Some (output_file image_dir filename_base Basic) else None)
       else ret None) ;;
    generate_if env (generate_msa config) MSA resampled_file image_dir filename_base ;;
    generate_if env (generate_msa_precip config) MSA_PRECIP resampled_file
                image_dir filename_base ;;
    generate_if env (generate_hvct config) HVCT resampled_file image_dir filename_base ;;
    generate_if env (generate_therm config) THERM resampled_file image_dir filename_base ;;
    forward env first_image image_dir filename_base ;;
    (if negb (get_or_true (save_raw_audio config))
     then try_except
            (os_remove audio_file ;; log INFO (RemovedRawAudio audio_file))
            catch_all
            (fun _ => ret tt)
     else ret tt) ;;
    try_except (os_remove resampled_file) catch_all (fun _ => ret tt).

End Pipeline.

(** ** Capture session: [capture_pass] *)

Module Capture.
Import Sys Predictor.
Local Open Scope m_scope.

(** [str(n)] for an integer. *)
Definition str (n : Z) : string := DecimalString.NilZero.string_of_int (Z.to_int n).

Definition filename_base (env : Env) (pass_info : PassInfo) : string :=
  PyStr.replace_char " " "_" (satellite pass_info) ++ "_" ++ strftime env (aos pass_info).

Definition audio_file (env : Env) (pass_info : PassInfo) : string :=
  path_join (dir_audio (directories (config env)))
            (filename_base env pass_info ++ ".wav").

Definition rtl_fm_cmd (env : Env) (pass_info : PassInfo) : list string :=
  let reception := reception (config env) in
  ["rtl_fm";
   "-f"; str (frequency_ pass_info + frequency_offset reception);
   "-s"; str (sample_rate reception);
   "-g"; str (rtl_sdr_gain reception);
   "-p"; "0"; "-E"; "dc"; "-F"; "9"; "-A"; "fast";
   audio_file env pass_info].

(** Up to the [try]: the directory, the wait until AOS, the log lines. *)
Definition prepare (env : Env) (pass_info : PassInfo) : M unit :=
  os_makedirs env (dir_audio (directories (config env))) ;;
  log INFO (StartingCapture (satellite pass_info) (aos pass_info)) ;;
  now <- utcnow ;;
  (if aos pass_info >? now
   then log INFO (WaitingUntilAOS (aos pass_info - now)) ;;
        sleep (aos pass_info - now)
   else ret tt) ;;
  log INFO (RecordingFor (duration pass_info)) ;;
  log DEBUG (Command (rtl_fm_cmd env pass_info)).

(** From [subprocess.Popen] to the line "Capture complete". *)
Definition record (env : Env) (pass_info : PassInfo) : M unit :=
  process <- popen env (rtl_fm_cmd env pass_info) ;;
  sleep (duration pass_info) ;;
  terminate process ;;
  try_except (wait process 5)
             (fun e => match e with TimeoutExpired => true | _ => false end)
             (fun _ => kill process) ;;
  log INFO (CaptureComplete (audio_file env pass_info)).

(** [os.path.exists(audio_file) and os.path.getsize(audio_file) > 0] *)
Definition artifact_ok (fs : FS) (audio_file : string) : bool :=
  exists_ fs audio_file && (getsize fs audio_file >? 0).

(** The [if] that follows the recording. *)
Definition process_recording (env : Env) (pass_info : PassInfo) : M unit :=
  fs <- get_files ;;
  if artifact_ok fs (audio_file env pass_info)
  then Pipeline.process_audio env (audio_file env pass_info)
                              (filename_base env pass_info) (satellite pass_info)
  else log ERROR (AudioEmptyOrMissing (audio_file env pass_info)).

Definition capture_pass (env : Env) (pass_info : PassInfo) : M unit :=
  prepare env pass_info ;;
  try_except
    (record env pass_info ;; process_recording env pass_info)
    is_Exception
    (fun e => log ERROR (ErrorDuringCapture e)).

End Capture.

(** ** The predictor with its log lines *)

Module Forecast.
Import Refiner Predictor Sys.
Local Open Scope list_scope.

(** What [get_tle_data] logs: the file is missing, it cannot be read, or
    no line has the name. *)
Definition get_tle_data_log (tle_file : Tle.File) (sat_name : string) : list Event :=
  match tle_file with
  | Tle.Absent => [Log ERROR TleFileNotFound]
  | Tle.Unreadable => [Log ERROR ErrorReadingTle]
  | Tle.Lines lines =>
      match Tle.search sat_name lines with
      | Some _ => []
      | None => [Log ERROR (SatelliteNotFound sat_name)]
      end
  end.

(** What [calculate_pass_duration] logs: the lines of its lookup and the
    line of its handler. *)
Definition calculate_pass_duration_log (eph : Ephem) (tle_file : Tle.File)
           (sat_name : string) (aos_time : float) : list Event :=
  get_tle_data_log tle_file sat_name
  ++ match Tle.get_tle_data tle_file sat_name with
     | None => []
     | Some tle =>
         if readtle eph tle then
           match snd (scan 40 (alt_deg eph tle) aos_time aos_time 0) with
           | Some _ => []
           | None => [Log ERROR ErrorCalculatingDuration]
           end
         else [Log ERROR ErrorCalculatingDuration]
     end.

Section Run.
Variable eph : Ephem.
Variable tle_file : Tle.File.
Variable min_elevation : Q.
Variable end_time : Z.

(** [Predictor.find_passes] with the lines logged on the way: those of
    the refiner and the line of each prediction, and the line of the
    satellite's handler when [next_pass] raises. *)
Fixpoint find_passes_run (fuel : nat) (sat_name : string) (sat_config : SatConfig)
         (tle : Tle.Record_) (cursor : float) (passes : list PassInfo)
         (logged : list Event) : option (list PassInfo * list Event) :=
  match fuel with
  | O => None
  | S fuel' =>
      if datetime eph cursor <? end_time then
        match next_pass eph tle cursor with
        | Pass tr altt_deg ts =>
            if datetime eph tr >? end_time then Some (passes, logged)
            else
              if Qle_bool min_elevation altt_deg then
                let (duration, _) := calculate_pass_duration eph tle_file sat_name tr in
                find_passes_run
                  fuel' sat_name sat_config tle (ts + minute)%float
                  (passes ++ [mkPass sat_name (datetime eph tr) (datetime eph ts)
                                     altt_deg duration (frequency sat_config)])
                  (logged ++ calculate_pass_duration_log eph tle_file sat_name tr
                          ++ [Log INFO (PassPredicted sat_name (datetime eph tr)
                                                      altt_deg duration)])
              else
                find_passes_run fuel' sat_name sat_config tle (ts + minute)%float
                                passes logged
        | NoMorePasses => Some (passes, logged)
        | Failure => Some (passes, logged ++ [Log ERROR (ErrorPredicting sat_name)])
        end
      else Some (passes, logged)
  end.

(** [Predictor.each_satellite] with the lines logged on the way. *)
Fixpoint each_satellite_run (fuel : nat) (sats : list (string * SatConfig))
         (now : Z) (passes : list PassInfo) (logged : list Event)
  : option (list PassInfo * list Event) :=
  match sats with
  | [] => Some (passes, logged)
  | (sat_name, sat_config) :: rest =>
      if negb (enabled sat_config) then each_satellite_run fuel rest now passes logged
      else
        match Tle.get_tle_data tle_file sat_name with
        | None =>
            each_satellite_run fuel rest now passes
                               (logged ++ get_tle_data_log tle_file sat_name)
        | Some tle =>
            if readtle eph tle then
              match find_passes_run fuel sat_name sat_config tle (of_datetime eph now)
                                    passes logged with
              | None => None
              | Some (passes, logged) => each_satellite_run fuel rest now passes logged
              end
            else
              each_satellite_run fuel rest now passes
                                 (logged ++ [Log ERROR (ErrorPredicting sat_name)])
        end
  end.
End Run.

(** [predict_next_passes(hours)] with the lines it logs, the first of
    which announces the prediction. *)
Definition predict_next_passes_run (eph : Ephem) (tle_file : Tle.File)
           (sats : list (string * SatConfig)) (min_elevation : Q)
           (fuel : nat) (now : Z) (hours : Z)
  : option (list PassInfo * list Event) :=
  let end_time := now + 3600 * hours in
  match each_satellite_run eph tle_file min_elevation end_time fuel sats now [] [] with
  | Some (passes, logged) =>
      Some (sort_by_aos passes, Log INFO (PredictingPasses hours) :: logged)
  | None => None
  end.

(** The call [self.predict_next_passes(hours=hours)]. *)
Definition predict (env : Env) (hours : Z) : M (list PassInfo) :=
  fun w =>
    match predict_next_passes_run (eph env) (tle_file env) (satellites (config env))
                                  (min_elevation (reception (config env)))
                                  (predict_fuel env) (clock w) hours with
    | Some (passes, logged) => mkResult (Ret passes) w logged
    | None => mkResult Diverge w []
    end.

End Forecast.

(** ** Scheduler: [schedule_next_pass] and [run_scheduler] *)

Module Scheduler.
Import Sys Predictor.
Local Open Scope m_scope.

Definition schedule_next_pass (env : Env) : M (option PassInfo) :=
  passes <- Forecast.predict env 24 ;;
  match passes with
  | [] => log WARNING NoPassesFound ;; ret None
  | next_pass :: _ =>
      log INFO (NextPassIs (satellite next_pass) (aos next_pass)) ;;
      ret (Some next_pass)
  end.

(** The body of the [try] in the loop. *)
Definition iteration (env : Env) : M unit :=
  next_pass <- schedule_next_pass env ;;
  match next_pass with
  | Some next_pass =>
      now <- utcnow ;;
      let wait_until := aos next_pass - 120 in
      (if wait_until >? now
       then log INFO (SleepingFor (wait_until - now)) ;;
            sleep (wait_until - now)
       else ret tt) ;;
      Capture.capture_pass env next_pass
  | None =>
      log INFO NoPassesScheduled ;;
      sleep (6 * 3600)
  end.

(** How one round of [while True] ends: [break] or the next round. *)
Inductive Round := Break | Again.

(** One round: the [try] with its two handlers. An exception raised in a
    handler leaves the loop and [run_scheduler]. *)
Definition round (env : Env) : M Round :=
  fun w =>
    let r := iteration env w in
    match outcome r with
    | Ret _ => mkResult (Ret Again) (final r) (emitted r)
    | Raise KeyboardInterrupt =>
        let r' := (log INFO SchedulerStopped ;; ret Break) (final r) in
        mkResult (outcome r') (final r') (emitted r ++ emitted r')
    | Raise e =>
        let r' := (log ERROR (ErrorInScheduler e) ;; sleep 300 ;; ret Again) (final r) in
        mkResult (outcome r') (final r') (emitted r ++ emitted r')
    | Diverge => mkResult Diverge (final r) (emitted r)
    end.

(** Whether [run_scheduler] has returned after the rounds it was given. *)
Inductive Status := Stopped | Running.

(** [while True], for [rounds] rounds. *)
Fixpoint loop (env : Env) (rounds : nat) : M Status :=
  match rounds with
  | O => ret Running
  | S rounds' =>
      r <- round env ;;
      match r with
      | Break => ret Stopped
      | Again => loop env rounds'
      end
  end.

Definition run_scheduler (env : Env) (rounds : nat) : M Status :=
  log INFO StartingScheduler ;;
  loop env rounds.

End Scheduler.

(** ** A station, for the examples *)

Module Station.
Import Sys.

Definition station_config : Config :=
  mkConfig (mkDirectories "/home/pi/noaa/audio" "/home/pi/noaa/images")
           Predictor.one_satellite
           (mkReception (20 # 1) 40 60000 0)
           (mkProcessing None None None None None None).

(** The external programs, which write text to their standard error; no
    file of the station matches a pattern with wildcards of its own. [sox]
    writes its output file and exits with
    [sox_code]; [noaa-apt] writes the image and exits with 0 for the plain
    image when [basic_ok], and for the modes listed in [modes_ok], and
    exits with 1 without an image otherwise; the transfer succeeds. *)
Definition programs (sox_code : Z) (basic_ok : bool) (modes_ok : list string)
  : list string -> FS -> ToolRun :=
  fun argv fs =>
    match argv with
    | "sox" :: rest => Exit sox_code ((last rest "", 4096) :: fs)
    | ["noaa-apt"; _; "-o"; out] =>
        if basic_ok then Exit 0 ((out, 8192) :: fs) else Exit 1 fs
    | ["noaa-apt"; _; "-c"; mode; "-o"; out] =>
        if existsb (String.eqb mode) modes_ok
        then Exit 0 ((out, 8192) :: fs) else Exit 1 fs
    | "sshpass" :: _ => Exit 0 fs
    | _ => Fails OSError fs
    end.

(** The recorder writes [bytes_per_second] bytes each second to the file
    named last on its command line, and exits at once when told to. *)
Definition recorder (bytes_per_second : Z)
  : list string -> FS -> option (Z -> FS) * option Z :=
  fun argv fs =>
    (Some (fun seconds => (last argv "", bytes_per_second * seconds) :: fs), Some 0).

Definition station (sox_code : Z) (basic_ok : bool) (modes_ok : list string)
           (bytes_per_second : Z) (dirs_ok : bool) : Env :=
  mkEnv station_config
        (Predictor.one_pass 100 (50 # 1) 700)
        (Tle.Lines Tle.two_records)
        (programs sox_code basic_ok modes_ok)
        (recorder bytes_per_second)
        (fun _ _ => true)
        (fun _ _ => [])
        (fun _ _ => dirs_ok)
        (fun _ => "20240101_120000")
        5.

(** The same station with ["generate_basic": false] in its configuration. *)
Definition without_basic (env : Env) : Env :=
  mkEnv (mkConfig (directories (config env)) (satellites (config env))
                  (reception (config env))
                  (mkProcessing (Some false)
                                (generate_msa (processing (config env)))
                                (generate_msa_precip (processing (config env)))
                                (generate_hvct (processing (config env)))
                                (generate_therm (processing (config env)))
                                (save_raw_audio (processing (config env)))))
        (eph env) (tle_file env) (subprocess_run env) (subprocess_popen env)
        (stderr_decodes env) (glob_wildcards env) (makedirs_ok env) (strftime env)
        (predict_fuel env).

Definition recording : string := "/home/pi/noaa/audio/NOAA_15_20240101_120000.wav".

Definition resampled : string :=
  "/home/pi/noaa/audio/NOAA_15_20240101_120000_resampled.wav".

(** The state after a recording of 60000 bytes. *)
Definition recorded_world : World := mkWorld 700 [(recording, 60000)] None.

(** The state when the process starts, at the date 0. *)
Definition start_world : World := mkWorld 0 [] None.

End Station.

(** ** What a trace shows *)

Module Trace.
Import Sys.

(** A line of the log. *)
Definition is_log (ev : Event) : bool :=
  match ev with
  | Log _ _ => true
  | _ => false
  end.

(** An invocation of the decoder. *)
Definition is_decoder_run (ev : Event) : bool :=
  match ev with
  | Run (program :: _) => String.eqb program "noaa-apt"
  | _ => false
  end.

(** An attempt to forward an image: the call of [send_to_epaper] starts
    with its log line, and the transfer is a run of [sshpass]. *)
Definition is_forward (ev : Event) : bool :=
  match ev with
  | Log _ (SendingToDisplay _) => true
  | Run (program :: _) => String.eqb program "sshpass"
  | _ => false
  end.

(** The images handed to [send_to_epaper], in order. *)
Fixpoint forwarded (evs : list Event) : list string :=
  match evs with
  | [] => []
  | Log _ (SendingToDisplay image_file) :: evs' => image_file :: forwarded evs'
  | _ :: evs' => forwarded evs'
  end.

(** An event of the image pipeline: the first line [process_audio] logs,
    or a program run to its end (the capture session starts its recorder
    with [Popen] and runs nothing else). *)
Definition is_pipeline (ev : Event) : bool :=
  match ev with
  | Log _ (ProcessingAudio _) => true
  | Run _ => true
  | _ => false
  end.

Definition count (f : Event -> bool) (evs : list Event) : nat :=
  List.length (filter f evs).

(** Every external program runs to its end and exits. *)
Definition runs_to_end (env : Env) : Prop :=
  forall argv fs, exists returncode fs', subprocess_run env argv fs = Exit returncode fs'.

(** What the programs write to their standard error is valid UTF-8. *)
Definition stderr_is_text (env : Env) : Prop :=
  forall argv fs, stderr_decodes env argv fs = true.

End Trace.

(** ** Text files and the element store: [update_tle] *)

Module Store.

(** A text read back with the default [newline=None]: ["\r\n"] and a lone
    ["\r"] come out as ["\n"]. *)
Fixpoint universal_newlines (s : string) : string :=
  match s with
  | EmptyString => EmptyString
  | String c s' =>
      if Ascii.eqb c "013" then
        match s' with
        | String c' s'' =>
            if Ascii.eqb c' "010" then String "010" (universal_newlines s'')
            else String "010" (universal_newlines s')
        | EmptyString => String "010" EmptyString
        end
      else String c (universal_newlines s')
  end.

(** [f.readlines()] on a text whose newlines are ["\n"]: every line keeps
    its newline, the last one has none when the text does not end with
    one. *)
Fixpoint readlines (s : string) : list string :=
  match s with
  | EmptyString => []
  | String c s' =>
      if Ascii.eqb c "010" then String c EmptyString :: readlines s'
      else
        match readlines s' with
        | [] => [String c EmptyString]
        | line :: lines => String c line :: lines
        end
  end.

(** What is read from a file in which [text] was written. *)
Definition written (text : string) : Tle.File :=
  Tle.Lines (readlines (universal_newlines text)).

(** [requests.get(tle_url, timeout=30)]: an exception (no connection, the
    timeout), or a response with its status code and its text. *)
Inductive Fetch :=
| ConnectionFailed
| Response (status_code : Z) (text : string).

(** [response.raise_for_status()] raises for the codes 400 to 599. *)
Definition raises_for_status (status_code : Z) : bool :=
  (400 <=? status_code) && (status_code <? 600).

(** [open(tle_file, 'w')] and [f.write]: done, or an exception, with what
    is in the file then. *)
Inductive Write :=
| Written
| WriteFailed (remains : Tle.File).

(** [update_tle]: the value returned and the element file afterwards;
    [None] when [os.makedirs], which is outside the [try], raises. *)
Definition update_tle (makedirs_ok : bool) (fetch : Fetch) (write : Write)
           (tle_file : Tle.File) : option (bool * Tle.File) :=
  if makedirs_ok then
    match fetch with
    | ConnectionFailed => Some (false, tle_file)
    | Response status_code text =>
        if raises_for_status status_code then Some (false, tle_file)
        else
          match write with
          | Written => Some (true, written text)
          | WriteFailed remains => Some (false, remains)
          end
    end
  else None.

(** Whether the first, the last character of a string is white space. *)
Definition first_is_space (s : string) : bool :=
  match s with
  | EmptyString => false
  | String c _ => PyStr.is_space c
  end.

Fixpoint last_is_space (s : string) : bool :=
  match s with
  | EmptyString => false
  | String c EmptyString => PyStr.is_space c
  | String _ s' => last_is_space s'
  end.

(** No white space at either end. *)
Definition trimmed (s : string) : bool :=
  negb (first_is_space s) && negb (last_is_space s).

(** No end of line inside. *)
Fixpoint one_line (s : string) : bool :=
  match s with
  | EmptyString => true
  | String c s' => negb (Ascii.eqb c "010") && negb (Ascii.eqb c "013") && one_line s'
  end.

Definition LF : string := String "010" EmptyString.
Definition CRLF : string := String "013" (String "010" EmptyString).

(** The text made of the lines [ls], each followed by [eol]. *)
Fixpoint unlines (eol : string) (ls : list string) : string :=
  match ls with
  | [] => EmptyString
  | l :: ls' => l ++ eol ++ unlines eol ls'
  end.

(** The element sets of two satellites, as lines without their ends. *)
Definition two_element_sets : list string :=
  [ "NOAA 15";
    "1 25338U 98030A   24001.50000000  .00000200  00000-0  10000-3 0  9990";
    "2 25338  98.5700  30.0000 0010000 100.0000 260.0000 14.26000000330000";
    "NOAA 19";
    "1 33591U 09005A   24001.50000000  .00000200  00000-0  10000-3 0  9990";
    "2 33591  99.0500  60.0000 0014000 120.0000 240.0000 14.13000000770000" ].

End Store.

(** ** More cases for the examples *)

Module Cases.

(** A propagator that cannot compute the elevation at the date [t0], and
    finds the satellite at 25 degrees at any other date. *)
Definition fails_at (t0 : float) : Refiner.Ephem :=
  Refiner.mkEphem (fun _ => true)
                  (fun _ t => if (t =? t0)%float then None else Some (25 # 1))
                  (fun _ _ => Refiner.NoMorePasses)
                  Refiner.days_of Refiner.seconds_of.

(** The prediction made from [Predictor.one_pass 100 (50 # 1) 700]. *)
Definition the_pass : Predictor.PassInfo :=
  Predictor.mkPass "NOAA 15" 100 700 (50 # 1) 599 137620000.

End Cases.


(** ** More stations *)

Module Station2.
Import Sys.

(** A station with no satellite in its configuration. *)
Definition without_satellites (env : Env) : Env :=
  mkEnv (mkConfig (directories (config env)) [] (reception (config env))
                  (processing (config env)))
        (eph env) (tle_file env) (subprocess_run env) (subprocess_popen env)
        (stderr_decodes env) (glob_wildcards env) (makedirs_ok env) (strftime env)
        (predict_fuel env).

(** A station with these programs. *)
Definition with_programs (programs : list string -> FS -> ToolRun) (env : Env) : Env :=
  mkEnv (config env) (eph env) (tle_file env) programs (subprocess_popen env)
        (stderr_decodes env) (glob_wildcards env) (makedirs_ok env) (strftime env)
        (predict_fuel env).

(** A recorder that writes [bytes_per_second] bytes each second and does
    not exit when told to. *)
Definition stubborn_recorder (bytes_per_second : Z)
  : list string -> FS -> option (Z -> FS) * option Z :=
  fun argv fs =>
    (Some (fun seconds => (last argv "", bytes_per_second * seconds) :: fs), None).

(** A station with this recorder. *)
Definition with_recorder (recorder : list string -> FS -> option (Z -> FS) * option Z)
           (env : Env) : Env :=
  mkEnv (config env) (eph env) (tle_file env) (subprocess_run env) recorder
        (stderr_decodes env) (glob_wildcards env) (makedirs_ok env) (strftime env)
        (predict_fuel env).

(** The decoder exits with 0 for the mode [hvct], whose image it writes,
    and with 1 for every other kind; the transfer succeeds; any other
    program writes the file named last on its command line and exits
    with 0. *)
Definition decoder_of_hvct_only : list string -> FS -> ToolRun :=
  fun argv fs =>
    match argv with
    | program :: _ =>
        if String.eqb program "noaa-apt" then
          if existsb (String.eqb "hvct") argv
          then Exit 0 ((last argv "", 8192) :: fs) else Exit 1 fs
        else if String.eqb program "sshpass" then Exit 0 fs
        else Exit 0 ((last argv "", 4096) :: fs)
    | [] => Exit 0 fs
    end.

(** A station whose programs write to their standard error bytes that are
    not UTF-8. *)
Definition with_binary_stderr (env : Env) : Env :=
  mkEnv (config env) (eph env) (tle_file env) (subprocess_run env) (subprocess_popen env)
        (fun _ _ => false) (glob_wildcards env) (makedirs_ok env) (strftime env)
        (predict_fuel env).


End Station2.

(** ** The image kinds of a configuration *)

Module Kinds.
Import Sys.

(** The option of [config['processing']] that turns a kind on or off. *)
Definition flag (p : Processing) (kind : Kind) : option bool :=
  match kind with
  | Basic => generate_basic p
  | MSA => generate_msa p
  | MSA_PRECIP => generate_msa_precip p
  | HVCT => generate_hvct p
  | THERM => generate_therm p
  end.

(** The kinds that are on, in the order of [process_audio]. *)
Definition enabled_kinds (p : Processing) : list Kind :=
  filter (fun kind => get_or_true (flag p kind)) [Basic; MSA; MSA_PRECIP; HVCT; THERM].

(** The transfer command of [send_to_epaper]. *)
Definition scp_cmd (image_file : string) : list string :=
  ["sshpass"; "-p"; "1234"; "scp"; "-o"; "StrictHostKeyChecking=no"; image_file;
   "epaper@192.168.1.220:~/incoming/"].

End Kinds.

(** ** What a trace removes *)

Module Removals.
Import Sys.

(** A call [os.remove(path)]. *)
Definition is_removal_of (path : string) (ev : Event) : bool :=
  match ev with
  | Remove path' => String.eqb path' path
  | _ => false
  end.

End Removals.

(** * Properties *)

(** ** Strings *)

Module PyStrFacts.
Import PyStr.

Lemma prefix_app (p s : string) :
  String.prefix p s = true <-> exists t, s = p ++ t.
Proof.
  revert s; induction p as [|a p IH]; intros s.
  - destruct s; simpl; split; eauto.
  - destruct s as [|b s]; simpl.
    + split; [discriminate | intros [t Ht]; discriminate].
    + destruct (ascii_dec a b) as [->|Hab].
      * rewrite IH. split; intros [t Ht]; exists t; congruence.
      * split; [discriminate | intros [t Ht]; congruence].
Qed.

(** [contains] decides the substring relation. *)
Lemma contains_spec (needle hay : string) :
  contains needle hay = true <-> Substring needle hay.
Proof.
  unfold Substring.
  induction hay as [|c hay IH]; simpl.
  - rewrite orb_false_r. split.
    + intros H. apply (prefix_app needle "") in H. destruct H as [t Ht].
      exists "", t. exact Ht.
    + intros [pre [post H]]. destruct pre; simpl in H.
      * apply (prefix_app needle ""). eauto.
      * discriminate.
  - rewrite orb_true_iff, IH. split.
    + intros [H | [pre [post H]]].
      * apply (prefix_app needle (String c hay)) in H. destruct H as [t Ht].
        exists "", t. exact Ht.
      * exists (String c pre), post. simpl. now rewrite H.
    + intros [pre [post H]]. destruct pre as [|a pre]; simpl in H.
      * left. apply (prefix_app needle (String c hay)). eauto.
      * right. exists pre, post. congruence.
Qed.

Lemma contains_false (needle hay : string) :
  contains needle hay = false <-> ~ Substring needle hay.
Proof.
  rewrite <- contains_spec. destruct (contains needle hay); split; congruence.
Qed.

Lemma leb_refl (s : string) : String.leb s s = true.
Proof.
  unfold String.leb. induction s as [|a s IH]; simpl; [reflexivity|].
  unfold Ascii.compare. rewrite N.compare_refl. exact IH.
Qed.

Lemma leb_trans (s1 : string) : forall s2 s3,
  String.leb s1 s2 = true -> String.leb s2 s3 = true -> String.leb s1 s3 = true.
Proof.
  unfold String.leb.
  induction s1 as [|a s1 IH]; intros [|b s2] [|c s3]; simpl; try congruence.
  unfold Ascii.compare.
  destruct (N.compare_spec (N_of_ascii a) (N_of_ascii b));
    destruct (N.compare_spec (N_of_ascii b) (N_of_ascii c));
    destruct (N.compare_spec (N_of_ascii a) (N_of_ascii c));
    try congruence; try lia; try apply IH.
Qed.

End PyStrFacts.

(** ** Orbital element lookup *)

Module TleFacts.
Import PyStr Tle PyStrFacts.

(** C2, as the code has it: the lookup answers with the first line, two
    short of the end at most, in which the queried name occurs as a
    substring, and with the two lines after it, each stripped; it answers
    with nothing when there is no such line. Lines are not grouped by
    three, and the name line is not compared for equality. *)
Theorem get_tle_data_first_occurrence
        (sat_name : string) (lines : list string) (r : Record_) :
  get_tle_data (Lines lines) sat_name = Some r <->
  exists (i : nat) (l0 l1 l2 : string),
    nth_error lines i = Some l0
    /\ nth_error lines (S i) = Some l1
    /\ nth_error lines (S (S i)) = Some l2
    /\ Substring sat_name l0
    /\ (forall j lj, (j < i)%nat -> nth_error lines j = Some lj ->
                     ~ Substring sat_name lj)
    /\ r = mkRecord (PyStr.strip l0) (PyStr.strip l1) (PyStr.strip l2).
Proof.
  simpl. induction lines as [|l0 rest IH].
  - simpl. split; [discriminate|].
    intros (i & a & b & c & H & _). destruct i; discriminate.
  - destruct rest as [|l1 [|l2 tl]].
    + simpl. split; [discriminate|].
      intros (i & a & b & c & _ & H & _). destruct i; discriminate.
    + simpl. split; [discriminate|].
      intros (i & a & b & c & _ & _ & H & _). destruct i as [|[|i]]; discriminate.
    + change (search sat_name (l0 :: l1 :: l2 :: tl))
        with (if PyStr.contains sat_name l0
              then Some (mkRecord (PyStr.strip l0) (PyStr.strip l1) (PyStr.strip l2))
              else search sat_name (l1 :: l2 :: tl)).
      destruct (PyStr.contains sat_name l0) eqn:Hc.
      * split.
        -- intros [= <-]. exists 0%nat, l0, l1, l2.
           repeat split; try reflexivity.
           ++ now apply contains_spec.
           ++ intros j lj Hj. inversion Hj.
        -- intros (i & a & b & c & Ha & Hb & Hcc & Hs & Hmin & ->).
           destruct i as [|i].
           ++ simpl in Ha, Hb, Hcc. congruence.
           ++ exfalso. apply (Hmin 0%nat l0); [lia | reflexivity |].
              now apply contains_spec.
      * rewrite IH. split.
        -- intros (i & a & b & c & Ha & Hb & Hcc & Hs & Hmin & ->).
           exists (S i), a, b, c. repeat split; try assumption.
           intros j lj Hj Hnth. destruct j as [|j].
           ++ simpl in Hnth. injection Hnth as <-. now apply contains_false.
           ++ apply (Hmin j lj); [lia | exact Hnth].
        -- intros (i & a & b & c & Ha & Hb & Hcc & Hs & Hmin & ->).
           destruct i as [|i].
           ++ simpl in Ha. injection Ha as <-.
              apply contains_false in Hc. contradiction.
           ++ exists i, a, b, c. repeat split; try assumption.
              intros j lj Hj Hnth. apply (Hmin (S j) lj); [lia | exact Hnth].
Qed.

(** C2, against the claim: asked for ["NOAA 1"], the lookup answers with
    the record of ["NOAA 15"], whose name line is not the queried name. *)
Lemma get_tle_data_matches_substring :
  exists r, get_tle_data (Lines two_records) "NOAA 1" = Some r
            /\ name r = "NOAA 15"
            /\ name r <> "NOAA 1".
Proof.
  eexists. split; [reflexivity|]. split; [reflexivity|]. discriminate.
Qed.

(** The lookup does not go by groups of three lines either: a query that
    occurs in an element line answers with a record that starts there. *)
Example get_tle_data_matches_element_line :
  option_map name (get_tle_data (Lines two_records) "25338U")
  = Some "1 25338U 98030A   24001.50000000  .00000200  00000-0  10000-3 0  9990".
Proof. reflexivity. Qed.

End TleFacts.

(** ** Binary64 numbers *)

Module FloatFacts.
Import Refiner.

Lemma SFcompare_refl (x : spec_float) : SFcompare x x <> Some Lt.
Proof.
  destruct x as [s|s| |s m e]; simpl; try discriminate.
  - destruct s; discriminate.
  - destruct s; rewrite Z.compare_refl, Pos.compare_cont_refl; discriminate.
Qed.

(** [x > x] is false for every float, a NaN too. *)
Lemma ltb_irrefl (x : float) : (x <? x)%float = false.
Proof.
  rewrite ltb_spec. unfold SFltb.
  destruct (SFcompare (Prim2SF x) (Prim2SF x)) as [[| |]|] eqn:E; try reflexivity.
  exfalso. exact (SFcompare_refl _ E).
Qed.

Lemma shr_1_nonneg (mrs : shr_record) : 0 <= shr_m mrs -> 0 <= shr_m (shr_1 mrs).
Proof.
  destruct mrs as [m r s]. destruct m as [|[p|p|]|p]; simpl; lia.
Qed.

Lemma iter_pos_nonneg (p : positive) : forall mrs,
  0 <= shr_m mrs -> 0 <= shr_m (iter_pos shr_1 p mrs).
Proof.
  induction p as [p IH|p IH|]; simpl; intros mrs H.
  - apply IH, IH, shr_1_nonneg, H.
  - apply IH, IH, H.
  - apply shr_1_nonneg, H.
Qed.

Lemma shr_fexp_nonneg (m e : Z) (l : location) :
  0 <= m -> 0 <= shr_m (fst (shr_fexp prec emax m e l)).
Proof.
  intros H. unfold shr_fexp, shr.
  assert (H0 : 0 <= shr_m (shr_record_of_loc m l)) by (destruct l as [|[]]; exact H).
  destruct (fexp prec emax (Zdigits2 m + e) - e); simpl; try exact H0.
  now apply iter_pos_nonneg.
Qed.

Lemma round_nearest_even_nonneg (m : Z) (l : location) :
  0 <= m -> 0 <= round_nearest_even m l.
Proof.
  intros H. destruct l as [|[]]; simpl; try lia. destruct (Z.even m); lia.
Qed.

(** Rounding keeps the sign. *)
Lemma binary_round_aux_signed (s : bool) (m e : Z) (l : location) :
  0 <= m -> signed s (binary_round_aux prec emax s m e l).
Proof.
  intros H. unfold binary_round_aux.
  pose proof (shr_fexp_nonneg m e l H) as H1.
  destruct (shr_fexp prec emax m e l) as [mrs' e']. simpl in H1.
  pose proof (shr_fexp_nonneg _ e' loc_Exact
                (round_nearest_even_nonneg _ (loc_of_shr_record mrs') H1)) as H2.
  destruct (shr_fexp prec emax (round_nearest_even (shr_m mrs') (loc_of_shr_record mrs'))
                     e' loc_Exact) as [mrs'' e'']. simpl in H2.
  destruct (shr_m mrs'') as [|p|p]; simpl; [exact I | | lia].
  destruct (e'' <=? _); simpl; reflexivity.
Qed.

Lemma binary_round_signed (s : bool) (m : positive) (e : Z) :
  signed s (binary_round prec emax s m e).
Proof.
  unfold binary_round.
  destruct (shl_align m e (fexp prec emax (Z.pos (digits2_pos m) + e))) as [mz ez].
  apply binary_round_aux_signed. lia.
Qed.

Lemma binary_normalize_signed (m e : Z) :
  0 <= m -> signed false (binary_normalize prec emax m e false).
Proof.
  intros H. destruct m as [|p|p]; simpl; [exact I | apply binary_round_signed | lia].
Qed.

Lemma iter_xO (d : positive) : forall m : positive,
  Z.pos (Pos.iter xO m d) = Z.pos m * 2 ^ Z.pos d.
Proof.
  induction d as [|d IH] using Pos.peano_ind; intros m.
  - simpl. lia.
  - rewrite Pos.iter_succ, Pos2Z.inj_succ, Z.pow_succ_r by lia.
    change (Z.pos (Pos.iter xO m d)~0) with (2 * Z.pos (Pos.iter xO m d)).
    rewrite IH. lia.
Qed.

Lemma shl_align_value (m : positive) (e e' : Z) :
  e' <= e -> Z.pos (fst (shl_align m e e')) = Z.pos m * 2 ^ (e - e').
Proof.
  intros H. unfold shl_align. destruct (e' - e) as [|d|d] eqn:E.
  - replace (e - e') with 0 by lia. simpl. lia.
  - lia.
  - simpl. rewrite iter_xO. replace (e - e') with (Z.pos d) by lia. reflexivity.
Qed.

Lemma digits2_size (m : positive) : digits2_pos m = Pos.size m.
Proof. induction m as [m IH|m IH|]; simpl; now rewrite ?IH. Qed.

Lemma digits2_bounds (m : positive) :
  2 ^ (Z.pos (digits2_pos m) - 1) <= Z.pos m < 2 ^ Z.pos (digits2_pos m).
Proof.
  rewrite digits2_size. split.
  - pose proof (Pos.size_le m) as H.
    assert (H' : 2 ^ Z.pos (Pos.size m) <= 2 * Z.pos m).
    { change (2 * Z.pos m) with (Z.pos m~0). rewrite <- Pos2Z.inj_pow. exact H. }
    replace (Z.pos (Pos.size m)) with (Z.succ (Z.pos (Pos.size m) - 1)) in H' by lia.
    rewrite Z.pow_succ_r in H' by lia. lia.
  - pose proof (Pos.size_gt m) as H. rewrite <- Pos2Z.inj_pow. exact H.
Qed.

(** Of two canonical mantissas, the one with the greater exponent is
    the greater number. *)
Lemma canonical_lt (m1 m2 : positive) (e1 e2 : Z) :
  bounded prec emax m1 e1 = true -> bounded prec emax m2 e2 = true ->
  e1 < e2 ->
  Z.pos m1 <= Z.pos m2 * 2 ^ (e2 - e1).
Proof.
  unfold bounded, canonical_mantissa, fexp. intros H1 H2 Hlt.
  apply andb_true_iff in H1, H2. destruct H1 as [H1 _], H2 as [H2 _].
  apply Z.eqb_eq in H1, H2.
  pose proof (digits2_bounds m1) as [_ B1]. pose proof (digits2_bounds m2) as [B2 _].
  assert (D1 : Z.pos (digits2_pos m1) <= prec) by lia.
  assert (D2 : Z.pos (digits2_pos m2) = prec) by lia.
  rewrite D2 in B2.
  assert (P1 : 2 ^ Z.pos (digits2_pos m1) <= 2 ^ prec)
    by (apply Z.pow_le_mono_r; lia).
  assert (P2 : 2 ^ 1 <= 2 ^ (e2 - e1)) by (apply Z.pow_le_mono_r; lia).
  assert (P3 : 2 ^ prec = 2 ^ (prec - 1) * 2 ^ 1) by reflexivity.
  assert (P4 : 0 < 2 ^ (prec - 1)) by reflexivity.
  nia.
Qed.

(** [x - y] is not negative when [y < x]. *)
Lemma SFsub_signed (x y : spec_float) :
  valid_binary x = true -> valid_binary y = true ->
  SFltb y x = true ->
  signed false (SF64sub x y).
Proof.
  intros Vx Vy. unfold SFltb.
  destruct (SFcompare y x) as [[| |]|] eqn:E; try discriminate. intros _.
  destruct x as [sx|sx| |sx mx ex], y as [sy|sy| |sy my ey];
    try (repeat match goal with s : bool |- _ => destruct s end;
         simpl in E |- *; first [discriminate | exact I | reflexivity]).
  simpl in E |- *. apply binary_normalize_signed. simpl in Vx, Vy.
    destruct (Z.compare_spec ey ex) as [He|He|He].
    + subst ey.
      rewrite Z.min_id, !shl_align_value by lia.
      replace (ex - ex) with 0 by lia. simpl (2 ^ 0). rewrite !Z.mul_1_r.
      destruct sy, sx; simpl in E; unfold cond_Zopp; try discriminate; try lia.
      * injection E as E. change (Pos.compare_cont Eq my mx) with (Pos.compare my mx) in E.
        destruct (Pos.compare my mx) eqn:C; try discriminate.
        assert (Hlt : Z.pos mx < Z.pos my) by (apply Z.compare_gt_iff; exact C). lia.
      * injection E as E. change (Pos.compare_cont Eq my mx) with (Pos.compare my mx) in E.
        assert (Hlt : Z.pos my < Z.pos mx) by (apply Z.compare_lt_iff; exact E). lia.
    + rewrite Z.min_r, !shl_align_value by lia.
      replace (ey - ey) with 0 by lia. simpl (2 ^ 0). rewrite Z.mul_1_r.
      pose proof (canonical_lt my mx ey ex Vy Vx He) as Hc.
      assert (0 < Z.pos mx * 2 ^ (ex - ey))
        by (apply Z.mul_pos_pos; [lia | apply Z.pow_pos_nonneg; lia]).
      destruct sy, sx; simpl in E; unfold cond_Zopp; try discriminate; lia.
    + rewrite Z.min_l, !shl_align_value by lia.
      replace (ex - ex) with 0 by lia. simpl (2 ^ 0). rewrite Z.mul_1_r.
      pose proof (canonical_lt mx my ex ey Vx Vy He) as Hc.
      assert (0 < Z.pos my * 2 ^ (ey - ex))
        by (apply Z.mul_pos_pos; [lia | apply Z.pow_pos_nonneg; lia]).
      destruct sy, sx; simpl in E; unfold cond_Zopp; try discriminate; lia.
Qed.

Lemma SFmul_signed (x : spec_float) (m : positive) (e : Z) :
  signed false x -> signed false (SF64mul x (S754_finite false m e)).
Proof.
  destruct x as [s|s| |s mx ex]; simpl; intros H; try exact I; try contradiction.
  - now subst s.
  - subst s. apply binary_round_aux_signed. lia.
Qed.

(** The seconds from the rise to a later date are not negative. *)
Lemma elapsed_nonneg (aos_time current_time : float) (d : Z) :
  (aos_time <? current_time)%float = true ->
  elapsed aos_time current_time = Some d ->
  0 <= d.
Proof.
  intros Hlt. unfold elapsed, py_int_float.
  rewrite mul_spec, sub_spec. rewrite ltb_spec in Hlt.
  pose proof (SFsub_signed _ _ (Prim2SF_valid current_time) (Prim2SF_valid aos_time) Hlt)
    as Hs.
  change (Prim2SF 86400) with (S754_finite false 5937362789990400 (-36)).
  pose proof (SFmul_signed _ 5937362789990400 (-36) Hs) as Hm.
  destruct (SF64mul _ _) as [s|s| |s m e]; try discriminate.
  - intros [= <-]. lia.
  - simpl in Hm. subst s. intros [= <-]. simpl. apply Z.shiftl_nonneg. lia.
Qed.

End FloatFacts.

(** ** Pass duration refiner *)

Module RefinerFacts.
Import Refiner.

Lemma Qlt_bool_iff (a b : Q) : Qlt_bool a b = true <-> (a < b)%Q.
Proof.
  unfold Qlt_bool. rewrite negb_true_iff. split.
  - intros H. apply Qnot_le_lt. intros Hle.
    apply Qle_bool_iff in Hle. congruence.
  - intros H. destruct (Qle_bool b a) eqn:E; [|reflexivity].
    apply Qle_bool_iff in E. exfalso. exact (Qlt_not_le _ _ H E).
Qed.

Lemma Qlt_bool_false (a b : Q) : Qlt_bool a b = false <-> (b <= a)%Q.
Proof.
  unfold Qlt_bool. rewrite negb_false_iff. apply Qle_bool_iff.
Qed.


Lemma date_S (aos_time : float) (i : nat) :
  (date aos_time i + second * 30)%float = date aos_time (S i).
Proof. reflexivity. Qed.

Section Scan.
Variable elev : float -> option Q.
Variable aos_time : float.
Variable e : nat -> Q.

(** The running maximum after one more sample. *)
Lemma running_max (max_el el : Q) :
  let m := if Qlt_bool max_el el then el else max_el in
  (max_el <= m)%Q /\ (el <= m)%Q /\ (m = max_el \/ m = el).
Proof.
  simpl. destruct (Qlt_bool max_el el) eqn:E.
  - apply Qlt_bool_iff in E. repeat split.
    + now apply Qlt_le_weak.
    + apply Qle_refl.
    + now right.
  - apply Qlt_bool_false in E. repeat split.
    + apply Qle_refl.
    + exact E.
    + now left.
Qed.

(** A sample does not end the scan when it is the first, or when its
    elevation is not negative. *)
Lemma scan_goes_on (i : nat) :
  ((1 <= i)%nat -> (0 <= e i)%Q) ->
  Qlt_bool (e i) 0 && (aos_time <? date aos_time i)%float = false.
Proof.
  intros Hpos. destruct i as [|i].
  - apply andb_false_iff. right. apply FloatFacts.ltb_irrefl.
  - apply andb_false_iff. left. apply Qlt_bool_false. apply Hpos. lia.
Qed.



(** Whatever the samples are, a duration the scan returns is 600 or
    the seconds from the rise to a negative sample after the first, as
    [elapsed] computes them. *)
Lemma scan_duration (n : nat) : forall (i : nat) (max_el : Q) dates d mx,
  scan n elev aos_time (date aos_time i) max_el = (dates, Some (d, mx)) ->
  d = 600
  \/ exists k el, (i <= k < i + n)%nat /\ (1 <= k)%nat
                  /\ elapsed aos_time (date aos_time k) = Some d
                  /\ (aos_time <? date aos_time k)%float = true
                  /\ elev (date aos_time k) = Some el /\ (el < 0)%Q.
Proof.
  induction n as [|n IH]; intros i max_el dates d mx H; cbn [scan] in H.
  - injection H as _ <- _. now left.
  - destruct (elev (date aos_time i)) as [el|] eqn:Hel; [|discriminate].
    destruct (Qlt_bool el 0 && (aos_time <? date aos_time i)%float) eqn:Hcond.
    + destruct (elapsed aos_time (date aos_time i)) as [d'|] eqn:Hd; [|discriminate].
      injection H as _ <- _. right.
      apply andb_true_iff in Hcond. destruct Hcond as [Hneg Hgt].
      apply Qlt_bool_iff in Hneg.
      exists i, el. repeat split; try lia; try assumption.
      destruct i as [|i]; [|lia].
      simpl in Hgt. rewrite FloatFacts.ltb_irrefl in Hgt. discriminate.
    + rewrite date_S in H.
      destruct (scan n elev aos_time (date aos_time (S i))
                     (if Qlt_bool max_el el then el else max_el))
        as [dates' r] eqn:Hrec.
      injection H as _ ->.
      destruct (IH _ _ _ _ _ Hrec)
        as [H600 | (k & el' & Hk & Hk1 & Hd & Hgt & He & Hn)].
      * now left.
      * right. exists k, el'. repeat split; try lia; assumption.
Qed.
End Scan.

Lemma date_0 (aos_time : float) : date aos_time 0 = aos_time.
Proof. reflexivity. Qed.



(** The durations [calculate_pass_duration] can return. *)
Lemma duration_cases (eph : Ephem) (tle_file : Tle.File) (sat_name : string)
      (aos_time : float) :
  let d := fst (calculate_pass_duration eph tle_file sat_name aos_time) in
  (Tle.get_tle_data tle_file sat_name = None /\ d = 0)
  \/ d = 600
  \/ exists k tle el,
      (1 <= k <= 39)%nat
      /\ elapsed aos_time (date aos_time k) = Some d
      /\ (aos_time <? date aos_time k)%float = true
      /\ Tle.get_tle_data tle_file sat_name = Some tle
      /\ alt_deg eph tle (date aos_time k) = Some el
      /\ (el < 0)%Q.
Proof.
  intros d. subst d. unfold calculate_pass_duration, calculate_pass_duration_run.
  destruct (Tle.get_tle_data tle_file sat_name) as [tle|] eqn:Htle.
  - right. destruct (readtle eph tle); [|now left].
    destruct (scan 40 (alt_deg eph tle) aos_time aos_time 0) as [dates [[d mx]|]] eqn:Hs;
      [|now left].
    rewrite <- (date_0 aos_time) in Hs at 2.
    apply scan_duration in Hs.
    destruct Hs as [-> | (k & el & Hk & Hk1 & Hd & Hgt & He & Hn)]; [now left|].
    right. exists k, tle, el. repeat split; try lia; assumption.
  - left. split; reflexivity.
Qed.

Lemma duration_nonneg (eph : Ephem) (tle_file : Tle.File) (sat_name : string)
      (aos_time : float) :
  0 <= fst (calculate_pass_duration eph tle_file sat_name aos_time).
Proof.
  destruct (duration_cases eph tle_file sat_name aos_time)
    as [[_ H] | [H | (k & _ & _ & Hk & H & Hgt & _)]]; [rewrite H; lia.. |].
  exact (FloatFacts.elapsed_nonneg _ _ _ Hgt H).
Qed.



End RefinerFacts.

(** ** Pass predictor *)

Module PredictorFacts.
Import Refiner Predictor.

Lemma insert_by_aos_In (p x : PassInfo) (l : list PassInfo) :
  In x (insert_by_aos p l) <-> x = p \/ In x l.
Proof.
  induction l as [|q l IH]; simpl.
  - intuition.
  - destruct (aos p <=? aos q); simpl; [intuition|].
    rewrite IH. intuition.
Qed.

Lemma sort_by_aos_In (x : PassInfo) (l : list PassInfo) :
  In x (sort_by_aos l) <-> In x l.
Proof.
  induction l as [|q l IH]; simpl; [tauto|].
  rewrite insert_by_aos_In, IH. intuition.
Qed.

Lemma insert_by_aos_ordered (p : PassInfo) (l : list PassInfo) :
  ordered_by_aos l -> ordered_by_aos (insert_by_aos p l).
Proof.
  unfold ordered_by_aos. induction l as [|q l IH]; intros H; simpl.
  - constructor; constructor.
  - destruct (aos p <=? aos q) eqn:E.
    + constructor; [exact H|]. constructor. now apply Z.leb_le.
    + apply Z.leb_gt in E. inversion H as [|? ? Hs Hh]; subst.
      constructor; [now apply IH|].
      destruct l as [|q' l]; simpl.
      * constructor. lia.
      * destruct (aos p <=? aos q'); constructor; [lia|].
        now inversion Hh.
Qed.

Lemma sort_by_aos_ordered (l : list PassInfo) : ordered_by_aos (sort_by_aos l).
Proof.
  induction l as [|p l IH]; simpl.
  - constructor.
  - now apply insert_by_aos_ordered.
Qed.

Section Loops.
Variable eph : Ephem.
Variable tle_file : Tle.File.
Variable min_elevation : Q.
Variable end_time : Z.
Variable P : PassInfo -> Prop.

(** What the loop of one satellite appends. *)
Lemma find_passes_Forall (sat_name : string) (sat_config : SatConfig)
      (tle : Tle.Record_) :
  (forall cursor tr altt ts,
      next_pass eph tle cursor = Pass tr altt ts ->
      (min_elevation <= altt)%Q ->
      P (mkPass sat_name (datetime eph tr) (datetime eph ts) altt
                (fst (calculate_pass_duration eph tle_file sat_name tr))
                (frequency sat_config))) ->
  forall fuel cursor passes out,
    find_passes eph tle_file min_elevation end_time fuel sat_name sat_config tle
                cursor passes = Some out ->
    Forall P passes -> Forall P out.
Proof.
  intros HP. induction fuel as [|fuel IH]; intros cursor passes out H Hall;
    simpl in H; [discriminate|].
  destruct (datetime eph cursor <? end_time); [|congruence].
  destruct (next_pass eph tle cursor) as [tr altt ts| |] eqn:Hnp; try congruence.
  destruct (datetime eph tr >? end_time); [congruence|].
  apply IH in H; [exact H|].
  destruct (Qle_bool min_elevation altt) eqn:Hmin; [|exact Hall].
  destruct (calculate_pass_duration eph tle_file sat_name tr) as [d mx] eqn:Hd.
  apply Forall_app. split; [exact Hall|]. constructor; [|constructor].
  replace d with (fst (calculate_pass_duration eph tle_file sat_name tr))
    by (now rewrite Hd).
  apply (HP cursor); [exact Hnp | now apply Qle_bool_iff].
Qed.

(** What the loop over the satellites appends. *)
Lemma each_satellite_Forall (fuel : nat) (now : Z) :
  forall (sats : list (string * SatConfig)),
    (forall sat_name sat_config tle cursor tr altt ts,
        In (sat_name, sat_config) sats ->
        enabled sat_config = true ->
        Tle.get_tle_data tle_file sat_name = Some tle ->
        next_pass eph tle cursor = Pass tr altt ts ->
        (min_elevation <= altt)%Q ->
        P (mkPass sat_name (datetime eph tr) (datetime eph ts) altt
                  (fst (calculate_pass_duration eph tle_file sat_name tr))
                  (frequency sat_config))) ->
    forall passes out,
      each_satellite eph tle_file min_elevation end_time fuel sats now passes
      = Some out ->
      Forall P passes -> Forall P out.
Proof.
  induction sats as [|[sat_name sat_config] rest IH]; intros HP passes out H Hall;
    simpl in H.
  - congruence.
  - assert (HP' : forall sat_name sat_config tle cursor tr altt ts,
               In (sat_name, sat_config) rest ->
               enabled sat_config = true ->
               Tle.get_tle_data tle_file sat_name = Some tle ->
               next_pass eph tle cursor = Pass tr altt ts ->
               (min_elevation <= altt)%Q ->
               P (mkPass sat_name (datetime eph tr) (datetime eph ts) altt
                         (fst (calculate_pass_duration eph tle_file sat_name tr))
                         (frequency sat_config))).
    { intros. eapply HP; eauto. now right. }
    destruct (enabled sat_config) eqn:Hen; simpl in H; [|eauto].
    destruct (Tle.get_tle_data tle_file sat_name) as [tle|] eqn:Htle; [|eauto].
    destruct (readtle eph tle); [|eauto].
    destruct (find_passes eph tle_file min_elevation end_time fuel sat_name
                          sat_config tle (of_datetime eph now)
                          passes) as [passes'|] eqn:Hf;
      [|discriminate].
    apply (IH HP' passes' out H).
    eapply find_passes_Forall; [|exact Hf|exact Hall].
    intros cursor tr altt ts Hnp Hmin.
    eapply HP; eauto. now left.
Qed.
End Loops.

(** Every prediction comes from a pass the propagator reported for an
    enabled satellite, with the refiner's duration. *)
Lemma predict_next_passes_Forall (P : PassInfo -> Prop)
      (eph : Ephem) (tle_file : Tle.File) (sats : list (string * SatConfig))
      (min_elevation : Q) (fuel : nat) (now hours : Z) (passes : list PassInfo) :
  (forall sat_name sat_config tle cursor tr altt ts,
      In (sat_name, sat_config) sats ->
      enabled sat_config = true ->
      Tle.get_tle_data tle_file sat_name = Some tle ->
      next_pass eph tle cursor = Pass tr altt ts ->
      (min_elevation <= altt)%Q ->
      P (mkPass sat_name (datetime eph tr) (datetime eph ts) altt
                (fst (calculate_pass_duration eph tle_file sat_name tr))
                (frequency sat_config))) ->
  predict_next_passes eph tle_file sats min_elevation fuel now hours = Some passes ->
  Forall P passes.
Proof.
  intros HP H. unfold predict_next_passes in H.
  destruct (each_satellite eph tle_file min_elevation (now + 3600 * hours) fuel sats
                           now []) as [l|] eqn:Hl; [|discriminate].
  injection H as <-.
  apply (each_satellite_Forall eph tle_file min_elevation _ P fuel now sats HP) in Hl;
    [|constructor].
  apply Forall_forall. intros x Hx.
  apply (proj1 (sort_by_aos_In x l)) in Hx.
  exact (proj1 (Forall_forall P l) Hl x Hx).
Qed.

(** C5, as the code has it: every prediction in the list returned is made
    from a pass the propagator reported for that satellite. Its rise and
    set times and its maximum elevation are the propagator's; only its
    duration is the refiner's, whose own maximum elevation is dropped. *)
Theorem predicted_elevation_is_the_propagators
        (eph : Ephem) (tle_file : Tle.File) (sats : list (string * SatConfig))
        (min_elevation : Q) (fuel : nat) (now hours : Z)
        (passes : list PassInfo) (p : PassInfo) :
  predict_next_passes eph tle_file sats min_elevation fuel now hours = Some passes ->
  In p passes ->
  exists sat_config tle cursor tr altt ts,
    In (satellite p, sat_config) sats
    /\ Tle.get_tle_data tle_file (satellite p) = Some tle
    /\ next_pass eph tle cursor = Pass tr altt ts
    /\ aos p = datetime eph tr /\ los p = datetime eph ts
    /\ max_elevation p = altt
    /\ duration p = fst (calculate_pass_duration eph tle_file (satellite p) tr)
    /\ frequency_ p = frequency sat_config.
Proof.
  intros H Hin.
  pose (P := fun q : PassInfo =>
               exists sat_config tle cursor tr altt ts,
                 In (satellite q, sat_config) sats
                 /\ Tle.get_tle_data tle_file (satellite q) = Some tle
                 /\ next_pass eph tle cursor = Pass tr altt ts
                 /\ aos q = datetime eph tr /\ los q = datetime eph ts
                 /\ max_elevation q = altt
                 /\ duration q
                    = fst (calculate_pass_duration eph tle_file (satellite q) tr)
                 /\ frequency_ q = frequency sat_config).
  assert (Hall : Forall P passes).
  { apply (predict_next_passes_Forall P eph tle_file sats min_elevation fuel now hours);
      [|exact H].
    intros sat_name sat_config tle cursor tr altt ts Hs Hen Htle Hnp Hmin.
    exists sat_config, tle, cursor, tr, altt, ts. simpl.
    repeat split; assumption. }
  exact (proj1 (Forall_forall P passes) Hall p Hin).
Qed.

(** C5 at a pass of 50 degrees. *)
Lemma predicted_elevation_is_the_propagators_witness :
  exists sat_config tle cursor tr altt ts,
    In ("NOAA 15", sat_config) one_satellite
    /\ Tle.get_tle_data (Tle.Lines Tle.two_records) "NOAA 15" = Some tle
    /\ next_pass (one_pass 100 (50 # 1) 700) tle cursor = Pass tr altt ts
    /\ 100 = datetime (one_pass 100 (50 # 1) 700) tr
    /\ 700 = datetime (one_pass 100 (50 # 1) 700) ts
    /\ (50 # 1)%Q = altt
    /\ 599 = fst (calculate_pass_duration (one_pass 100 (50 # 1) 700)
                                          (Tle.Lines Tle.two_records) "NOAA 15" tr)
    /\ 137620000 = frequency sat_config.
Proof.
  apply (predicted_elevation_is_the_propagators
           (one_pass 100 (50 # 1) 700) (Tle.Lines Tle.two_records) one_satellite
           (20 # 1)%Q 5 0 1
           [mkPass "NOAA 15" 100 700 (50 # 1) 599 137620000]
           (mkPass "NOAA 15" 100 700 (50 # 1) 599 137620000)).
  - reflexivity.
  - simpl. left. reflexivity.
Defined.

(** C5, against the claim: the propagator estimates 50 degrees for a
    pass whose samples never exceed 10 degrees; the refiner returns 10,
    and the prediction records 50. *)
Lemma predicted_elevation_is_not_the_refiners :
  exists p,
    predict_next_passes (one_pass 100 (50 # 1) 700) (Tle.Lines Tle.two_records)
                        one_satellite (20 # 1)%Q 5 0 1 = Some [p]
    /\ snd (calculate_pass_duration (one_pass 100 (50 # 1) 700)
                                    (Tle.Lines Tle.two_records) (satellite p)
                                    (days_of (aos p)))
       = 10
    /\ max_elevation p = (50 # 1)%Q
    /\ ~ (max_elevation p == inject_Z 10)%Q.
Proof.
  exists (mkPass "NOAA 15" 100 700 (50 # 1) 599 137620000).
  split; [vm_compute; reflexivity|]. split; [vm_compute; reflexivity|].
  split; [reflexivity | discriminate].
Qed.

(** C7, as the code has it: a list the predictor returns is in
    non-decreasing order of [aos], and each of its elements has a
    duration that is not negative and a maximum elevation that is at
    least the configured minimum. The code takes rise time, set time and
    maximum elevation from the propagator as they are: if every pass the
    propagator reports rises before it sets and culminates at 90 degrees
    at most, and the configured minimum is not negative, then every
    element satisfies [aos < los] and has its maximum elevation between 0
    and 90. *)
Theorem predict_next_passes_invariants
        (eph : Ephem) (tle_file : Tle.File) (sats : list (string * SatConfig))
        (min_elevation : Q) (fuel : nat) (now hours : Z) (passes : list PassInfo) :
  predict_next_passes eph tle_file sats min_elevation fuel now hours = Some passes ->
  ordered_by_aos passes
  /\ Forall (fun p => 0 <= duration p /\ (min_elevation <= max_elevation p)%Q) passes
  /\ ((forall tle cursor tr altt ts,
          next_pass eph tle cursor = Pass tr altt ts ->
          datetime eph tr < datetime eph ts /\ (altt <= 90)%Q) ->
      (0 <= min_elevation)%Q ->
      Forall pass_invariant passes).
Proof.
  intros H. split; [|split].
  - unfold predict_next_passes in H.
    destruct (each_satellite eph tle_file min_elevation (now + 3600 * hours) fuel sats
                             now []); [|discriminate].
    injection H as <-. apply sort_by_aos_ordered.
  - eapply predict_next_passes_Forall; [|exact H].
    intros sat_name sat_config tle cursor tr altt ts _ _ _ _ Hmin. simpl.
    split; [apply RefinerFacts.duration_nonneg | exact Hmin].
  - intros Hwf Hmin0.
    eapply predict_next_passes_Forall; [|exact H].
    intros sat_name sat_config tle cursor tr altt ts _ _ _ Hnp Hmin.
    destruct (Hwf tle cursor tr altt ts Hnp) as [Hlt H90].
    unfold pass_invariant. simpl. repeat split.
    + exact Hlt.
    + apply RefinerFacts.duration_nonneg.
    + eapply Qle_trans; eassumption.
    + exact H90.
Qed.

(** C7 at a propagator that reports one pass from 100 to 700 with a
    maximum of 50 degrees. *)
Lemma predict_next_passes_invariants_witness :
  Forall pass_invariant [mkPass "NOAA 15" 100 700 (50 # 1) 599 137620000].
Proof.
  apply (predict_next_passes_invariants
           (one_pass 100 (50 # 1) 700) (Tle.Lines Tle.two_records) one_satellite
           (20 # 1)%Q 5 0 1
           [mkPass "NOAA 15" 100 700 (50 # 1) 599 137620000]).
  - reflexivity.
  - intros tle cursor tr altt ts. simpl.
    destruct (seconds_of cursor <? 100); [|discriminate].
    intros [= <- <- <-]. vm_compute. split; [reflexivity | discriminate].
  - discriminate.
Defined.

(** C7, against the claim: when the propagator reports a pass whose set
    time (50) is before its rise time (100), the predictor returns it as
    it is, with [los] before [aos]. *)
Lemma predict_next_passes_keeps_los_before_aos :
  exists passes,
    predict_next_passes (one_pass 100 (45 # 1) 50) (Tle.Lines Tle.two_records)
                        one_satellite (20 # 1)%Q 5 0 1 = Some passes
    /\ ~ Forall pass_invariant passes.
Proof.
  exists [mkPass "NOAA 15" 100 50 (45 # 1) 599 137620000].
  split; [vm_compute; reflexivity|].
  intros H. inversion H as [|? ? [Hlt _] _]; subst. simpl in Hlt. lia.
Qed.

End PredictorFacts.

(** ** Sequencing and the file system *)

Module SysFacts.
Import Sys.

Lemma bind_Ret {A B} (m : M A) (k : A -> M B) (w : World) (a : A) :
  outcome (m w) = Ret a ->
  bind m k w = mkResult (outcome (k a (final (m w))))
                        (final (k a (final (m w))))
                        (emitted (m w) ++ emitted (k a (final (m w)))).
Proof. intros H. unfold bind. now rewrite H. Qed.

Lemma bind_Raise {A B} (m : M A) (k : A -> M B) (w : World) (e : exn) :
  outcome (m w) = Raise e ->
  bind m k w = mkResult (Raise e) (final (m w)) (emitted (m w)).
Proof. intros H. unfold bind. now rewrite H. Qed.

Lemma bind_Diverge {A B} (m : M A) (k : A -> M B) (w : World) :
  outcome (m w) = Diverge ->
  bind m k w = mkResult Diverge (final (m w)) (emitted (m w)).
Proof. intros H. unfold bind. now rewrite H. Qed.

Lemma exists_unlink (fs : FS) (path : string) : exists_ (unlink fs path) path = false.
Proof.
  unfold exists_, unlink. induction fs as [|entry fs IH]; simpl; [reflexivity|].
  destruct (path_eqb path entry) eqn:E; simpl; [exact IH|].
  now rewrite E.
Qed.

(** [try: os.remove(path) / except: pass] returns, and the file is not
    there afterwards. *)
Lemma remove_quietly (path : string) (w : World) :
  let r := try_except (os_remove path) (fun _ => true) (fun _ => ret tt) w in
  outcome r = Ret tt /\ exists_ (files (final r)) path = false.
Proof.
  unfold try_except, os_remove.
  destruct (exists_ (files w) path) eqn:E; simpl.
  - split; [reflexivity | apply exists_unlink].
  - split; [reflexivity | exact E].
Qed.

End SysFacts.

(** ** Image pipeline *)

Module PipelineFacts.
Import Sys Pipeline Trace.

(** A property of the outcome and of the final state that holds after
    [k] holds after [m ;; k], once [m] returns. *)
Lemma bind_then {A B} (m : M A) (k : A -> M B) (w : World)
      (Q : Outcome B -> World -> Prop) (a : A) :
  outcome (m w) = Ret a ->
  Q (outcome (k a (final (m w)))) (final (k a (final (m w)))) ->
  Q (outcome (bind m k w)) (final (bind m k w)).
Proof. intros H HQ. rewrite (SysFacts.bind_Ret m k w a H). exact HQ. Qed.

Lemma bind_then_any {A B} (m : M A) (k : A -> M B) (w : World)
      (Q : Outcome B -> World -> Prop) :
  (exists a, outcome (m w) = Ret a) ->
  (forall a w', Q (outcome (k a w')) (final (k a w'))) ->
  Q (outcome (bind m k w)) (final (bind m k w)).
Proof. intros [a H] HQ. apply (bind_then m k w Q a H). apply HQ. Qed.

Section ProgramsExit.
Variable env : Env.
Hypothesis Hexit : runs_to_end env.
Hypothesis Htext : stderr_is_text env.

Lemma generate_returns (kind : Kind) (resampled_file output : string) (w : World) :
  exists ok, outcome (generate env kind resampled_file output w) = Ret ok.
Proof.
  unfold generate. generalize (noaa_apt_cmd kind resampled_file output). intros cmd.
  rewrite (SysFacts.bind_Ret get_files _ w (files w)) by reflexivity.
  cbn [get_files outcome final].
  destruct (Hexit cmd (files w)) as (returncode & fs & Hrun).
  assert (Hrc : run_checked env cmd w
                = mkResult (if returncode =? 0 then Ret tt else Raise CalledProcessError)
                           (mkWorld (clock w) fs (sigint w)) [Run cmd]).
  { unfold run_checked, bind, run. rewrite Hrun. cbn [outcome final emitted].
    destruct (returncode =? 0); reflexivity. }
  unfold try_except.
  destruct (returncode =? 0).
  - rewrite (SysFacts.bind_Ret _ _ w tt) by (now rewrite Hrc).
    exists true. reflexivity.
  - rewrite (SysFacts.bind_Raise _ _ w CalledProcessError) by (now rewrite Hrc).
    cbn [outcome final is_CalledProcessError]. rewrite Hrc. cbn [final].
    unfold decode_stderr.
    destruct kind; rewrite ?Htext; exists false; reflexivity.
Qed.

Lemma generate_if_returns (flag : option bool) (kind : Kind)
      (resampled_file image_dir filename_base : string) (w : World) :
  exists u, outcome (generate_if env flag kind resampled_file image_dir
                                 filename_base w) = Ret u.
Proof.
  unfold generate_if. destruct (get_or_true flag); [|now exists tt].
  destruct (generate_returns kind resampled_file
                             (output_file image_dir filename_base kind) w)
    as [ok Hok].
  exists tt. rewrite (SysFacts.bind_Ret _ _ _ _ Hok). reflexivity.
Qed.

Lemma send_to_epaper_returns (image_file : string) (w : World) :
  outcome (send_to_epaper env image_file w) = Ret tt.
Proof.
  unfold send_to_epaper, try_except, bind, run.
  cbn.
  destruct (Hexit ["sshpass"; "-p"; "1234"; "scp"; "-o"; "StrictHostKeyChecking=no";
                   image_file; "epaper@192.168.1.220:~/incoming/"] (files w))
    as (returncode & fs & ->).
  cbn. destruct (returncode =? 0); reflexivity.
Qed.

Lemma forward_returns (first_image : option string)
      (image_dir filename_base : string) (w : World) :
  exists u, outcome (forward env first_image image_dir filename_base w) = Ret u.
Proof.
  exists tt. unfold forward, bind, get_files. cbn.
  destruct first_image as [image|].
  - destruct (truthy image && exists_ (files w) image).
    + apply send_to_epaper_returns.
    + destruct (sorted (glob_png env (files w) image_dir filename_base));
        [reflexivity | apply send_to_epaper_returns].
  - destruct (sorted (glob_png env (files w) image_dir filename_base));
      [reflexivity | apply send_to_epaper_returns].
Qed.

(** Once the resampler has succeeded, and as long as the decoder and
    the transfer tool exit and the standard error of the decoder is valid
    UTF-8, [process_audio] comes to its last lines: it returns, and the
    resampled file is not there afterwards. *)
Lemma resampled_file_removed_after_resample
      (audio_file filename_base sat_name : string) (w : World) (fs : FS) :
  makedirs_ok env (dir_images (directories (config env))) (files w) = true ->
  subprocess_run env (sox_cmd audio_file (replace_wav audio_file)) (files w)
  = Exit 0 fs ->
  let r := process_audio env audio_file filename_base sat_name w in
  outcome r = Ret tt /\ exists_ (files (final r)) (replace_wav audio_file) = false.
Proof.
  intros Hdir Hsox r. subst r.
  pose (Q := fun (o : Outcome unit) (w' : World) =>
               o = Ret tt /\ exists_ (files w') (replace_wav audio_file) = false).
  change (Q (outcome (process_audio env audio_file filename_base sat_name w))
            (final (process_audio env audio_file filename_base sat_name w))).
  unfold process_audio.
  apply (bind_then _ _ _ Q tt); [reflexivity|]. cbn [log emit final].
  apply (bind_then _ _ _ Q tt);
    [unfold os_makedirs; rewrite Hdir; reflexivity|].
  assert (Hw : final (os_makedirs env (dir_images (directories (config env))) w) = w)
    by (unfold os_makedirs; rewrite Hdir; reflexivity).
  rewrite Hw.
  assert (Hres : try_except
                   (bind (run_checked env (sox_cmd audio_file (replace_wav audio_file)))
                         (fun _ => bind (log INFO AudioResampled) (fun _ => ret true)))
                   is_CalledProcessError
                   (fun _ => bind (log ERROR FailedToResample) (fun _ => ret false)) w
                 = mkResult (Ret true) (mkWorld (clock w) fs (sigint w))
                            [Run (sox_cmd audio_file (replace_wav audio_file));
                             Log INFO AudioResampled]).
  { unfold try_except, run_checked, bind, run. rewrite Hsox. reflexivity. }
  apply (bind_then _ _ _ Q true); [now rewrite Hres|].
  rewrite Hres. cbn [final negb].
  apply bind_then_any.
  { destruct (get_or_true (generate_basic (processing (config env))));
      [|now eexists].
    destruct (generate_returns Basic (replace_wav audio_file)
                               (output_file (dir_images (directories (config env)))
                                            filename_base Basic)
                               (mkWorld (clock w) fs (sigint w))) as [ok Hok].
    eexists. rewrite (SysFacts.bind_Ret _ _ _ _ Hok). reflexivity. }
  intros first_image w1.
  apply bind_then_any; [apply generate_if_returns|]. intros _ w2.
  apply bind_then_any; [apply generate_if_returns|]. intros _ w3.
  apply bind_then_any; [apply generate_if_returns|]. intros _ w4.
  apply bind_then_any; [apply generate_if_returns|]. intros _ w5.
  apply bind_then_any; [apply forward_returns|]. intros _ w6.
  apply bind_then_any.
  { destruct (negb (get_or_true (save_raw_audio (processing (config env)))));
      [|now eexists].
    unfold try_except, bind, os_remove.
    destruct (exists_ (files w6) audio_file); cbn; eauto. }
  intros _ w7. apply SysFacts.remove_quietly.
Qed.
End ProgramsExit.

Lemma insert_name_In (x y : string) (l : list string) :
  In y (insert_name x l) <-> y = x \/ In y l.
Proof.
  induction l as [|z l IH]; simpl.
  - intuition.
  - destruct (String.leb x z); simpl; [intuition|]. rewrite IH. intuition.
Qed.

Lemma sorted_In (y : string) (l : list string) : In y (sorted l) <-> In y l.
Proof.
  induction l as [|x l IH]; simpl; [tauto|].
  rewrite insert_name_In, IH. intuition.
Qed.

(** [sorted(names)[0]] is one of the names, and the smallest. *)
Lemma sorted_head_least (l : list string) : forall x rest,
  sorted l = x :: rest ->
  In x l /\ forall y, In y l -> String.leb x y = true.
Proof.
  induction l as [|z l IH]; intros x rest H; simpl in H; [discriminate|].
  destruct (sorted l) as [|h t] eqn:Hs.
  - simpl in H. injection H as <- <-. split; [now left|].
    intros y [<-|Hy]; [apply PyStrFacts.leb_refl|].
    apply sorted_In in Hy. rewrite Hs in Hy. contradiction.
  - destruct (IH h t eq_refl) as [Hin Hleast].
    simpl in H. destruct (String.leb z h) eqn:Hzh; injection H as <- <-.
    + split; [now left|]. intros y [<-|Hy]; [apply PyStrFacts.leb_refl|].
      apply (PyStrFacts.leb_trans z h y Hzh). now apply Hleast.
    + split; [now right|]. intros y [<-|Hy]; [|now apply Hleast].
      destruct (String.leb_total h z) as [Hhz|Hzh']; [exact Hhz | congruence].
Qed.

(** A call of [send_to_epaper] is one forwarding of its image, whatever
    the transfer does. *)
Lemma send_to_epaper_forwarded (env : Env) (image_file : string) (w : World) :
  forwarded (emitted (send_to_epaper env image_file w)) = [image_file].
Proof.
  unfold send_to_epaper, try_except, bind, run. cbn [log emit outcome final emitted].
  destruct (subprocess_run env _ (files w)) as [returncode fs|e fs];
    cbn [outcome final emitted].
  - destruct (returncode =? 0); reflexivity.
  - destruct (is_Exception e); reflexivity.
Qed.

(** What [process_audio] forwards after its five blocks: the plain image
    when it was generated and its file exists; otherwise the smallest name
    among the files that match the pattern, if there is one. The false
    colour images are never remembered. *)
Lemma forward_choice (env : Env) (first_image : option string)
      (image_dir filename_base : string) (w : World) :
  forwarded (emitted (forward env first_image image_dir filename_base w))
  = match first_image with
    | Some image =>
        if truthy image && exists_ (files w) image then [image]
        else firstn 1 (sorted (glob_png env (files w) image_dir filename_base))
    | None => firstn 1 (sorted (glob_png env (files w) image_dir filename_base))
    end.
Proof.
  unfold forward.
  rewrite (SysFacts.bind_Ret get_files _ w (files w)) by reflexivity.
  cbn [get_files outcome final emitted app].
  destruct first_image as [image|].
  - destruct (truthy image && exists_ (files w) image).
    + apply send_to_epaper_forwarded.
    + destruct (sorted (glob_png env (files w) image_dir filename_base));
        [reflexivity | apply send_to_epaper_forwarded].
  - destruct (sorted (glob_png env (files w) image_dir filename_base));
      [reflexivity | apply send_to_epaper_forwarded].
Qed.

(** C9: when the resampler exits with a status that is not zero, the
    pipeline logs the failure and returns: what it has done is the log
    line, the directory, and the run of the resampler, so no decoder was
    invoked and nothing was forwarded. *)
Theorem resample_failure_stops_pipeline
        (env : Env) (audio_file filename_base sat_name : string) (w : World)
        (returncode : Z) (fs : FS) :
  makedirs_ok env (dir_images (directories (config env))) (files w) = true ->
  subprocess_run env (sox_cmd audio_file (replace_wav audio_file)) (files w)
  = Exit returncode fs ->
  returncode <> 0 ->
  let r := process_audio env audio_file filename_base sat_name w in
  emitted r = [Log INFO (ProcessingAudio audio_file);
               Makedirs (dir_images (directories (config env)));
               Run (sox_cmd audio_file (replace_wav audio_file));
               Log ERROR FailedToResample]
  /\ count is_decoder_run (emitted r) = 0%nat
  /\ count is_forward (emitted r) = 0%nat
  /\ outcome r = Ret tt.
Proof.
  intros Hdir Hsox Hrc r.
  assert (Hcode : (returncode =? 0) = false) by (now apply Z.eqb_neq).
  assert (He : emitted r = [Log INFO (ProcessingAudio audio_file);
                            Makedirs (dir_images (directories (config env)));
                            Run (sox_cmd audio_file (replace_wav audio_file));
                            Log ERROR FailedToResample]
               /\ outcome r = Ret tt).
  { subst r. unfold process_audio.
  rewrite (SysFacts.bind_Ret _ _ w tt) by reflexivity.
  cbn [log emit final emitted outcome].
  assert (Hmk : os_makedirs env (dir_images (directories (config env))) w
                = mkResult (Ret tt) w [Makedirs (dir_images (directories (config env)))])
    by (unfold os_makedirs; rewrite Hdir; reflexivity).
  rewrite (SysFacts.bind_Ret _ _ w tt) by (now rewrite Hmk).
  rewrite Hmk. cbn [final emitted outcome].
  assert (Hres : try_except
                   (bind (run_checked env (sox_cmd audio_file (replace_wav audio_file)))
                         (fun _ => bind (log INFO AudioResampled) (fun _ => ret true)))
                   is_CalledProcessError
                   (fun _ => bind (log ERROR FailedToResample) (fun _ => ret false)) w
                 = mkResult (Ret false) (mkWorld (clock w) fs (sigint w))
                            [Run (sox_cmd audio_file (replace_wav audio_file));
                             Log ERROR FailedToResample]).
  { unfold try_except, run_checked, bind, run. rewrite Hsox.
    cbn [outcome final emitted]. rewrite Hcode. reflexivity. }
  rewrite (SysFacts.bind_Ret _ _ w false) by (now rewrite Hres).
  rewrite Hres. cbn [final emitted outcome negb ret app]. split; reflexivity. }
destruct He as [He Ho]. rewrite He. repeat split; try reflexivity; assumption.
Qed.

(** C9 at a resampler that exits with 2. *)
Lemma resample_failure_stops_pipeline_witness :
  let r := process_audio (Station.station 2 true ["msa"; "hvct"] 100 true)
                         Station.recording "NOAA_15_20240101_120000" "NOAA 15"
                         Station.recorded_world in
  emitted r = [Log INFO (ProcessingAudio Station.recording);
               Makedirs "/home/pi/noaa/images";
               Run (sox_cmd Station.recording (replace_wav Station.recording));
               Log ERROR FailedToResample]
  /\ count is_decoder_run (emitted r) = 0%nat
  /\ count is_forward (emitted r) = 0%nat
  /\ outcome r = Ret tt.
Proof.
  apply (resample_failure_stops_pipeline
           (Station.station 2 true ["msa"; "hvct"] 100 true)
           Station.recording "NOAA_15_20240101_120000" "NOAA 15"
           Station.recorded_world 2
           [(Station.resampled, 4096); (Station.recording, 60000)]).
  - reflexivity.
  - reflexivity.
  - discriminate.
Defined.

(** C4, where the code departs from it: the resampler has written its
    output file and exits with 2; [process_audio] returns from its
    handler, and the resampled file is still there afterwards. *)
Theorem resampled_file_left_after_resample_failure :
  let r := process_audio (Station.station 2 true ["msa"; "hvct"] 100 true)
                         Station.recording "NOAA_15_20240101_120000" "NOAA 15"
                         Station.recorded_world in
  replace_wav Station.recording = Station.resampled
  /\ outcome r = Ret tt
  /\ exists_ (files (final r)) Station.resampled = true
  /\ count (fun ev => match ev with Remove _ => true | _ => false end) (emitted r)
     = 0%nat.
Proof. vm_compute. repeat split. Qed.

(** C1, where the code departs from it: the configuration turns the plain
    image off, and the decoder succeeds for the four false colour images.
    Nothing was kept in [first_image]; the files are listed and sorted, and
    the HVCT image, third of the four in the order of generation, is sent,
    not the MSA image, first in it. *)
Theorem forwarded_image_is_smallest_name :
  let r := process_audio
             (Station.without_basic
                (Station.station 0 true ["msa"; "msa-precip"; "hvct"; "therm"] 100 true))
             Station.recording "NOAA_15_20240101_120000" "NOAA 15"
             Station.recorded_world in
  count is_decoder_run (emitted r) = 4%nat
  /\ In (Log INFO (Generated MSA "/home/pi/noaa/images/NOAA_15_20240101_120000_MSA.png"))
        (emitted r)
  /\ In (Log INFO (Generated HVCT "/home/pi/noaa/images/NOAA_15_20240101_120000_HVCT.png"))
        (emitted r)
  /\ forwarded (emitted r)
     = ["/home/pi/noaa/images/NOAA_15_20240101_120000_HVCT.png"].
Proof. vm_compute. intuition. Qed.

(** The same with the plain image on and failing, as the MSA image does:
    of MSA-PRECIP and HVCT, which succeed, HVCT is sent. *)
Example forwarded_image_hvct_before_msa_precip :
  forwarded
    (emitted (process_audio (Station.station 0 false ["msa-precip"; "hvct"] 100 true)
                            Station.recording "NOAA_15_20240101_120000" "NOAA 15"
                            Station.recorded_world))
  = ["/home/pi/noaa/images/NOAA_15_20240101_120000_HVCT.png"].
Proof. reflexivity. Qed.

(** The scenario the specification gives: the plain image fails, the MSA
    and the MSA-PRECIP images succeed. The MSA image is sent, because its
    name sorts first. *)
Example forwarded_image_msa_before_msa_precip :
  forwarded
    (emitted (process_audio (Station.station 0 false ["msa"; "msa-precip"] 100 true)
                            Station.recording "NOAA_15_20240101_120000" "NOAA 15"
                            Station.recorded_world))
  = ["/home/pi/noaa/images/NOAA_15_20240101_120000_MSA.png"].
Proof. reflexivity. Qed.

(** When the plain image succeeds, it is the one sent. *)
Example forwarded_image_basic :
  forwarded
    (emitted (process_audio (Station.station 0 true ["msa"; "hvct"] 100 true)
                            Station.recording "NOAA_15_20240101_120000" "NOAA 15"
                            Station.recorded_world))
  = ["/home/pi/noaa/images/NOAA_15_20240101_120000.png"].
Proof. reflexivity. Qed.

End PipelineFacts.

(** ** Capture session *)

Module CaptureFacts.
Import Sys Predictor Capture Trace.
Local Open Scope list_scope.

Lemma bind_quiet {A B} (m : M A) (k : A -> M B) (w : World) :
  existsb is_pipeline (emitted (m w)) = false ->
  (forall a w', existsb is_pipeline (emitted (k a w')) = false) ->
  existsb is_pipeline (emitted (bind m k w)) = false.
Proof.
  intros Hm Hk. unfold bind. destruct (outcome (m w)); cbn [emitted]; try exact Hm.
  rewrite existsb_app, Hm. apply Hk.
Qed.

Lemma try_except_quiet {A} (body : M A) (catches : exn -> bool)
      (handler : exn -> M A) (w : World) :
  existsb is_pipeline (emitted (body w)) = false ->
  (forall e w', existsb is_pipeline (emitted (handler e w')) = false) ->
  existsb is_pipeline (emitted (try_except body catches handler w)) = false.
Proof.
  intros Hb Hh. unfold try_except.
  destruct (outcome (body w)) as [a|e|]; try exact Hb.
  destruct (catches e); [|exact Hb].
  cbn [emitted]. rewrite existsb_app, Hb. apply Hh.
Qed.

Lemma sleep_quiet (seconds : Z) (w : World) :
  existsb is_pipeline (emitted (sleep seconds w)) = false.
Proof.
  unfold sleep. destruct (seconds <? 0); [reflexivity|].
  destruct (sigint w) as [t|]; [|reflexivity].
  destruct (t <? clock w + seconds); reflexivity.
Qed.

(** Before the [try], nothing of the pipeline happens. *)
Lemma prepare_no_pipeline (env : Env) (pass_info : PassInfo) (w : World) :
  existsb is_pipeline (emitted (prepare env pass_info w)) = false.
Proof.
  unfold prepare.
  apply bind_quiet; [unfold os_makedirs; destruct (makedirs_ok env _ _); reflexivity|].
  intros _ w1. apply bind_quiet; [reflexivity|].
  intros _ w2. apply bind_quiet; [reflexivity|].
  intros now w3. apply bind_quiet.
  - destruct (aos pass_info >? now); [|reflexivity].
    apply bind_quiet; [reflexivity|]. intros _ w4. apply sleep_quiet.
  - intros _ w4. apply bind_quiet; [reflexivity|]. intros _ w5. reflexivity.
Qed.

(** Nor while the recorder runs and is stopped. *)
Lemma record_no_pipeline (env : Env) (pass_info : PassInfo) (w : World) :
  existsb is_pipeline (emitted (record env pass_info w)) = false.
Proof.
  unfold record.
  apply bind_quiet;
    [unfold popen; destruct (subprocess_popen env _ _) as [[rec|] exits]; reflexivity|].
  intros process w1. apply bind_quiet; [apply sleep_quiet|].
  intros _ w2. apply bind_quiet; [reflexivity|].
  intros _ w3. apply bind_quiet.
  - apply try_except_quiet.
    + unfold wait.
      destruct (match sigint w3 with Some t => _ | None => _ end);
        [|destruct (exits_within process 5)]; reflexivity.
    + intros e w4. reflexivity.
  - intros _ w4. reflexivity.
Qed.

(** [process_audio] starts with its log line. *)
Lemma process_audio_starts (env : Env) (audio_file filename_base sat_name : string)
      (w : World) :
  exists evs,
    emitted (Pipeline.process_audio env audio_file filename_base sat_name w)
    = Log INFO (ProcessingAudio audio_file) :: evs.
Proof.
  unfold Pipeline.process_audio.
  rewrite (SysFacts.bind_Ret _ _ w tt) by reflexivity.
  cbn [emitted log emit app]. eauto.
Qed.

(** C8: the capture session invokes the image pipeline exactly when it
    came to the end of the recording and the audio file then exists with
    a size above zero. When the recording is over and the file is missing
    or empty, the session logs the error, returns, and has done nothing
    but its own preparation and recording: the pipeline was not invoked. *)
Theorem pipeline_only_for_valid_recording
        (env : Env) (pass_info : PassInfo) (w : World) :
  let r0 := prepare env pass_info w in
  let r1 := record env pass_info (final r0) in
  let r := capture_pass env pass_info w in
  (existsb is_pipeline (emitted r) = true <->
   outcome r0 = Ret tt /\ outcome r1 = Ret tt
   /\ exists_ (files (final r1)) (audio_file env pass_info) = true
   /\ getsize (files (final r1)) (audio_file env pass_info) > 0)
  /\ (outcome r0 = Ret tt -> outcome r1 = Ret tt ->
      artifact_ok (files (final r1)) (audio_file env pass_info) = false ->
      outcome r = Ret tt
      /\ emitted r = emitted r0 ++ emitted r1
                     ++ [Log ERROR (AudioEmptyOrMissing (audio_file env pass_info))]).
Proof.
  intros r0 r1 r.
  assert (Hok : artifact_ok (files (final r1)) (audio_file env pass_info) = true <->
                exists_ (files (final r1)) (audio_file env pass_info) = true
                /\ getsize (files (final r1)) (audio_file env pass_info) > 0).
  { unfold artifact_ok. rewrite andb_true_iff, Z.gtb_lt. intuition lia. }
  rewrite <- Hok. clear Hok.
  pose proof (prepare_no_pipeline env pass_info w) as H0.
  pose proof (record_no_pipeline env pass_info (final r0)) as H1.
  fold r0 in H0. fold r1 in H1.
  subst r. unfold capture_pass.
  destruct (outcome r0) as [[]|e0|] eqn:E0.
  - unfold r0 in E0. rewrite (SysFacts.bind_Ret _ _ w tt E0). fold r0.
    cbn [outcome emitted final]. unfold try_except.
    destruct (outcome r1) as [[]|e1|] eqn:E1.
    + unfold r1 in E1. rewrite (SysFacts.bind_Ret _ _ (final r0) tt E1). fold r1.
      cbn [outcome emitted final]. unfold process_recording.
      rewrite (SysFacts.bind_Ret get_files _ (final r1) (files (final r1)))
        by reflexivity.
      cbn [outcome emitted final get_files app].
      destruct (artifact_ok (files (final r1)) (audio_file env pass_info)) eqn:Ha.
      * destruct (process_audio_starts env (audio_file env pass_info)
                                       (filename_base env pass_info)
                                       (satellite pass_info) (final r1))
          as [evs Hevs].
        split; [|intros _ _ Hf; discriminate].
        split; [intros _; repeat split; reflexivity|]. intros _.
        destruct (outcome (Pipeline.process_audio env (audio_file env pass_info)
                                                  (filename_base env pass_info)
                                                  (satellite pass_info) (final r1)))
          as [u|e|]; [| destruct (is_Exception e) |];
          cbn [emitted]; rewrite Hevs; repeat rewrite existsb_app;
          cbn [existsb is_pipeline]; rewrite !orb_true_r; reflexivity.
      * cbn [log emit outcome emitted final].
        split.
        -- split; [|intros (_ & _ & Hf); discriminate].
           rewrite !existsb_app, H0, H1. cbn. discriminate.
        -- intros _ _ _. split; reflexivity.
    + unfold r1 in E1. rewrite (SysFacts.bind_Raise _ _ (final r0) e1 E1). fold r1.
      cbn [outcome emitted final].
      split; [|intros _ Hf; discriminate].
      split; [|intros (_ & Hf & _); discriminate].
      destruct (is_Exception e1); cbn [emitted log emit];
        rewrite ?existsb_app, H0, H1; cbn; discriminate.
    + unfold r1 in E1. rewrite (SysFacts.bind_Diverge _ _ (final r0) E1). fold r1.
      cbn [outcome emitted final].
      split; [|intros _ Hf; discriminate].
      split; [|intros (_ & Hf & _); discriminate].
      rewrite ?existsb_app, H0, H1; cbn; discriminate.
  - unfold r0 in E0. rewrite (SysFacts.bind_Raise _ _ w e0 E0). fold r0.
    cbn [outcome emitted final].
    split; [|intros Hf; discriminate].
    split; [|intros (Hf & _); discriminate].
    rewrite H0. discriminate.
  - unfold r0 in E0. rewrite (SysFacts.bind_Diverge _ _ w E0). fold r0.
    cbn [outcome emitted final].
    split; [|intros Hf; discriminate].
    split; [|intros (Hf & _); discriminate].
    rewrite H0. discriminate.
Qed.

(** A recorder that writes nothing leaves an empty file: the session
    reports it and runs no program. *)
Example capture_of_empty_recording :
  let r := capture_pass (Station.station 0 true ["msa"] 0 true)
                        (mkPass "NOAA 15" 100 700 (50 # 1) 600 137620000)
                        Station.start_world in
  outcome r = Ret tt
  /\ In (Log ERROR (AudioEmptyOrMissing Station.recording)) (emitted r)
  /\ existsb is_pipeline (emitted r) = false.
Proof. vm_compute. intuition. Qed.

(** A recorder that writes 100 bytes a second leaves a file, and the
    pipeline runs on it. *)
Example capture_of_recording :
  let r := capture_pass (Station.station 0 true ["msa"] 100 true)
                        (mkPass "NOAA 15" 100 700 (50 # 1) 600 137620000)
                        Station.start_world in
  outcome r = Ret tt
  /\ In (Log INFO (ProcessingAudio Station.recording)) (emitted r)
  /\ forwarded (emitted r) = ["/home/pi/noaa/images/NOAA_15_20240101_120000.png"].
Proof. vm_compute. intuition. Qed.

End CaptureFacts.

(** ** Scheduler *)

Module SchedulerFacts.
Import Sys Predictor Scheduler Trace.
Local Open Scope list_scope.

(** C6: when one round of the loop raises an exception (anything but a
    Ctrl-C), and no Ctrl-C arrives in the five minutes that follow, the
    round ends with the error logged and one sleep of 300 seconds after
    what the round had done, and the loop goes on with its next round
    from there: it does not return. *)
Theorem failed_round_backs_off_and_retries
        (env : Env) (w : World) (e : exn) (rounds : nat) :
  outcome (iteration env w) = Raise e ->
  is_Exception e = true ->
  (forall t, sigint (final (iteration env w)) = Some t ->
             clock (final (iteration env w)) + 300 <= t) ->
  let r := iteration env w in
  let w' := mkWorld (clock (final r) + 300) (files (final r)) (sigint (final r)) in
  round env w
  = mkResult (Ret Again) w'
             (emitted r ++ [Log ERROR (ErrorInScheduler e); Sleep 300])
  /\ loop env (S rounds) w
     = mkResult (outcome (loop env rounds w')) (final (loop env rounds w'))
                ((emitted r ++ [Log ERROR (ErrorInScheduler e); Sleep 300])
                 ++ emitted (loop env rounds w')).
Proof.
  intros Hraise Hexc Hquiet r w'.
  assert (Hround : round env w
                   = mkResult (Ret Again) w'
                              (emitted r ++ [Log ERROR (ErrorInScheduler e); Sleep 300])).
  { unfold round. fold r. unfold r in Hraise. fold r in Hraise, Hquiet.
    rewrite Hraise.
    assert (Hsleep : (log ERROR (ErrorInScheduler e) ;; sleep 300 ;; ret Again)%M (final r)
                     = mkResult (Ret Again) w'
                                [Log ERROR (ErrorInScheduler e); Sleep 300]).
    { unfold bind, log, emit, sleep, ret. cbn.
      destruct (sigint (final r)) as [t|] eqn:Hsig.
      - specialize (Hquiet t eq_refl).
        assert (Hlt : (t <? clock (final r) + 300) = false) by (apply Z.ltb_ge; lia).
        rewrite Hlt. cbn. unfold w'. rewrite ?Hsig. reflexivity.
      - cbn. unfold w'. rewrite ?Hsig. reflexivity. }
    destruct e; try discriminate Hexc; rewrite Hsleep; reflexivity. }
  split; [exact Hround|].
  cbn [loop].
  rewrite (SysFacts.bind_Ret (round env) _ w Again) by (now rewrite Hround).
  rewrite Hround. reflexivity.
Qed.

(** C6 at a station whose audio directory cannot be made: the capture
    session raises [OSError] before its own handler is in place. *)
Lemma failed_round_backs_off_and_retries_witness :
  round (Station.station 0 true ["msa"] 100 false) Station.start_world
  = mkResult (Ret Again) (mkWorld 300 [] None)
             [Log INFO (PredictingPasses 24);
              Log INFO (PassPredicted "NOAA 15" 100 (50 # 1) 599);
              Log INFO (NextPassIs "NOAA 15" 100);
              Makedirs "/home/pi/noaa/audio";
              Log ERROR (ErrorInScheduler OSError);
              Sleep 300].
Proof.
  exact (proj1 (failed_round_backs_off_and_retries
                  (Station.station 0 true ["msa"] 100 false) Station.start_world
                  OSError 1
                  eq_refl eq_refl
                  (fun t (H : None = Some t) =>
                     match H in (_ = o) return
                           (match o with Some _ => 0 + 300 <= t | None => True end)
                     with eq_refl => I end))).
Defined.

(** A Ctrl-C during the wait for the pass ends the loop. *)
Example ctrl_c_stops_scheduler :
  outcome (run_scheduler (Station.station 0 true ["msa"] 100 true) 3
                         (mkWorld 0 [] (Some 50)))
  = Ret Stopped.
Proof. reflexivity. Qed.

End SchedulerFacts.

(** ** The element store *)

Module StoreFacts.
Import PyStr Tle Store.

Lemma lstrip_first (s : string) : first_is_space (lstrip s) = false.
Proof.
  induction s as [|c s IH]; simpl; [reflexivity|].
  destruct (is_space c) eqn:E; [exact IH | simpl; exact E].
Qed.

Lemma rstrip_first (s : string) :
  first_is_space s = false -> first_is_space (rstrip s) = false.
Proof.
  destruct s as [|c s]; simpl; [reflexivity|]. intros H.
  destruct (rstrip s); [rewrite H|]; simpl; assumption.
Qed.

Lemma rstrip_last (s : string) : last_is_space (rstrip s) = false.
Proof.
  induction s as [|c s IH]; simpl; [reflexivity|].
  destruct (rstrip s) as [|b r] eqn:E.
  - destruct (is_space c) eqn:Ec; simpl; [reflexivity | exact Ec].
  - exact IH.
Qed.

Lemma strip_trimmed (s : string) : trimmed (strip s) = true.
Proof.
  unfold trimmed, strip.
  rewrite rstrip_first by apply lstrip_first. rewrite rstrip_last. reflexivity.
Qed.

Lemma search_strips (sat_name : string) (lines : list string) (r : Record_) :
  search sat_name lines = Some r ->
  exists l0 l1 l2, r = mkRecord (strip l0) (strip l1) (strip l2).
Proof.
  induction lines as [|l0 rest IH]; [discriminate|].
  destruct rest as [|l1 [|l2 tl]]; try discriminate.
  change (search sat_name (l0 :: l1 :: l2 :: tl))
    with (if contains sat_name l0
          then Some (mkRecord (strip l0) (strip l1) (strip l2))
          else search sat_name (l1 :: l2 :: tl)).
  destruct (contains sat_name l0); [|exact IH].
  intros [= <-]. eauto.
Qed.

(** Whatever the file holds and whatever is asked, the three fields of a
    record that the lookup returns have no white space at either end. *)
Theorem lookup_fields_trimmed (tle_file : File) (sat_name : string) (r : Record_) :
  get_tle_data tle_file sat_name = Some r ->
  trimmed (name r) = true /\ trimmed (line1 r) = true /\ trimmed (line2 r) = true.
Proof.
  destruct tle_file as [| |lines]; simpl; try discriminate.
  intros H. apply search_strips in H. destruct H as (l0 & l1 & l2 & ->).
  simpl. repeat split; apply strip_trimmed.
Qed.

Lemma lookup_fields_trimmed_witness :
  trimmed "NOAA 15" = true
  /\ trimmed "1 25338U 98030A   24001.50000000  .00000200  00000-0  10000-3 0  9990"
     = true
  /\ trimmed "2 25338  98.5700  30.0000 0010000 100.0000 260.0000 14.26000000330000"
     = true.
Proof.
  exact (lookup_fields_trimmed
           (Lines two_records) "NOAA 15"
           (mkRecord
              "NOAA 15"
              "1 25338U 98030A   24001.50000000  .00000200  00000-0  10000-3 0  9990"
              "2 25338  98.5700  30.0000 0010000 100.0000 260.0000 14.26000000330000")
           eq_refl).
Defined.

Lemma rstrip_id (s : string) : last_is_space s = false -> rstrip s = s.
Proof.
  induction s as [|c s IH]; [reflexivity|].
  destruct s as [|b s'].
  - simpl. intros ->. reflexivity.
  - intros H. change (last_is_space (String c (String b s')))
      with (last_is_space (String b s')) in H.
    change (rstrip (String c (String b s')))
      with (match rstrip (String b s') with
            | EmptyString => if is_space c then EmptyString else String c EmptyString
            | String x y => String c (String x y)
            end).
    rewrite (IH H). reflexivity.
Qed.

Lemma rstrip_app_space (s : string) (c : ascii) :
  is_space c = true -> rstrip (s ++ String c EmptyString) = rstrip s.
Proof.
  intros Hc. induction s as [|a s IH]; simpl.
  - now rewrite Hc.
  - now rewrite IH.
Qed.

(** A trimmed line is what [strip] makes of it with its newline. *)
Lemma strip_line (s : string) : trimmed s = true -> strip (s ++ LF) = s.
Proof.
  unfold trimmed, strip. intros H. apply andb_true_iff in H. destruct H as [Hf Hl].
  apply negb_true_iff in Hf, Hl.
  destruct s as [|c s]; [reflexivity|].
  simpl in Hf. simpl lstrip. rewrite Hf.
  change (String c (s ++ LF)) with (String c s ++ LF).
  unfold LF. rewrite rstrip_app_space by reflexivity. now apply rstrip_id.
Qed.

Lemma prefix_before_LF (p : string) : forall s,
  one_line p = true -> String.prefix p (s ++ LF) = true -> String.prefix p s = true.
Proof.
  induction p as [|a p IH]; intros s Hp H.
  - destruct s; reflexivity.
  - simpl in Hp. apply andb_true_iff in Hp. destruct Hp as [Ha Hp].
    apply andb_true_iff in Ha. destruct Ha as [Ha _]. apply negb_true_iff in Ha.
    destruct s as [|b s]; simpl in *.
    + destruct (ascii_dec a "010") as [->|Hne]; [discriminate Ha|discriminate H].
    + destruct (ascii_dec a b); [now apply IH | discriminate].
Qed.

(** A name without a newline occurs in a line with its newline only if it
    occurs in the line. *)
Lemma contains_before_LF (p : string) : forall s,
  one_line p = true -> contains p (s ++ LF) = true -> contains p s = true.
Proof.
  intros s Hp. induction s as [|c s IH]; intros H.
  - change (contains p ("" ++ LF)) with (String.prefix p LF || contains p "") in H.
    apply orb_true_iff in H. destruct H as [H|H]; [|exact H].
    apply (prefix_before_LF p "" Hp) in H.
    change (contains p "") with (String.prefix p "" || false). now rewrite H.
  - change (contains p (String c s ++ LF))
      with (String.prefix p (String c s ++ LF) || contains p (s ++ LF)) in H.
    change (contains p (String c s))
      with (String.prefix p (String c s) || contains p s).
    apply orb_true_iff in H. apply orb_true_iff. destruct H as [H|H].
    + left. now apply prefix_before_LF.
    + right. now apply IH.
Qed.

Lemma readlines_line (line eol rest : string) :
  one_line line = true -> eol = LF \/ eol = CRLF ->
  readlines (universal_newlines (line ++ eol ++ rest))
  = (line ++ LF) :: readlines (universal_newlines rest).
Proof.
  intros Hl He. induction line as [|c line IH].
  - destruct He as [-> | ->]; reflexivity.
  - simpl in Hl. apply andb_true_iff in Hl. destruct Hl as [Hc Hl].
    apply andb_true_iff in Hc. destruct Hc as [Hlf Hcr].
    apply negb_true_iff in Hlf, Hcr.
    change (String c line ++ eol ++ rest) with (String c (line ++ eol ++ rest)).
    cbn [universal_newlines]. rewrite Hcr. cbn [readlines]. rewrite Hlf.
    rewrite (IH Hl). reflexivity.
Qed.

(** Lines written with one kind of line end are read back as they are,
    each with a newline. *)
Lemma readlines_unlines (eol : string) (ls : list string) :
  eol = LF \/ eol = CRLF -> forallb one_line ls = true ->
  readlines (universal_newlines (unlines eol ls)) = map (fun l => l ++ LF) ls.
Proof.
  intros He. induction ls as [|l ls IH]; intros H; [reflexivity|].
  simpl in H. apply andb_true_iff in H. destruct H as [Hl Hls].
  cbn [unlines map]. rewrite readlines_line by assumption. now rewrite IH.
Qed.

Lemma search_lines (sat_name l1 l2 : string) : forall (i : nat) (ls : list string),
  one_line sat_name = true ->
  nth_error ls i = Some sat_name ->
  nth_error ls (S i) = Some l1 ->
  nth_error ls (S (S i)) = Some l2 ->
  trimmed sat_name = true -> trimmed l1 = true -> trimmed l2 = true ->
  (forall j lj, (j < i)%nat -> nth_error ls j = Some lj -> ~ Substring sat_name lj) ->
  search sat_name (map (fun l => l ++ LF) ls) = Some (mkRecord sat_name l1 l2).
Proof.
  induction i as [|i IH]; intros ls Hone H0 H1 H2 Ht0 Ht1 Ht2 Hmin.
  - destruct ls as [|a [|b [|c tl]]]; try discriminate.
    simpl in H0, H1, H2. injection H0 as ->. injection H1 as ->. injection H2 as ->.
    cbn [map search].
    assert (Hc : contains sat_name (sat_name ++ LF) = true).
    { apply PyStrFacts.contains_spec. exists "", LF. reflexivity. }
    rewrite Hc, !strip_line by assumption. reflexivity.
  - destruct ls as [|a [|b [|c tl]]]; try discriminate.
    cbn [map]. cbn [map] in IH.
    change (search sat_name ((a ++ LF) :: (b ++ LF) :: (c ++ LF) :: map (fun l => l ++ LF) tl))
      with (if contains sat_name (a ++ LF)
            then Some (mkRecord (strip (a ++ LF)) (strip (b ++ LF)) (strip (c ++ LF)))
            else search sat_name (map (fun l => l ++ LF) (b :: c :: tl))).
    destruct (contains sat_name (a ++ LF)) eqn:Hc.
    + exfalso. apply (Hmin 0%nat a); [lia | reflexivity |].
      apply PyStrFacts.contains_spec. now apply contains_before_LF.
    + apply IH; try assumption.
      intros j lj Hj Hn. apply (Hmin (S j) lj); [lia | exact Hn].
Qed.

(** After an update that succeeds, the lookup finds what the response
    holds: for a response of lines with one kind of line end ("\n" or
    "\r\n"), a satellite whose name is a line of the response, followed by
    two more lines, and occurs in no line before it, is found with exactly
    these three lines, when they have no white space at their ends. *)
Theorem lookup_after_update
        (status_code : Z) (eol : string) (ls : list string) (old : File)
        (i : nat) (sat_name l1 l2 : string) :
  raises_for_status status_code = false ->
  eol = LF \/ eol = CRLF ->
  forallb one_line ls = true ->
  nth_error ls i = Some sat_name ->
  nth_error ls (S i) = Some l1 ->
  nth_error ls (S (S i)) = Some l2 ->
  trimmed sat_name = true -> trimmed l1 = true -> trimmed l2 = true ->
  (forall j lj, (j < i)%nat -> nth_error ls j = Some lj -> ~ Substring sat_name lj) ->
  exists new,
    update_tle true (Response status_code (unlines eol ls)) Written old = Some (true, new)
    /\ get_tle_data new sat_name = Some (mkRecord sat_name l1 l2).
Proof.
  intros Hst He Hone H0 H1 H2 Ht0 Ht1 Ht2 Hmin.
  exists (written (unlines eol ls)). split.
  - unfold update_tle. now rewrite Hst.
  - unfold written. rewrite readlines_unlines by assumption. simpl.
    apply (search_lines sat_name l1 l2 i ls); try assumption.
    rewrite forallb_forall in Hone. apply Hone. eapply nth_error_In. exact H0.
Qed.

Lemma lookup_after_update_witness :
  exists new,
    update_tle true (Response 200 (unlines CRLF two_element_sets)) Written Absent
    = Some (true, new)
    /\ get_tle_data new "NOAA 19"
       = Some (mkRecord
                 "NOAA 19"
                 "1 33591U 09005A   24001.50000000  .00000200  00000-0  10000-3 0  9990"
                 "2 33591  99.0500  60.0000 0014000 120.0000 240.0000 14.13000000770000").
Proof.
  apply (lookup_after_update 200 CRLF two_element_sets Absent 3).
  - reflexivity.
  - right. reflexivity.
  - reflexivity.
  - reflexivity.
  - reflexivity.
  - reflexivity.
  - reflexivity.
  - reflexivity.
  - reflexivity.
  - intros j lj Hj Hn. apply PyStrFacts.contains_false.
    destruct j as [|[|[|j]]]; [| | |lia]; simpl in Hn; injection Hn as <-; reflexivity.
Defined.

(** [update_tle] returns [True] only when the response came, its status
    was not an error and the file was written; the file then holds the
    response. In every other case in which it returns, it returns [False],
    and after a failed request or an error status the file is untouched. *)
Theorem update_tle_outcomes
        (makedirs_ok : bool) (fetch : Fetch) (write : Write) (old new : File) (ok : bool) :
  update_tle makedirs_ok fetch write old = Some (ok, new) ->
  (ok = true ->
   exists status_code text,
     fetch = Response status_code text
     /\ ~ (400 <= status_code < 600)
     /\ write = Written
     /\ new = written text)
  /\ (fetch = ConnectionFailed -> ok = false /\ new = old)
  /\ (forall status_code text,
         fetch = Response status_code text -> 400 <= status_code < 600 ->
         ok = false /\ new = old).
Proof.
  unfold update_tle, raises_for_status. intros H.
  destruct makedirs_ok; [|discriminate].
  destruct fetch as [|status_code text].
  - injection H as <- <-. repeat split; try discriminate; reflexivity.
  - destruct ((400 <=? status_code) && (status_code <? 600)) eqn:E.
    + injection H as <- <-. repeat split; try discriminate; reflexivity.
    + apply andb_false_iff in E.
      assert (Hno : ~ (400 <= status_code < 600)).
      { intros [Ha Hb]. destruct E as [E|E].
        - apply Z.leb_gt in E. lia.
        - apply Z.ltb_ge in E. lia. }
      destruct write as [|remains]; injection H as <- <-.
      * split; [|split].
        -- intros _. exists status_code, text. repeat split; assumption.
        -- discriminate.
        -- intros c t [= <- <-] Hr. contradiction.
      * split; [|split].
        -- discriminate.
        -- discriminate.
        -- intros c t [= <- <-] Hr. contradiction.
Qed.

Lemma update_tle_outcomes_witness :
  (false = true ->
   exists status_code text,
     Response 503 "Service Unavailable" = Response status_code text
     /\ ~ (400 <= status_code < 600)
     /\ Written = Written
     /\ Lines two_records = written text)
  /\ (Response 503 "Service Unavailable" = ConnectionFailed ->
      false = false /\ Lines two_records = Lines two_records)
  /\ (forall status_code text,
         Response 503 "Service Unavailable" = Response status_code text ->
         400 <= status_code < 600 ->
         false = false /\ Lines two_records = Lines two_records).
Proof.
  exact (update_tle_outcomes true (Response 503 "Service Unavailable") Written
                             (Lines two_records) (Lines two_records) false eq_refl).
Defined.

End StoreFacts.

(** ** More on the pass duration refiner *)

Module SamplingFacts.
Import Refiner.

Lemma py_int_nonneg (x : Q) : (0 <= x)%Q -> 0 <= py_int x.
Proof.
  intros H. unfold py_int.
  assert (Hb : Qle_bool 0 x = true) by (now apply Qle_bool_iff).
  rewrite Hb. rewrite <- (Qfloor_Z 0). now apply Qfloor_resp_le.
Qed.

(** Truncation towards zero keeps the order below a value that is not
    negative. *)
Lemma py_int_le (x m : Q) : (0 <= m)%Q -> (x <= m)%Q -> py_int x <= py_int m.
Proof.
  intros Hm Hx. unfold py_int at 2.
  assert (Hb : Qle_bool 0 m = true) by (now apply Qle_bool_iff).
  rewrite Hb. unfold py_int. destruct (Qle_bool 0 x) eqn:E.
  - now apply Qfloor_resp_le.
  - assert (Hneg : (x <= 0)%Q).
    { apply Qlt_le_weak. apply Qnot_le_lt. intros H.
      apply Qle_bool_iff in H. congruence. }
    transitivity 0.
    + rewrite <- (Qceiling_Z 0). now apply Qceiling_resp_le.
    + rewrite <- (Qfloor_Z 0). now apply Qfloor_resp_le.
Qed.

Section Scan.
Variable elev : float -> option Q.
Variable aos_time : float.

(** The dates sampled are consecutive steps of 30 seconds, at most as many
    as the rounds allowed. *)
Lemma scan_dates (n : nat) : forall (i : nat) (max_el : Q),
  exists m, (m <= n)%nat
            /\ fst (scan n elev aos_time (date aos_time i) max_el)
               = map (date aos_time) (seq i m).
Proof.
  induction n as [|n IH]; intros i max_el.
  - exists 0%nat. split; [lia | reflexivity].
  - cbn [scan]. destruct (elev (date aos_time i)) as [el|].
    + destruct (Qlt_bool el 0 && (aos_time <? date aos_time i)%float).
      * exists 1%nat. split; [lia | reflexivity].
      * rewrite RefinerFacts.date_S.
        destruct (IH (S i) (if Qlt_bool max_el el then el else max_el)) as (m & Hm & Hd).
        destruct (scan n elev aos_time (date aos_time (S i))
                       (if Qlt_bool max_el el then el else max_el)) as [dates r].
        exists (S m). split; [lia|]. simpl in Hd. simpl. now rewrite Hd.
    + exists 1%nat. split; [lia | reflexivity].
Qed.

(** The maximum a scan returns: not below the maximum it started from, and
    not below the truncation of any elevation it sampled. *)
Lemma scan_maximum (n : nat) : forall (i : nat) (max_el : Q) dates d mx,
  (0 <= max_el)%Q ->
  scan n elev aos_time (date aos_time i) max_el = (dates, Some (d, mx)) ->
  py_int max_el <= mx
  /\ forall t el, In t dates -> elev t = Some el -> py_int el <= mx.
Proof.
  induction n as [|n IH]; intros i max_el dates d mx Hmax H; cbn [scan] in H.
  - injection H as <- _ <-. split; [lia|]. intros t el [].
  - destruct (elev (date aos_time i)) as [el0|] eqn:Hel; [|discriminate].
    destruct (RefinerFacts.running_max max_el el0) as (Hm1 & Hm2 & _).
    set (m := if Qlt_bool max_el el0 then el0 else max_el) in *.
    assert (Hm0 : (0 <= m)%Q) by (eapply Qle_trans; eassumption).
    destruct (Qlt_bool el0 0 && (aos_time <? date aos_time i)%float).
    + destruct (elapsed aos_time (date aos_time i)) as [d'|]; [|discriminate].
      injection H as <- _ <-. split.
      * now apply py_int_le.
      * intros t el [<-|[]] Ht. rewrite Hel in Ht. injection Ht as <-.
        now apply py_int_le.
    + rewrite RefinerFacts.date_S in H.
      destruct (scan n elev aos_time (date aos_time (S i)) m) as [dates' r] eqn:Hs.
      injection H as <- ->.
      destruct (IH (S i) m dates' d mx Hm0 Hs) as [Hle Hall].
      split.
      * transitivity (py_int m); [now apply py_int_le | exact Hle].
      * intros t el [<-|Hin] Ht.
        -- rewrite Hel in Ht. injection Ht as <-.
           transitivity (py_int m); [now apply py_int_le | exact Hle].
        -- now apply (Hall t el).
Qed.

(** A scan that ends without a result has met a sample that could not be
    computed, or a loss of signal whose seconds [int] could not give. *)
Lemma scan_none (n : nat) : forall (current_time : float) (max_el : Q) dates,
  scan n elev aos_time current_time max_el = (dates, None) ->
  exists t, In t dates /\ (elev t = None \/ elapsed aos_time t = None).
Proof.
  induction n as [|n IH]; intros cur mx dates H; cbn [scan] in H; [discriminate|].
  destruct (elev cur) as [el|] eqn:Hel.
  - destruct (Qlt_bool el 0 && (aos_time <? cur)%float).
    + destruct (elapsed aos_time cur) as [d|] eqn:Hd; [discriminate|].
      injection H as <-. exists cur. split; [now left | now right].
    + destruct (scan n elev aos_time (cur + second * 30)%float
                     (if Qlt_bool mx el then el else mx))
        as [ds r] eqn:Hr.
      injection H as <- ->.
      destruct (IH _ _ _ Hr) as (t & Hin & Hn).
      exists t. split; [now right | exact Hn].
  - injection H as <-. exists cur. split; [now left | now left].
Qed.

(** A sample that cannot be computed ends the scan without a result. *)
Lemma scan_failure (n : nat) (e : nat -> Q) : forall (i j : nat) (max_el : Q),
  (i <= j < i + n)%nat ->
  elev (date aos_time j) = None ->
  (forall k, (i <= k < j)%nat -> elev (date aos_time k) = Some (e k)) ->
  (forall k, (i <= k < j)%nat -> (1 <= k)%nat -> (0 <= e k)%Q) ->
  scan n elev aos_time (date aos_time i) max_el
  = (map (date aos_time) (seq i (S j - i)), None).
Proof.
  induction n as [|n IH]; intros i j max_el Hij Hnone Hel Hpos; [lia|].
  cbn [scan]. destruct (Nat.eq_dec i j) as [->|Hne].
  - rewrite Hnone. replace (S j - j)%nat with 1%nat by lia. reflexivity.
  - rewrite (Hel i) by lia.
    rewrite (RefinerFacts.scan_goes_on aos_time e i)
      by (intros Hi; apply Hpos; lia).
    rewrite RefinerFacts.date_S.
    rewrite (IH (S i) j max_el) || rewrite (IH (S i) j).
    + replace (S j - i)%nat with (S (S j - S i)) by lia. reflexivity.
    + lia.
    + exact Hnone.
    + intros k Hk. apply Hel. lia.
    + intros k Hk Hk1. apply Hpos; lia.
Qed.
End Scan.

(** Whatever the inputs, the refiner asks the propagator for at most 40
    elevations, at the rise time and then at every date that
    [current_time + ephem.second * 30] gives, without a gap. *)
Theorem samples_are_bounded
        (eph : Ephem) (tle_file : Tle.File) (sat_name : string) (aos_time : float) :
  exists m, (m <= 40)%nat
            /\ fst (calculate_pass_duration_run eph tle_file sat_name aos_time)
               = sample_dates aos_time m.
Proof.
  unfold calculate_pass_duration_run, sample_dates.
  destruct (Tle.get_tle_data tle_file sat_name) as [tle|];
    [|exists 0%nat; split; [lia | reflexivity]].
  destruct (readtle eph tle); [|exists 0%nat; split; [lia | reflexivity]].
  destruct (scan_dates (alt_deg eph tle) aos_time 40 0 0%Q) as (m & Hm & Hd).
  rewrite RefinerFacts.date_0 in Hd.
  exists m. split; [exact Hm|].
  destruct (scan 40 (alt_deg eph tle) aos_time aos_time 0) as [dates [r|]];
    exact Hd.
Qed.

(** The maximum elevation the refiner returns is never negative, and when
    no sample failed it is not below the truncation of any elevation that
    was sampled. *)
Theorem returned_maximum_bounds
        (eph : Ephem) (tle_file : Tle.File) (sat_name : string) (aos_time : float) :
  let run := calculate_pass_duration_run eph tle_file sat_name aos_time in
  0 <= snd (snd run)
  /\ forall tle,
      Tle.get_tle_data tle_file sat_name = Some tle ->
      (forall t, In t (fst run) ->
                 alt_deg eph tle t <> None /\ elapsed aos_time t <> None) ->
      forall t el, In t (fst run) -> alt_deg eph tle t = Some el ->
                   py_int el <= snd (snd run).
Proof.
  unfold calculate_pass_duration_run.
  destruct (Tle.get_tle_data tle_file sat_name) as [tle|] eqn:Htle.
  - destruct (readtle eph tle).
    + destruct (scan 40 (alt_deg eph tle) aos_time aos_time 0) as [dates [[d mx]|]] eqn:Hs.
      * rewrite <- (RefinerFacts.date_0 aos_time) in Hs at 2.
        apply scan_maximum in Hs; [|apply Qle_refl].
        destruct Hs as [H0 Hall]. cbn [fst snd]. split.
        -- exact H0.
        -- intros tle' [= <-] _. exact Hall.
      * cbn [fst snd]. split; [lia|].
        intros tle' [= <-] Hok t el Hin Ht.
        exfalso. apply scan_none in Hs. destruct Hs as (t' & Hin' & [Hn' | Hn']).
        -- exact (proj1 (Hok t' Hin') Hn').
        -- exact (proj2 (Hok t' Hin') Hn').
    + cbn [fst snd]. split; [lia|]. intros tle' _ _ t el [].
  - cbn [fst snd]. split; [lia|]. intros tle' H. discriminate.
Qed.

(** When the propagator cannot compute a sample, the refiner gives up: it
    returns 600 seconds and a maximum of 0, whatever it had sampled before.
    It returns the same when the propagator cannot read the element set,
    and then samples nothing. *)
Theorem propagator_failure_gives_default
        (eph : Ephem) (tle_file : Tle.File) (sat_name : string) (aos_time : float)
        (tle : Tle.Record_) :
  Tle.get_tle_data tle_file sat_name = Some tle ->
  (readtle eph tle = false ->
   calculate_pass_duration_run eph tle_file sat_name aos_time = ([], (600, 0)))
  /\ forall (e : nat -> Q) (j : nat),
      readtle eph tle = true ->
      (j < 40)%nat ->
      alt_deg eph tle (date aos_time j) = None ->
      (forall k, (k < j)%nat -> alt_deg eph tle (date aos_time k) = Some (e k)) ->
      (forall k, (1 <= k < j)%nat -> (0 <= e k)%Q) ->
      calculate_pass_duration_run eph tle_file sat_name aos_time
      = (sample_dates aos_time (S j), (600, 0)).
Proof.
  intros Htle. unfold calculate_pass_duration_run. rewrite Htle. split.
  - intros ->. reflexivity.
  - intros e j -> Hj Hnone Hel Hpos.
    pose proof (scan_failure (alt_deg eph tle) aos_time 40 e 0 j 0%Q) as H.
    rewrite RefinerFacts.date_0 in H. rewrite H; try assumption; try lia.
    + replace (S j - 0)%nat with (S j) by lia. reflexivity.
    + intros k Hk. apply Hel. lia.
    + intros k Hk Hk1. apply Hpos. lia.
Qed.

Lemma propagator_failure_gives_default_witness :
  calculate_pass_duration_run (Cases.fails_at (date noon_2024_01_01 2))
                              (Tle.Lines Tle.two_records) "NOAA 15" noon_2024_01_01
  = (sample_dates noon_2024_01_01 3, (600, 0)).
Proof.
  refine (proj2 (propagator_failure_gives_default
                   (Cases.fails_at (date noon_2024_01_01 2))
                   (Tle.Lines Tle.two_records) "NOAA 15" noon_2024_01_01
                   (Tle.mkRecord
                      "NOAA 15"
                      "1 25338U 98030A   24001.50000000  .00000200  00000-0  10000-3 0  9990"
                      "2 25338  98.5700  30.0000 0010000 100.0000 260.0000 14.26000000330000")
                   eq_refl)
                (fun _ => 25 # 1) 2%nat eq_refl _ eq_refl _ _).
  - lia.
  - intros k Hk. destruct k as [|[|k]]; [reflexivity | reflexivity | lia].
  - intros k Hk. discriminate.
Defined.

End SamplingFacts.

(** ** More on the pass predictor *)

Module HorizonFacts.
Import Refiner Predictor.

Section Loops.
Variable eph : Ephem.
Variable tle_file : Tle.File.
Variable min_elevation : Q.
Variable end_time : Z.
Variable P : PassInfo -> Prop.

(** What the loop of one satellite appends, with what the loop has checked
    before it appends. *)
Lemma find_passes_checked (sat_name : string) (sat_config : SatConfig)
      (tle : Tle.Record_) :
  (forall cursor tr altt ts,
      datetime eph cursor < end_time ->
      next_pass eph tle cursor = Pass tr altt ts ->
      datetime eph tr <= end_time ->
      (min_elevation <= altt)%Q ->
      P (mkPass sat_name (datetime eph tr) (datetime eph ts) altt
                (fst (calculate_pass_duration eph tle_file sat_name tr))
                (frequency sat_config))) ->
  forall fuel cursor passes out,
    find_passes eph tle_file min_elevation end_time fuel sat_name sat_config tle
                cursor passes = Some out ->
    Forall P passes -> Forall P out.
Proof.
  intros HP. induction fuel as [|fuel IH]; intros cursor passes out H Hall;
    simpl in H; [discriminate|].
  destruct (datetime eph cursor <? end_time) eqn:Hc; [|congruence].
  apply Z.ltb_lt in Hc.
  destruct (next_pass eph tle cursor) as [tr altt ts| |] eqn:Hnp; try congruence.
  destruct (datetime eph tr >? end_time) eqn:Htr; [congruence|].
  assert (Hle : datetime eph tr <= end_time) by (rewrite Z.gtb_ltb in Htr; now apply Z.ltb_ge).
  apply IH in H; [exact H|].
  destruct (Qle_bool min_elevation altt) eqn:Hmin; [|exact Hall].
  destruct (calculate_pass_duration eph tle_file sat_name tr) as [d mx] eqn:Hd.
  apply Forall_app. split; [exact Hall|]. constructor; [|constructor].
  replace d with (fst (calculate_pass_duration eph tle_file sat_name tr))
    by (now rewrite Hd).
  apply (HP cursor); try assumption. now apply Qle_bool_iff.
Qed.

(** The same for the loop over the satellites, with what that loop has
    checked. *)
Lemma each_satellite_checked (fuel : nat) (now : Z) :
  forall (sats : list (string * SatConfig)),
    (forall sat_name sat_config tle cursor tr altt ts,
        In (sat_name, sat_config) sats ->
        enabled sat_config = true ->
        Tle.get_tle_data tle_file sat_name = Some tle ->
        readtle eph tle = true ->
        datetime eph cursor < end_time ->
        next_pass eph tle cursor = Pass tr altt ts ->
        datetime eph tr <= end_time ->
        (min_elevation <= altt)%Q ->
        P (mkPass sat_name (datetime eph tr) (datetime eph ts) altt
                  (fst (calculate_pass_duration eph tle_file sat_name tr))
                  (frequency sat_config))) ->
    forall passes out,
      each_satellite eph tle_file min_elevation end_time fuel sats now passes
      = Some out ->
      Forall P passes -> Forall P out.
Proof.
  induction sats as [|[sat_name sat_config] rest IH]; intros HP passes out H Hall;
    simpl in H.
  - congruence.
  - assert (HP' : forall sat_name sat_config tle cursor tr altt ts,
               In (sat_name, sat_config) rest ->
               enabled sat_config = true ->
               Tle.get_tle_data tle_file sat_name = Some tle ->
               readtle eph tle = true ->
               datetime eph cursor < end_time ->
               next_pass eph tle cursor = Pass tr altt ts ->
               datetime eph tr <= end_time ->
               (min_elevation <= altt)%Q ->
               P (mkPass sat_name (datetime eph tr) (datetime eph ts) altt
                         (fst (calculate_pass_duration eph tle_file sat_name tr))
                         (frequency sat_config))).
    { intros. eapply HP; eauto. now right. }
    destruct (enabled sat_config) eqn:Hen; simpl in H; [|eauto].
    destruct (Tle.get_tle_data tle_file sat_name) as [tle|] eqn:Htle; [|eauto].
    destruct (readtle eph tle) eqn:Hread; [|eauto].
    destruct (find_passes eph tle_file min_elevation end_time fuel sat_name
                          sat_config tle (of_datetime eph now)
                          passes) as [passes'|] eqn:Hf;
      [|discriminate].
    apply (IH HP' passes' out H).
    eapply find_passes_checked; [|exact Hf|exact Hall].
    intros cursor tr altt ts Hc Hnp Htr Hmin.
    eapply HP; eauto. now left.
Qed.

(** With a horizon that has passed, a loop does not ask the propagator. *)
Lemma find_passes_past_horizon (fuel : nat) (sat_name : string)
      (sat_config : SatConfig) (tle : Tle.Record_) (cursor : float)
      (passes : list PassInfo) :
  end_time <= datetime eph cursor ->
  find_passes eph tle_file min_elevation end_time (S fuel) sat_name sat_config tle
              cursor passes = Some passes.
Proof.
  intros H. simpl. assert (Hc : (datetime eph cursor <? end_time) = false) by (apply Z.ltb_ge; lia).
  now rewrite Hc.
Qed.

(** When every round moves the date of the observer, read as an instant,
    by a minute at least, the loop of a satellite ends. *)
Lemma find_passes_ends (sat_name : string) (sat_config : SatConfig)
      (tle : Tle.Record_) :
  (forall cursor tr altt ts,
      next_pass eph tle cursor = Pass tr altt ts ->
      datetime eph cursor + 60 <= datetime eph (ts + minute)%float) ->
  forall fuel cursor passes,
    end_time - datetime eph cursor <= 60 * Z.of_nat fuel ->
    exists out,
      find_passes eph tle_file min_elevation end_time (S fuel) sat_name sat_config tle
                  cursor passes = Some out.
Proof.
  intros Hprog. induction fuel as [|fuel IH]; intros cursor passes Hfuel.
  - exists passes. apply find_passes_past_horizon. lia.
  - cbn [find_passes]. destruct (datetime eph cursor <? end_time) eqn:Hc; [|eauto].
    destruct (next_pass eph tle cursor) as [tr altt ts| |] eqn:Hnp; eauto.
    destruct (datetime eph tr >? end_time); [eauto|].
    apply IH. specialize (Hprog cursor tr altt ts Hnp). lia.
Qed.

Lemma each_satellite_ends (fuel : nat) (now : Z) :
  (forall tle cursor tr altt ts,
      next_pass eph tle cursor = Pass tr altt ts ->
      datetime eph cursor + 60 <= datetime eph (ts + minute)%float) ->
  end_time - datetime eph (of_datetime eph now) <= 60 * Z.of_nat fuel ->
  forall (sats : list (string * SatConfig)) (passes : list PassInfo),
  exists out,
    each_satellite eph tle_file min_elevation end_time (S fuel) sats now passes = Some out.
Proof.
  intros Hprog Hfuel. induction sats as [|[sat_name sat_config] rest IH]; intros passes.
  - exists passes. reflexivity.
  - cbn [each_satellite]. destruct (negb (enabled sat_config)); [apply IH|].
    destruct (Tle.get_tle_data tle_file sat_name) as [tle|]; [|apply IH].
    destruct (readtle eph tle); [|apply IH].
    destruct (find_passes_ends sat_name sat_config tle (Hprog tle) fuel
                               (of_datetime eph now) passes Hfuel)
      as [out Hout].
    rewrite Hout. apply IH.
Qed.
End Loops.

Lemma predict_next_passes_checked (P : PassInfo -> Prop)
      (eph : Ephem) (tle_file : Tle.File) (sats : list (string * SatConfig))
      (min_elevation : Q) (fuel : nat) (now hours : Z) (passes : list PassInfo) :
  (forall sat_name sat_config tle cursor tr altt ts,
      In (sat_name, sat_config) sats ->
      enabled sat_config = true ->
      Tle.get_tle_data tle_file sat_name = Some tle ->
      readtle eph tle = true ->
      datetime eph cursor < now + 3600 * hours ->
      next_pass eph tle cursor = Pass tr altt ts ->
      datetime eph tr <= now + 3600 * hours ->
      (min_elevation <= altt)%Q ->
      P (mkPass sat_name (datetime eph tr) (datetime eph ts) altt
                (fst (calculate_pass_duration eph tle_file sat_name tr))
                (frequency sat_config))) ->
  predict_next_passes eph tle_file sats min_elevation fuel now hours = Some passes ->
  Forall P passes.
Proof.
  intros HP H. unfold predict_next_passes in H.
  destruct (each_satellite eph tle_file min_elevation (now + 3600 * hours) fuel sats
                           now []) as [l|] eqn:Hl; [|discriminate].
  injection H as <-.
  apply (each_satellite_checked eph tle_file min_elevation _ P fuel now sats HP) in Hl;
    [|constructor].
  apply Forall_forall. intros x Hx.
  apply (proj1 (PredictorFacts.sort_by_aos_In x l)) in Hx.
  exact (proj1 (Forall_forall P l) Hl x Hx).
Qed.

(** A prediction is only ever made for a satellite that the configuration
    enables, that has an element set in the file, and whose element set the
    propagator reads; it carries the frequency configured for that
    satellite. A disabled satellite never appears. *)
Theorem predicted_satellites_are_enabled
        (eph : Ephem) (tle_file : Tle.File) (sats : list (string * SatConfig))
        (min_elevation : Q) (fuel : nat) (now hours : Z)
        (passes : list PassInfo) (p : PassInfo) :
  predict_next_passes eph tle_file sats min_elevation fuel now hours = Some passes ->
  In p passes ->
  exists sat_config tle,
    In (satellite p, sat_config) sats
    /\ enabled sat_config = true
    /\ Tle.get_tle_data tle_file (satellite p) = Some tle
    /\ readtle eph tle = true
    /\ frequency_ p = frequency sat_config.
Proof.
  intros H Hin.
  pose (P := fun q : PassInfo =>
               exists sat_config tle,
                 In (satellite q, sat_config) sats
                 /\ enabled sat_config = true
                 /\ Tle.get_tle_data tle_file (satellite q) = Some tle
                 /\ readtle eph tle = true
                 /\ frequency_ q = frequency sat_config).
  assert (Hall : Forall P passes).
  { apply (predict_next_passes_checked P eph tle_file sats min_elevation fuel now hours);
      [|exact H].
    intros sat_name sat_config tle cursor tr altt ts Hs Hen Htle Hread _ _ _ _.
    exists sat_config, tle. simpl. repeat split; assumption. }
  exact (proj1 (Forall_forall P passes) Hall p Hin).
Qed.

Lemma predicted_satellites_are_enabled_witness :
  exists sat_config tle,
    In ("NOAA 15", sat_config) one_satellite
    /\ enabled sat_config = true
    /\ Tle.get_tle_data (Tle.Lines Tle.two_records) "NOAA 15" = Some tle
    /\ readtle (one_pass 100 (50 # 1) 700) tle = true
    /\ 137620000 = frequency sat_config.
Proof.
  apply (predicted_satellites_are_enabled
           (one_pass 100 (50 # 1) 700) (Tle.Lines Tle.two_records) one_satellite
           (20 # 1) 5 0 1 [Cases.the_pass] Cases.the_pass).
  - reflexivity.
  - left. reflexivity.
Defined.

(** No prediction rises after the end of the horizon, and each is a pass
    the propagator reported when asked at a date that, read as an instant,
    is before that end. *)
Theorem predicted_passes_within_horizon
        (eph : Ephem) (tle_file : Tle.File) (sats : list (string * SatConfig))
        (min_elevation : Q) (fuel : nat) (now hours : Z)
        (passes : list PassInfo) (p : PassInfo) :
  predict_next_passes eph tle_file sats min_elevation fuel now hours = Some passes ->
  In p passes ->
  aos p <= now + 3600 * hours
  /\ exists tle cursor tr altt ts,
      datetime eph cursor < now + 3600 * hours
      /\ next_pass eph tle cursor = Pass tr altt ts
      /\ aos p = datetime eph tr /\ los p = datetime eph ts.
Proof.
  intros H Hin.
  pose (P := fun q : PassInfo =>
               aos q <= now + 3600 * hours
               /\ exists tle cursor tr altt ts,
                   datetime eph cursor < now + 3600 * hours
                   /\ next_pass eph tle cursor = Pass tr altt ts
                   /\ aos q = datetime eph tr /\ los q = datetime eph ts).
  assert (Hall : Forall P passes).
  { apply (predict_next_passes_checked P eph tle_file sats min_elevation fuel now hours);
      [|exact H].
    intros sat_name sat_config tle cursor tr altt ts _ _ _ _ Hc Hnp Htr _.
    split; [exact Htr|]. exists tle, cursor, tr, altt, ts. simpl.
    repeat split; assumption. }
  exact (proj1 (Forall_forall P passes) Hall p Hin).
Qed.

Lemma predicted_passes_within_horizon_witness :
  100 <= 0 + 3600 * 1
  /\ exists tle cursor tr altt ts,
      datetime (one_pass 100 (50 # 1) 700) cursor < 0 + 3600 * 1
      /\ next_pass (one_pass 100 (50 # 1) 700) tle cursor = Pass tr altt ts
      /\ 100 = datetime (one_pass 100 (50 # 1) 700) tr
      /\ 700 = datetime (one_pass 100 (50 # 1) 700) ts.
Proof.
  apply (predicted_passes_within_horizon
           (one_pass 100 (50 # 1) 700) (Tle.Lines Tle.two_records) one_satellite
           (20 # 1) 5 0 1 [Cases.the_pass] Cases.the_pass).
  - vm_compute. reflexivity.
  - left. reflexivity.
Defined.

(** The predictor returns: when every round of a satellite's loop moves
    the date of the observer, read as an instant, by a minute at least,
    and the instant [now] loses less than a minute when it is stored as
    the date of the observer and read back, 60 rounds for each hour of the
    horizon, and two more, are enough. *)
Theorem predict_next_passes_returns
        (eph : Ephem) (tle_file : Tle.File) (sats : list (string * SatConfig))
        (min_elevation : Q) (fuel : nat) (now hours : Z) :
  (forall tle cursor tr altt ts,
      next_pass eph tle cursor = Pass tr altt ts ->
      datetime eph cursor + 60 <= datetime eph (ts + minute)%float) ->
  now - 60 <= datetime eph (of_datetime eph now) ->
  (1 < fuel)%nat ->
  60 * hours + 1 < Z.of_nat fuel ->
  exists passes,
    predict_next_passes eph tle_file sats min_elevation fuel now hours = Some passes.
Proof.
  intros Hprog Hnow Hpos Hfuel. unfold predict_next_passes.
  destruct fuel as [|fuel]; [lia|].
  destruct (each_satellite_ends eph tle_file min_elevation (now + 3600 * hours) fuel now
                                Hprog ltac:(lia) sats []) as [out Hout].
  rewrite Hout. simpl. eauto.
Qed.

Lemma predict_next_passes_returns_witness :
  exists passes,
    predict_next_passes (one_pass 100 (50 # 1) 700) (Tle.Lines Tle.two_records)
                        one_satellite (20 # 1) 62 0 1 = Some passes.
Proof.
  apply (predict_next_passes_returns
           (one_pass 100 (50 # 1) 700) (Tle.Lines Tle.two_records) one_satellite
           (20 # 1) 62 0 1).
  - intros tle cursor tr altt ts. cbn [next_pass one_pass datetime].
    destruct (seconds_of cursor <? 100) eqn:E; [|discriminate].
    intros [= <- <- <-]. apply Z.ltb_lt in E.
    assert (Hts : seconds_of (days_of 700 + minute)%float = 760)
      by (vm_compute; reflexivity).
    rewrite Hts. lia.
  - vm_compute. discriminate.
  - lia.
  - lia.
Defined.

End HorizonFacts.

(** ** More on the capture session *)

Module RecorderFacts.
Import Sys Predictor Capture Trace.
Local Open Scope list_scope.

(** The wait until AOS: when the preparation returns, the clock is at AOS,
    or where it was if AOS is past, and no file has changed. *)
Theorem recording_starts_at_aos (env : Env) (pass_info : PassInfo) (w : World) :
  outcome (prepare env pass_info w) = Ret tt ->
  clock (final (prepare env pass_info w)) = Z.max (clock w) (aos pass_info)
  /\ files (final (prepare env pass_info w)) = files w.
Proof.
  unfold prepare.
  destruct (outcome (os_makedirs env (dir_audio (directories (config env))) w))
    as [[]|e|] eqn:Hmk.
  - rewrite (SysFacts.bind_Ret _ _ w tt Hmk). cbn [outcome final].
    assert (Hw : final (os_makedirs env (dir_audio (directories (config env))) w) = w).
    { unfold os_makedirs in *. destruct (makedirs_ok env _ _); [reflexivity|discriminate]. }
    rewrite Hw.
    rewrite (SysFacts.bind_Ret _ _ w tt) by reflexivity. cbn [outcome final log emit].
    rewrite (SysFacts.bind_Ret utcnow _ w (clock w)) by reflexivity.
    cbn [outcome final utcnow].
    destruct (aos pass_info >? clock w) eqn:Hgt.
    + apply Z.gtb_lt in Hgt.
      destruct (outcome (sleep (aos pass_info - clock w) w)) as [[]|e|] eqn:Hs.
      * assert (Hb : outcome (bind (log INFO (WaitingUntilAOS (aos pass_info - clock w)))
                                   (fun _ => sleep (aos pass_info - clock w)) w) = Ret tt).
        { rewrite (SysFacts.bind_Ret _ _ w tt) by reflexivity. exact Hs. }
        rewrite (SysFacts.bind_Ret _ _ w tt Hb).
        rewrite (SysFacts.bind_Ret _ _ w tt) by reflexivity.
        cbn [outcome final log emit].
        rewrite (SysFacts.bind_Ret _ _ _ tt) by reflexivity.
        cbn [outcome final log emit]. intros _.
        unfold sleep in *.
        destruct (aos pass_info - clock w <? 0); [discriminate|].
        destruct (sigint w) as [t|].
        -- destruct (t <? clock w + (aos pass_info - clock w)); [discriminate|].
           cbn [final clock files]. split; [lia | reflexivity].
        -- cbn [final clock files]. split; [lia | reflexivity].
      * assert (Hb : outcome (bind (log INFO (WaitingUntilAOS (aos pass_info - clock w)))
                                   (fun _ => sleep (aos pass_info - clock w)) w) = Raise e).
        { rewrite (SysFacts.bind_Ret _ _ w tt) by reflexivity. exact Hs. }
        rewrite (SysFacts.bind_Raise _ _ w e Hb). discriminate.
      * assert (Hb : outcome (bind (log INFO (WaitingUntilAOS (aos pass_info - clock w)))
                                   (fun _ => sleep (aos pass_info - clock w)) w) = Diverge).
        { rewrite (SysFacts.bind_Ret _ _ w tt) by reflexivity. exact Hs. }
        rewrite (SysFacts.bind_Diverge _ _ w Hb). discriminate.
    + rewrite Z.gtb_ltb in Hgt. apply Z.ltb_ge in Hgt.
      rewrite (SysFacts.bind_Ret _ _ w tt) by reflexivity.
      cbn [outcome final ret].
      rewrite (SysFacts.bind_Ret _ _ w tt) by reflexivity.
      cbn [outcome final log emit]. intros _. split; [lia | reflexivity].
  - rewrite (SysFacts.bind_Raise _ _ w e Hmk). discriminate.
  - rewrite (SysFacts.bind_Diverge _ _ w Hmk). discriminate.
Qed.

Lemma recording_starts_at_aos_witness :
  clock (final (prepare (Station.station 0 true ["msa"] 100 true) Cases.the_pass
                        Station.start_world)) = Z.max 0 100
  /\ files (final (prepare (Station.station 0 true ["msa"] 100 true) Cases.the_pass
                           Station.start_world)) = [].
Proof.
  exact (recording_starts_at_aos (Station.station 0 true ["msa"] 100 true)
                                 Cases.the_pass Station.start_world eq_refl).
Defined.

(** The recorder is started, left alone for the duration of the pass, told
    to terminate and waited for: [process.wait] blocks until the recorder
    has exited, for 5 seconds at most, and the recorder is killed exactly
    when it has not exited by then. The files afterwards are what it wrote
    in the duration of the pass, and the clock has moved by that duration
    and by the time spent waiting. This holds when the recorder can be
    started, the duration is not negative and no Ctrl-C comes before the
    wait is over. *)
Theorem recorder_runs_for_the_duration
        (env : Env) (pass_info : PassInfo) (w : World)
        (recorded : Z -> FS) (delay : option Z) :
  let process := mkProcess (clock w) recorded delay in
  subprocess_popen env (rtl_fm_cmd env pass_info) (files w) = (Some recorded, delay) ->
  0 <= duration pass_info ->
  (forall t, sigint w = Some t ->
             clock w + duration pass_info + wait_time process 5 <= t) ->
  let r := record env pass_info w in
  outcome r = Ret tt
  /\ emitted r = [Popen (rtl_fm_cmd env pass_info); Sleep (duration pass_info);
                  Terminate; Wait 5]
                 ++ (if exits_within process 5 then [] else [Kill])
                 ++ [Log INFO (CaptureComplete (audio_file env pass_info))]
  /\ files (final r) = recorded (duration pass_info)
  /\ clock (final r) = clock w + duration pass_info + wait_time process 5
  /\ 0 <= wait_time process 5 <= 5.
Proof.
  intros process Hpopen Hd Hquiet r. subst r.
  assert (Hwt : 0 <= wait_time process 5 <= 5).
  { unfold wait_time. destruct (exit_delay process); lia. }
  unfold record, bind, popen. rewrite Hpopen. cbn [outcome final emitted].
  fold process.
  unfold sleep. assert (Hneg : (duration pass_info <? 0) = false) by (apply Z.ltb_ge; lia).
  rewrite Hneg.
  destruct (sigint w) as [t|] eqn:Hsig.
  - specialize (Hquiet t eq_refl).
    assert (Hs : (t <? clock w + duration pass_info) = false) by (apply Z.ltb_ge; lia).
    assert (Hs' : (t <? clock w + duration pass_info + wait_time process 5) = false)
      by (apply Z.ltb_ge; lia).
    rewrite Hs. cbn. unfold try_except, wait. cbn. rewrite Hs'.
    replace (clock w + duration pass_info - clock w) with (duration pass_info) by lia.
    destruct (exits_within process 5); cbn; repeat split; try reflexivity; lia.
  - cbn. unfold try_except, wait. cbn.
    replace (clock w + duration pass_info - clock w) with (duration pass_info) by lia.
    destruct (exits_within process 5); cbn; repeat split; try reflexivity; lia.
Qed.

Lemma recorder_runs_for_the_duration_witness :
  let env := Station2.with_recorder (Station2.stubborn_recorder 100)
                                    (Station.station 0 true ["msa"] 100 true) in
  let r := record env Cases.the_pass (mkWorld 100 [] None) in
  outcome r = Ret tt
  /\ emitted r = [Popen (rtl_fm_cmd env Cases.the_pass);
                  Sleep 599; Terminate; Wait 5]
                 ++ [Kill]
                 ++ [Log INFO (CaptureComplete Station.recording)]
  /\ files (final r) = [(Station.recording, 59900)]
  /\ clock (final r) = 100 + 599 + 5
  /\ 0 <= 5 <= 5.
Proof.
  refine (recorder_runs_for_the_duration
            (Station2.with_recorder (Station2.stubborn_recorder 100)
                                    (Station.station 0 true ["msa"] 100 true))
            Cases.the_pass (mkWorld 100 [] None)
            (fun seconds => [(Station.recording, 100 * seconds)]) None
            eq_refl _ _).
  - simpl. lia.
  - intros t H. discriminate H.
Defined.

(** Once the preparation is over, the capture session lets no exception
    out but a Ctrl-C: what goes wrong while recording or processing is
    logged and the session returns. *)
Theorem capture_absorbs_exceptions
        (env : Env) (pass_info : PassInfo) (w : World) (e : exn) :
  outcome (capture_pass env pass_info w) = Raise e ->
  outcome (prepare env pass_info w) = Raise e \/ e = KeyboardInterrupt.
Proof.
  unfold capture_pass.
  destruct (outcome (prepare env pass_info w)) as [[]|e0|] eqn:Hp.
  - rewrite (SysFacts.bind_Ret _ _ w tt Hp). cbn [outcome].
    unfold try_except.
    destruct (outcome (bind (record env pass_info)
                            (fun _ => process_recording env pass_info)
                            (final (prepare env pass_info w)))) as [u|e1|] eqn:Hb.
    + rewrite Hb. discriminate.
    + destruct (is_Exception e1) eqn:He1.
      * cbn [outcome log emit]. discriminate.
      * rewrite Hb. intros [= <-]. right. destruct e1; try discriminate. reflexivity.
    + rewrite Hb. discriminate.
  - rewrite (SysFacts.bind_Raise _ _ w e0 Hp). cbn [outcome].
    intros [= <-]. now left.
  - rewrite (SysFacts.bind_Diverge _ _ w Hp). discriminate.
Qed.

Lemma capture_absorbs_exceptions_witness :
  outcome (prepare (Station.station 0 true ["msa"] 100 true) Cases.the_pass
                   (mkWorld 0 [] (Some 50))) = Raise KeyboardInterrupt
  \/ KeyboardInterrupt = KeyboardInterrupt.
Proof.
  exact (capture_absorbs_exceptions (Station.station 0 true ["msa"] 100 true)
                                    Cases.the_pass (mkWorld 0 [] (Some 50))
                                    KeyboardInterrupt eq_refl).
Defined.

End RecorderFacts.

(** ** The predictor with its log lines *)

Module ForecastFacts.
Import Refiner Predictor Sys Forecast Trace.
Local Open Scope list_scope.

Section Run.
Variable eph : Ephem.
Variable tle_file : Tle.File.
Variable min_elevation : Q.
Variable end_time : Z.

(** The predictions of the loop with its log lines are those of the loop
    without them. *)
Lemma find_passes_run_passes (sat_name : string) (sat_config : SatConfig)
      (tle : Tle.Record_) :
  forall fuel cursor passes logged,
    option_map fst (find_passes_run eph tle_file min_elevation end_time fuel sat_name
                                    sat_config tle cursor passes logged)
    = find_passes eph tle_file min_elevation end_time fuel sat_name sat_config tle
                  cursor passes.
Proof.
  induction fuel as [|fuel IH]; intros cursor passes logged; [reflexivity|].
  cbn [find_passes_run find_passes].
  destruct (datetime eph cursor <? end_time); [|reflexivity].
  destruct (next_pass eph tle cursor) as [tr altt ts| |]; try reflexivity.
  destruct (datetime eph tr >? end_time); [reflexivity|].
  destruct (Qle_bool min_elevation altt); [|apply IH].
  destruct (calculate_pass_duration eph tle_file sat_name tr) as [d mx]. apply IH.
Qed.

Lemma each_satellite_run_passes (fuel : nat) (now : Z) :
  forall sats passes logged,
    option_map fst (each_satellite_run eph tle_file min_elevation end_time fuel sats now
                                       passes logged)
    = each_satellite eph tle_file min_elevation end_time fuel sats now passes.
Proof.
  induction sats as [|[sat_name sat_config] rest IH]; intros passes logged; [reflexivity|].
  cbn [each_satellite_run each_satellite].
  destruct (negb (enabled sat_config)); [apply IH|].
  destruct (Tle.get_tle_data tle_file sat_name) as [tle|]; [|apply IH].
  destruct (readtle eph tle); [|apply IH].
  rewrite <- (find_passes_run_passes sat_name sat_config tle fuel (of_datetime eph now)
                                     passes logged).
  destruct (find_passes_run eph tle_file min_elevation end_time fuel sat_name sat_config
                            tle (of_datetime eph now) passes logged) as [[passes' logged']|];
    [apply IH | reflexivity].
Qed.

(** The predictor logs, and does nothing else to the outside. *)
Lemma get_tle_data_log_lines (sat_name : string) :
  forallb is_log (get_tle_data_log tle_file sat_name) = true.
Proof.
  unfold get_tle_data_log. destruct tle_file as [| |lines]; try reflexivity.
  destruct (Tle.search sat_name lines); reflexivity.
Qed.

Lemma calculate_pass_duration_log_lines (sat_name : string) (aos_time : float) :
  forallb is_log (calculate_pass_duration_log eph tle_file sat_name aos_time) = true.
Proof.
  unfold calculate_pass_duration_log. rewrite forallb_app, get_tle_data_log_lines.
  destruct (Tle.get_tle_data tle_file sat_name) as [tle|]; [|reflexivity].
  destruct (readtle eph tle); [|reflexivity].
  destruct (snd (scan 40 (alt_deg eph tle) aos_time aos_time 0)); reflexivity.
Qed.

Lemma find_passes_run_lines (sat_name : string) (sat_config : SatConfig)
      (tle : Tle.Record_) :
  forall fuel cursor passes logged out logged',
    find_passes_run eph tle_file min_elevation end_time fuel sat_name sat_config tle
                    cursor passes logged = Some (out, logged') ->
    forallb is_log logged = true -> forallb is_log logged' = true.
Proof.
  induction fuel as [|fuel IH]; intros cursor passes logged out logged' H Hl;
    cbn [find_passes_run] in H; [discriminate|].
  destruct (datetime eph cursor <? end_time); [|congruence].
  destruct (next_pass eph tle cursor) as [tr altt ts| |].
  - destruct (datetime eph tr >? end_time); [congruence|].
    destruct (Qle_bool min_elevation altt); [|now apply IH in H].
    destruct (calculate_pass_duration eph tle_file sat_name tr) as [d mx].
    apply IH in H; [exact H|].
    now rewrite !forallb_app, Hl, calculate_pass_duration_log_lines.
  - congruence.
  - injection H as _ <-. now rewrite forallb_app, Hl.
Qed.

Lemma each_satellite_run_lines (fuel : nat) (now : Z) :
  forall sats passes logged out logged',
    each_satellite_run eph tle_file min_elevation end_time fuel sats now passes logged
    = Some (out, logged') ->
    forallb is_log logged = true -> forallb is_log logged' = true.
Proof.
  induction sats as [|[sat_name sat_config] rest IH]; intros passes logged out logged' H Hl;
    cbn [each_satellite_run] in H.
  - congruence.
  - destruct (negb (enabled sat_config)); [now apply IH in H|].
    destruct (Tle.get_tle_data tle_file sat_name) as [tle|].
    + destruct (readtle eph tle).
      * destruct (find_passes_run eph tle_file min_elevation end_time fuel sat_name
                                  sat_config tle (of_datetime eph now) passes logged)
          as [[passes1 logged1]|] eqn:Hf; [|discriminate].
        apply IH in H; [exact H|].
        exact (find_passes_run_lines sat_name sat_config tle _ _ _ _ _ _ Hf Hl).
      * apply IH in H; [exact H|]. now rewrite forallb_app, Hl.
    + apply IH in H; [exact H|].
      now rewrite forallb_app, Hl, get_tle_data_log_lines.
Qed.
End Run.

(** With its log lines or without, the predictor returns the same list. *)
Lemma predict_next_passes_run_passes
      (eph : Ephem) (tle_file : Tle.File) (sats : list (string * SatConfig))
      (min_elevation : Q) (fuel : nat) (now hours : Z) :
  option_map fst (predict_next_passes_run eph tle_file sats min_elevation fuel now hours)
  = predict_next_passes eph tle_file sats min_elevation fuel now hours.
Proof.
  unfold predict_next_passes_run, predict_next_passes.
  rewrite <- (each_satellite_run_passes eph tle_file min_elevation _ fuel now sats [] []).
  destruct (each_satellite_run eph tle_file min_elevation (now + 3600 * hours) fuel sats
                               now [] []) as [[passes logged]|]; reflexivity.
Qed.

(** What the predictor logs starts with the line that announces the
    prediction, and is made of log lines only. *)
Lemma predict_next_passes_run_lines
      (eph : Ephem) (tle_file : Tle.File) (sats : list (string * SatConfig))
      (min_elevation : Q) (fuel : nat) (now hours : Z)
      (passes : list PassInfo) (logged : list Event) :
  predict_next_passes_run eph tle_file sats min_elevation fuel now hours
  = Some (passes, logged) ->
  hd_error logged = Some (Log INFO (PredictingPasses hours))
  /\ forallb is_log logged = true.
Proof.
  unfold predict_next_passes_run.
  destruct (each_satellite_run eph tle_file min_elevation (now + 3600 * hours) fuel sats
                               now [] []) as [[passes' logged']|] eqn:He; [|discriminate].
  intros [= <- <-]. split; [reflexivity|].
  cbn [forallb is_log andb].
  exact (each_satellite_run_lines eph tle_file min_elevation _ fuel now sats [] [] _ _
                                  He eq_refl).
Qed.

(** The call of the predictor returns its list and changes nothing. *)
Lemma predict_returns (env : Env) (hours : Z) (w : World) (passes : list PassInfo) :
  predict_next_passes (eph env) (tle_file env) (satellites (config env))
                      (min_elevation (reception (config env)))
                      (predict_fuel env) (clock w) hours = Some passes ->
  exists logged,
    predict env hours w = mkResult (Ret passes) w logged
    /\ predict_next_passes_run (eph env) (tle_file env) (satellites (config env))
                               (min_elevation (reception (config env)))
                               (predict_fuel env) (clock w) hours
       = Some (passes, logged).
Proof.
  intros H. rewrite <- predict_next_passes_run_passes in H. unfold predict.
  destruct (predict_next_passes_run (eph env) (tle_file env) (satellites (config env))
                                    (min_elevation (reception (config env)))
                                    (predict_fuel env) (clock w) hours)
    as [[passes' logged]|]; [|discriminate].
  injection H as <-. exists logged. split; reflexivity.
Qed.

End ForecastFacts.

(** ** More on the scheduler *)

Module LoopFacts.
Import Sys Predictor Scheduler Trace.
Local Open Scope list_scope.

Lemma ordered_head_least (p : PassInfo) (l : list PassInfo) :
  ordered_by_aos (p :: l) -> forall q, In q (p :: l) -> aos p <= aos q.
Proof.
  unfold ordered_by_aos. intros H.
  apply Sorted_StronglySorted in H; [|intros x y z Hxy Hyz; lia].
  inversion H as [|? ? _ Hall]; subst.
  intros q [<-|Hq]; [lia|].
  rewrite Forall_forall in Hall. now apply Hall.
Qed.

Lemma predicted_passes_ordered
      (eph : Refiner.Ephem) (tle_file : Tle.File) (sats : list (string * SatConfig))
      (min_elevation : Q) (fuel : nat) (now hours : Z) (passes : list PassInfo) :
  predict_next_passes eph tle_file sats min_elevation fuel now hours = Some passes ->
  ordered_by_aos passes.
Proof.
  unfold predict_next_passes.
  destruct (each_satellite eph tle_file min_elevation (now + 3600 * hours) fuel sats
                           now []); [|discriminate].
  intros [= <-]. apply PredictorFacts.sort_by_aos_ordered.
Qed.

(** When the predictor returns its list for the next 24 hours, the
    scheduler returns the first element of that list, which rises first
    of all the passes predicted, and [None] when the list is empty.
    Picking changes neither the clock nor the files. *)
Theorem next_pass_is_the_earliest
        (env : Env) (w : World) (passes : list PassInfo) :
  predict_next_passes (eph env) (tle_file env) (satellites (config env))
                      (min_elevation (reception (config env)))
                      (predict_fuel env) (clock w) 24 = Some passes ->
  let r := schedule_next_pass env w in
  final r = w
  /\ outcome r = Ret (hd_error passes)
  /\ forall p, hd_error passes = Some p ->
               In p passes /\ forall q, In q passes -> aos p <= aos q.
Proof.
  intros Hp r. subst r. unfold schedule_next_pass.
  destruct (ForecastFacts.predict_returns env 24 w passes Hp) as (logged & Hpr & _).
  rewrite (SysFacts.bind_Ret _ _ w passes) by (now rewrite Hpr).
  rewrite Hpr. cbn [outcome final emitted].
  apply predicted_passes_ordered in Hp.
  destruct passes as [|p rest].
  - cbn. split; [reflexivity|]. split; [reflexivity|]. intros p0 H0. discriminate H0.
  - cbn. split; [reflexivity|]. split; [reflexivity|].
    intros q [= <-]. split; [now left|]. now apply ordered_head_least.
Qed.

Lemma next_pass_is_the_earliest_witness :
  let r := schedule_next_pass (Station.station 0 true ["msa"] 100 true)
                              Station.start_world in
  final r = Station.start_world
  /\ outcome r = Ret (Some Cases.the_pass)
  /\ forall p, Some Cases.the_pass = Some p ->
               In p [Cases.the_pass]
               /\ forall q, In q [Cases.the_pass] -> aos p <= aos q.
Proof.
  exact (next_pass_is_the_earliest (Station.station 0 true ["msa"] 100 true)
                                   Station.start_world [Cases.the_pass] eq_refl).
Defined.

(** With no pass predicted and no Ctrl-C in the next six hours, a round of
    the loop is the lines the predictor logs, the first of which announces
    the prediction, then the two lines of the scheduler and one sleep of
    21600 seconds; and the loop goes on. *)
Theorem idle_round_sleeps_six_hours (env : Env) (w : World) (logged : list Event) :
  Forecast.predict_next_passes_run
    (eph env) (tle_file env) (satellites (config env))
    (min_elevation (reception (config env))) (predict_fuel env) (clock w) 24
  = Some ([], logged) ->
  (forall t, sigint w = Some t -> clock w + 21600 <= t) ->
  round env w
  = mkResult (Ret Again)
             (mkWorld (clock w + 21600) (files w) (sigint w))
             (logged
              ++ [Log WARNING NoPassesFound; Log INFO NoPassesScheduled; Sleep 21600])
  /\ hd_error logged = Some (Log INFO (PredictingPasses 24))
  /\ forallb is_log logged = true.
Proof.
  intros Hp Hquiet. split; [|exact (ForecastFacts.predict_next_passes_run_lines _ _ _ _ _ _ _ _ _ Hp)].
  assert (Hit : iteration env w
                = mkResult (Ret tt)
                           (mkWorld (clock w + 21600) (files w) (sigint w))
                           (logged ++ [Log WARNING NoPassesFound; Log INFO NoPassesScheduled;
                                       Sleep 21600])).
  { assert (Hsch : schedule_next_pass env w
                   = mkResult (Ret None) w (logged ++ [Log WARNING NoPassesFound])).
    { unfold schedule_next_pass.
      assert (Hpr : Forecast.predict env 24 w = mkResult (Ret []) w logged)
        by (unfold Forecast.predict; now rewrite Hp).
      rewrite (SysFacts.bind_Ret _ _ w []) by (now rewrite Hpr).
      rewrite Hpr. reflexivity. }
    unfold iteration.
    rewrite (SysFacts.bind_Ret _ _ w None) by (now rewrite Hsch).
    rewrite Hsch. cbn [outcome final emitted].
    unfold bind, log, emit, sleep. cbn.
    destruct (sigint w) as [t|] eqn:Hs.
    - assert (Hlt : (t <? clock w + 21600) = false)
        by (apply Z.ltb_ge; now apply Hquiet).
      rewrite Hlt. cbn. now rewrite <- app_assoc.
    - cbn. now rewrite <- app_assoc. }
  unfold round. rewrite Hit. reflexivity.
Qed.

Lemma idle_round_sleeps_six_hours_witness :
  round (Station2.without_satellites (Station.station 0 true ["msa"] 100 true))
        Station.start_world
  = mkResult (Ret Again) (mkWorld (0 + 21600) [] None)
             ([Log INFO (PredictingPasses 24)]
              ++ [Log WARNING NoPassesFound; Log INFO NoPassesScheduled; Sleep 21600])
  /\ hd_error [Log INFO (PredictingPasses 24)] = Some (Log INFO (PredictingPasses 24))
  /\ forallb is_log [Log INFO (PredictingPasses 24)] = true.
Proof.
  refine (idle_round_sleeps_six_hours
            (Station2.without_satellites (Station.station 0 true ["msa"] 100 true))
            Station.start_world [Log INFO (PredictingPasses 24)] eq_refl _).
  intros t H. discriminate H.
Defined.

(** The back-off of the handler of a round, interrupted: the error line,
    and the sleep that a Ctrl-C ends. *)
Lemma back_off_interrupted (e : exn) (t : Z) (w : World) :
  sigint w = Some t ->
  t < clock w + 300 ->
  (log ERROR (ErrorInScheduler e) ;; sleep 300 ;; ret Again)%M w
  = mkResult (Raise KeyboardInterrupt) (mkWorld (Z.max (clock w) t) (files w) None)
             [Log ERROR (ErrorInScheduler e); Sleep 300].
Proof.
  intros Hsig Hlt. unfold bind, log, emit, sleep, ret. cbn. rewrite Hsig.
  assert (Hb : (t <? clock w + 300) = true) by (now apply Z.ltb_lt).
  rewrite Hb. reflexivity.
Qed.

(** How a Ctrl-C ends the loop. When it comes out of the body of the [try]
    of a round (the prediction, the wait for the pass, the capture, or the
    sleep of six hours), the round logs that the scheduler was stopped and
    the loop is left by [break]: no further round is run however many were
    allowed, and there is no back-off sleep. When it arrives during the
    back-off sleep of the handler of a round that had raised an exception,
    nothing catches it: the loop is left by the [KeyboardInterrupt], after
    the error line and the interrupted sleep, and the stop is not
    logged. *)
Theorem ctrl_c_ends_the_loop (env : Env) (w : World) (rounds : nat) :
  let r := iteration env w in
  (outcome r = Raise KeyboardInterrupt ->
   loop env (S rounds) w
   = mkResult (Ret Stopped) (final r) (emitted r ++ [Log INFO SchedulerStopped]))
  /\ (forall e t,
         outcome r = Raise e ->
         is_Exception e = true ->
         sigint (final r) = Some t ->
         t < clock (final r) + 300 ->
         loop env (S rounds) w
         = mkResult (Raise KeyboardInterrupt)
                    (mkWorld (Z.max (clock (final r)) t) (files (final r)) None)
                    (emitted r ++ [Log ERROR (ErrorInScheduler e); Sleep 300])).
Proof.
  intros r. split.
  - intros H.
    assert (Hr : round env w
                 = mkResult (Ret Break) (final r)
                            (emitted r ++ [Log INFO SchedulerStopped])).
    { unfold round. fold r. rewrite H. reflexivity. }
    cbn [loop].
    rewrite (SysFacts.bind_Ret (round env) _ w Break) by (now rewrite Hr).
    rewrite Hr. cbn [outcome final emitted ret]. now rewrite app_nil_r.
  - intros e t Hraise Hexc Hsig Hlt.
    assert (Hr : round env w
                 = mkResult (Raise KeyboardInterrupt)
                            (mkWorld (Z.max (clock (final r)) t) (files (final r)) None)
                            (emitted r ++ [Log ERROR (ErrorInScheduler e); Sleep 300])).
    { unfold round. fold r. rewrite Hraise.
      pose proof (back_off_interrupted e t (final r) Hsig Hlt) as Hsleep.
      destruct e; try discriminate Hexc; rewrite Hsleep; reflexivity. }
    cbn [loop].
    rewrite (SysFacts.bind_Raise (round env) _ w KeyboardInterrupt) by (now rewrite Hr).
    rewrite Hr. reflexivity.
Qed.

(** A Ctrl-C during the wait for the pass. *)
Lemma ctrl_c_ends_the_loop_witness :
  loop (Station.station 0 true ["msa"] 100 true) 3 (mkWorld 0 [] (Some 50))
  = mkResult (Ret Stopped) (mkWorld 50 [] None)
             ([Log INFO (PredictingPasses 24);
               Log INFO (PassPredicted "NOAA 15" 100 (50 # 1) 599);
               Log INFO (NextPassIs "NOAA 15" 100);
               Makedirs "/home/pi/noaa/audio";
               Log INFO (StartingCapture "NOAA 15" 100);
               Log INFO (WaitingUntilAOS 100);
               Sleep 100]
              ++ [Log INFO SchedulerStopped]).
Proof.
  exact (proj1 (ctrl_c_ends_the_loop (Station.station 0 true ["msa"] 100 true)
                                     (mkWorld 0 [] (Some 50)) 2) eq_refl).
Defined.

(** A Ctrl-C during the back-off sleep, at a station whose audio directory
    cannot be made: [run_scheduler] does not return, and its last line in
    the log is the error. *)
Example ctrl_c_in_back_off :
  run_scheduler (Station.station 0 true ["msa"] 100 false) 3 (mkWorld 0 [] (Some 100))
  = mkResult (Raise KeyboardInterrupt) (mkWorld 100 [] None)
             [Log INFO StartingScheduler;
              Log INFO (PredictingPasses 24);
              Log INFO (PassPredicted "NOAA 15" 100 (50 # 1) 599);
              Log INFO (NextPassIs "NOAA 15" 100);
              Makedirs "/home/pi/noaa/audio";
              Log ERROR (ErrorInScheduler OSError);
              Sleep 300].
Proof. vm_compute. reflexivity. Qed.

End LoopFacts.

(** ** More on the image pipeline *)

Module ForwardingFacts.
Import Sys Pipeline Trace Kinds.
Local Open Scope list_scope.

Lemma forwarded_app (l1 l2 : list Event) :
  forwarded (l1 ++ l2) = forwarded l1 ++ forwarded l2.
Proof.
  induction l1 as [|ev l1 IH]; [reflexivity|].
  destruct ev as [level msg| | | | | | | |]; simpl; try exact IH.
  destruct msg; simpl; try exact IH. now rewrite IH.
Qed.

(** The events of [m ;; k]: those of [m], then those of [k] if [m]
    returned. *)
Lemma bind_emitted {A B} (m : M A) (k : A -> M B) (w : World) :
  emitted (bind m k w)
  = emitted (m w) ++ match outcome (m w) with
                     | Ret a => emitted (k a (final (m w)))
                     | _ => []
                     end.
Proof.
  unfold bind. destruct (outcome (m w)); cbn [emitted]; now rewrite ?app_nil_r.
Qed.

Lemma try_except_emitted {A} (body : M A) (catches : exn -> bool)
      (handler : exn -> M A) (w : World) :
  emitted (try_except body catches handler w)
  = emitted (body w) ++ match outcome (body w) with
                        | Raise e => if catches e then emitted (handler e (final (body w)))
                                     else []
                        | _ => []
                        end.
Proof.
  unfold try_except. destruct (outcome (body w)) as [a|e|]; rewrite ?app_nil_r;
    try reflexivity.
  destruct (catches e); cbn [emitted]; now rewrite ?app_nil_r.
Qed.

Section Counting.
(** A list read off a trace piece by piece, such as [forwarded] or a
    [filter]. *)
Variable T : Type.
Variable f : list Event -> list T.
Hypothesis f_app : forall l1 l2, f (l1 ++ l2) = f l1 ++ f l2.
Hypothesis f_nil : f [] = [].

Lemma bind_nothing {A B} (m : M A) (k : A -> M B) (w : World) :
  f (emitted (m w)) = [] ->
  (forall a w', f (emitted (k a w')) = []) ->
  f (emitted (bind m k w)) = [].
Proof.
  intros Hm Hk. rewrite bind_emitted, f_app, Hm.
  destruct (outcome (m w)); [apply Hk | exact f_nil | exact f_nil].
Qed.

Lemma try_except_nothing {A} (body : M A) (catches : exn -> bool)
      (handler : exn -> M A) (w : World) :
  f (emitted (body w)) = [] ->
  (forall e w', f (emitted (handler e w')) = []) ->
  f (emitted (try_except body catches handler w)) = [].
Proof.
  intros Hb Hh. rewrite try_except_emitted, f_app, Hb.
  destruct (outcome (body w)) as [a|e|]; try exact f_nil.
  destruct (catches e); [apply Hh | exact f_nil].
Qed.

Lemma bind_at_most {A B} (m : M A) (k : A -> M B) (w : World) (n : nat) :
  f (emitted (m w)) = [] ->
  (forall a w', (List.length (f (emitted (k a w'))) <= n)%nat) ->
  (List.length (f (emitted (bind m k w))) <= n)%nat.
Proof.
  intros Hm Hk. rewrite bind_emitted, f_app, Hm.
  destruct (outcome (m w)); [apply Hk | rewrite f_nil; simpl; lia
                             | rewrite f_nil; simpl; lia].
Qed.

Lemma bind_at_most_then_nothing {A B} (m : M A) (k : A -> M B) (w : World) (n : nat) :
  (List.length (f (emitted (m w))) <= n)%nat ->
  (forall a w', f (emitted (k a w')) = []) ->
  (List.length (f (emitted (bind m k w))) <= n)%nat.
Proof.
  intros Hm Hk. rewrite bind_emitted, f_app.
  destruct (outcome (m w)); rewrite ?Hk, ?f_nil, app_nil_r; exact Hm.
Qed.

(** The steps of [process_audio] from which [f] reads nothing, given that
    it reads nothing from a log line of the steps, a directory, a removal
    and a program run. *)
Hypothesis f_log : forall level msg,
    (forall image_file, msg <> SendingToDisplay image_file) -> f [Log level msg] = [].
Hypothesis f_makedirs : forall path, f [Makedirs path] = [].
Hypothesis f_remove : forall path, f [Remove path] = [].

Lemma os_makedirs_nothing (env : Env) (path : string) (w : World) :
  f (emitted (os_makedirs env path w)) = [].
Proof.
  unfold os_makedirs. destruct (makedirs_ok env path (files w)); apply f_makedirs.
Qed.

Lemma os_remove_nothing (path : string) (w : World) :
  f (emitted (os_remove path w)) = [].
Proof.
  unfold os_remove. destruct (exists_ (files w) path); apply f_remove.
Qed.

Lemma remove_audio_nothing (audio_file : string) (w : World) :
  f (emitted (try_except
                (bind (os_remove audio_file)
                      (fun _ => log INFO (RemovedRawAudio audio_file)))
                catch_all (fun _ => ret tt) w)) = [].
Proof.
  apply try_except_nothing; [|intros; exact f_nil].
  apply bind_nothing; [apply os_remove_nothing|].
  intros _ w'. apply f_log. discriminate.
Qed.

Lemma remove_resampled_nothing (resampled_file : string) (w : World) :
  f (emitted (try_except (os_remove resampled_file) catch_all (fun _ => ret tt) w)) = [].
Proof.
  apply try_except_nothing; [apply os_remove_nothing | intros; exact f_nil].
Qed.
End Counting.

Lemma run_checked_emitted (env : Env) (argv : list string) (w : World) :
  emitted (run_checked env argv w) = [Run argv].
Proof.
  unfold run_checked, bind, run.
  destruct (subprocess_run env argv (files w)) as [returncode fs|e fs];
    cbn [outcome final emitted]; [|reflexivity].
  destruct (returncode =? 0); reflexivity.
Qed.

(** One block of the decoder: one run of [noaa-apt] and one log line, or
    the run alone when it raises something else than
    [CalledProcessError]. *)
Lemma generate_emitted (env : Env) (kind : Kind) (resampled_file output : string)
      (w : World) :
  exists rest,
    emitted (generate env kind resampled_file output w)
    = Run (noaa_apt_cmd kind resampled_file output) :: rest
    /\ (rest = []
        \/ rest = [Log INFO (Generated kind output)]
        \/ exists level, rest = [Log level (GenerationFailed kind)]).
Proof.
  unfold generate. rewrite bind_emitted. cbn [get_files outcome final emitted app].
  rewrite try_except_emitted, bind_emitted, run_checked_emitted.
  unfold run_checked, bind, run, decode_stderr.
  destruct (subprocess_run env _ (files w)) as [returncode fs|e fs];
    cbn [outcome final emitted].
  - destruct (returncode =? 0); cbn.
    + eexists. split; [reflexivity|]. right. left. reflexivity.
    + destruct kind; try destruct (stderr_decodes env _ (files w)); cbn;
        eexists; (split; [reflexivity|]); auto; right; right; eexists; reflexivity.
  - destruct (is_CalledProcessError e); cbn.
    + destruct kind; try destruct (stderr_decodes env _ (files w)); cbn;
        eexists; (split; [reflexivity|]); auto; right; right; eexists; reflexivity.
    + eexists. split; [reflexivity|]. left. reflexivity.
Qed.

Lemma generate_forwards_nothing (env : Env) (kind : Kind)
      (resampled_file output : string) (w : World) :
  forwarded (emitted (generate env kind resampled_file output w)) = [].
Proof.
  destruct (generate_emitted env kind resampled_file output w)
    as (rest & -> & [-> | [-> | [level ->]]]); reflexivity.
Qed.

Lemma forwarded_log (level : Level) (msg : LogMsg) :
  (forall image_file, msg <> SendingToDisplay image_file) ->
  forwarded [Log level msg] = [].
Proof.
  intros H. destruct msg; try reflexivity. exfalso. now apply (H image_file).
Qed.

(** Whatever the programs do, a run of [process_audio] hands at most one
    image to [send_to_epaper]. *)
Theorem at_most_one_image_forwarded
        (env : Env) (audio_file filename_base sat_name : string) (w : World) :
  (List.length (forwarded (emitted (process_audio env audio_file filename_base
                                                  sat_name w))) <= 1)%nat.
Proof.
  unfold process_audio.
  apply (bind_at_most _ forwarded forwarded_app eq_refl); [reflexivity|]. intros _ w1.
  apply (bind_at_most _ forwarded forwarded_app eq_refl).
  { apply (os_makedirs_nothing _ forwarded). reflexivity. }
  intros _ w2.
  apply (bind_at_most _ forwarded forwarded_app eq_refl).
  { apply (try_except_nothing _ forwarded forwarded_app eq_refl).
    - apply (bind_nothing _ forwarded forwarded_app eq_refl).
      + now rewrite run_checked_emitted.
      + intros _ w'. apply (bind_nothing _ forwarded forwarded_app eq_refl);
          [reflexivity | intros; reflexivity].
    - intros e w'. apply (bind_nothing _ forwarded forwarded_app eq_refl);
        [reflexivity | intros; reflexivity]. }
  intros resampled w3. destruct (negb resampled); [simpl; lia|].
  assert (Hgen : forall flag kind w',
             forwarded (emitted (generate_if env flag kind (replace_wav audio_file)
                                             (dir_images (directories (config env)))
                                             filename_base w')) = []).
  { intros flag kind w'. unfold generate_if. destruct (get_or_true flag); [|reflexivity].
    apply (bind_nothing _ forwarded forwarded_app eq_refl);
      [apply generate_forwards_nothing | intros; reflexivity]. }
  apply (bind_at_most _ forwarded forwarded_app eq_refl).
  { destruct (get_or_true (generate_basic (processing (config env)))); [|reflexivity].
    apply (bind_nothing _ forwarded forwarded_app eq_refl);
      [apply generate_forwards_nothing | intros; reflexivity]. }
  intros first_image w4.
  apply (bind_at_most _ forwarded forwarded_app eq_refl); [apply Hgen|]. intros _ w5.
  apply (bind_at_most _ forwarded forwarded_app eq_refl); [apply Hgen|]. intros _ w6.
  apply (bind_at_most _ forwarded forwarded_app eq_refl); [apply Hgen|]. intros _ w7.
  apply (bind_at_most _ forwarded forwarded_app eq_refl); [apply Hgen|]. intros _ w8.
  apply (bind_at_most_then_nothing _ forwarded forwarded_app eq_refl).
  { rewrite PipelineFacts.forward_choice.
    destruct first_image as [image|];
      [destruct (truthy image && exists_ (files w8) image); [simpl; lia|]|];
      destruct (sorted (glob_png env (files w8) (dir_images (directories (config env)))
                                 filename_base)); simpl; lia. }
  intros _ w9.
  apply (bind_nothing _ forwarded forwarded_app eq_refl).
  - destruct (negb (get_or_true (save_raw_audio (processing (config env)))));
      [|reflexivity].
    apply (remove_audio_nothing _ forwarded forwarded_app eq_refl forwarded_log).
    reflexivity.
  - intros _ w10.
    apply (remove_resampled_nothing _ forwarded forwarded_app eq_refl). reflexivity.
Qed.

(** A failed transfer is logged and goes no further: [send_to_epaper]
    makes one attempt and returns, whatever the exit status and whatever
    exception the attempt raises, a Ctrl-C apart; it logs the success
    exactly when the exit status is 0. *)
Theorem transfer_failure_is_not_fatal (env : Env) (image_file : string) (w : World) :
  let r := send_to_epaper env image_file w in
  (forall e, outcome r = Raise e -> e = KeyboardInterrupt)
  /\ outcome r <> Diverge
  /\ (outcome r = Ret tt ->
      exists level msg,
        emitted r = [Log INFO (SendingToDisplay image_file); Run (scp_cmd image_file);
                     Log level msg]
        /\ (msg = SentToDisplay <->
            exists fs, subprocess_run env (scp_cmd image_file) (files w) = Exit 0 fs)).
Proof.
  unfold send_to_epaper, try_except, bind, run, scp_cmd. cbn [log emit outcome final emitted].
  destruct (subprocess_run env _ (files w)) as [returncode fs|e fs];
    cbn [outcome final emitted].
  - destruct (returncode =? 0) eqn:E; cbn.
    + apply Z.eqb_eq in E. subst returncode.
      split; [discriminate|]. split; [discriminate|]. intros _.
      exists INFO, SentToDisplay. split; [reflexivity|]. split; eauto.
    + apply Z.eqb_neq in E.
      split; [discriminate|]. split; [discriminate|]. intros _.
      exists ERROR, FailedToSend. split; [reflexivity|].
      split; [discriminate|]. intros [fs' H]. congruence.
  - destruct e; cbn.
    1-5: split; [discriminate|]; split; [discriminate|]; intros _;
      exists ERROR, FailedToSend; (split; [reflexivity|]);
      (split; [discriminate|]); intros [fs' H]; discriminate.
    split; [intros e [= <-]; reflexivity|]. split; [discriminate|]. discriminate.
Qed.

Lemma exists_In (fs : FS) (path : string) :
  exists_ fs path = true <-> In path (map fst fs).
Proof.
  unfold exists_. rewrite existsb_exists, in_map_iff. unfold path_eqb.
  split; intros ([p size] & H1 & H2); exists (p, size); simpl in *.
  - apply String.eqb_eq in H2. now split.
  - split; [exact H2 | now apply String.eqb_eq].
Qed.

(** The choice of the image. The plain image is sent when it was generated
    and its file exists. Otherwise what [glob.glob] returns for
    [<image_dir>/<base>*.png] decides: nothing is sent when it returns
    nothing, and else the one sent is one of the names returned and the
    smallest of them in the order of strings. When neither the directory
    nor the base has one of the characters [*], [?] and [[], the names
    returned are the files that exist and whose path is the directory and
    the base, then any characters but ["/"], then [.png]. *)
Theorem forward_selection
        (env : Env) (first_image : option string)
        (image_dir filename_base : string) (w : World) :
  let sent := forwarded (emitted (forward env first_image image_dir filename_base w)) in
  let matching := glob_png env (files w) image_dir filename_base in
  (forall image, first_image = Some image -> image <> "" ->
                 exists_ (files w) image = true -> sent = [image])
  /\ ((first_image = None
       \/ exists image, first_image = Some image /\ exists_ (files w) image = false) ->
      (matching = [] -> sent = [])
      /\ (matching <> [] ->
          exists image,
            sent = [image]
            /\ In image matching
            /\ forall other, In other matching -> String.leb image other = true))
  /\ (has_magic (path_join image_dir filename_base) = false ->
      forall image,
        In image matching
        <-> exists_ (files w) image = true
            /\ matches_png (path_join image_dir filename_base) image = true).
Proof.
  intros sent matching. subst sent. rewrite PipelineFacts.forward_choice. fold matching.
  assert (Hfall : (matching = [] -> firstn 1 (sorted matching) = [])
                  /\ (matching <> [] ->
                      exists image,
                        firstn 1 (sorted matching) = [image]
                        /\ In image matching
                        /\ forall other, In other matching ->
                                         String.leb image other = true)).
  { split.
    - intros ->. reflexivity.
    - intros Hne. destruct (sorted matching) as [|x rest] eqn:Hs.
      + destruct matching as [|y l]; [contradiction|].
        assert (Hy : In y (sorted (y :: l)))
          by (apply PipelineFacts.sorted_In; now left).
        rewrite Hs in Hy. contradiction.
      + destruct (PipelineFacts.sorted_head_least matching x rest Hs) as [Hin Hleast].
        exists x. split; [reflexivity|]. split; [exact Hin | exact Hleast]. }
  split; [|split].
  - intros image -> Hne Hex. unfold truthy.
    assert (Hn : (image =? "")%string = false) by (now apply String.eqb_neq).
    rewrite Hn, Hex. reflexivity.
  - intros [-> | (image & -> & Hex)]; [exact Hfall|].
    rewrite Hex, andb_false_r. exact Hfall.
  - intros Hplain image. unfold matching, glob_png. rewrite Hplain.
    rewrite filter_In, exists_In. reflexivity.
Qed.

(** A satellite name with brackets: the pattern reads them as a set of
    characters, and the image that was written, whose name has the
    brackets, is not among the files the pattern matches; nothing is
    sent. *)
Example wildcards_in_the_base_name :
  forwarded
    (emitted (forward (Station.station 0 true ["msa"] 100 true) None
                      "/home/pi/noaa/images" "NOAA[15]_20240101_120000"
                      (mkWorld 700
                               [("/home/pi/noaa/images/NOAA[15]_20240101_120000_MSA.png",
                                 8192)]
                               None)))
  = [].
Proof. reflexivity. Qed.

Section ProgramsExit.
Variable env : Env.
Hypothesis Hexit : runs_to_end env.
Hypothesis Htext : stderr_is_text env.



Lemma decoders_bind {A B} (m : M A) (k : A -> M B) (w : World)
      (d1 d2 : list Event) :
  (exists a, outcome (m w) = Ret a) ->
  filter is_decoder_run (emitted (m w)) = d1 ->
  (forall a w', filter is_decoder_run (emitted (k a w')) = d2) ->
  filter is_decoder_run (emitted (bind m k w)) = d1 ++ d2.
Proof.
  intros [a Ha] H1 H2. rewrite bind_emitted, Ha, filter_app, H1, H2. reflexivity.
Qed.

Lemma generate_decoders (kind : Kind) (resampled_file output : string) (w : World) :
  filter is_decoder_run (emitted (generate env kind resampled_file output w))
  = [Run (noaa_apt_cmd kind resampled_file output)].
Proof.
  destruct (generate_emitted env kind resampled_file output w)
    as (rest & -> & [-> | [-> | [level ->]]]); destruct kind; reflexivity.
Qed.

Lemma generate_if_decoders (flag : option bool) (kind : Kind)
      (resampled_file image_dir filename_base : string) (w : World) :
  filter is_decoder_run
         (emitted (generate_if env flag kind resampled_file image_dir filename_base w))
  = if get_or_true flag
    then [Run (noaa_apt_cmd kind resampled_file (output_file image_dir filename_base kind))]
    else [].
Proof.
  unfold generate_if. destruct (get_or_true flag); [|reflexivity].
  rewrite (decoders_bind _ _ _ _ [] (PipelineFacts.generate_returns env Hexit Htext _ _ _ _)
                         (generate_decoders _ _ _ _)); [reflexivity|].
  intros; reflexivity.
Qed.

Lemma send_to_epaper_decoders (image_file : string) (w : World) :
  filter is_decoder_run (emitted (send_to_epaper env image_file w)) = [].
Proof.
  unfold send_to_epaper, try_except, bind, run. cbn [log emit outcome final emitted].
  destruct (subprocess_run env _ (files w)) as [returncode fs|e fs];
    cbn [outcome final emitted].
  - destruct (returncode =? 0); reflexivity.
  - destruct (is_Exception e); reflexivity.
Qed.

Lemma forward_decoders (first_image : option string)
      (image_dir filename_base : string) (w : World) :
  filter is_decoder_run (emitted (forward env first_image image_dir filename_base w)) = [].
Proof.
  unfold forward. rewrite bind_emitted. cbn [get_files outcome final emitted app].
  destruct first_image as [image|].
  - destruct (truthy image && exists_ (files w) image).
    + apply send_to_epaper_decoders.
    + destruct (sorted (glob_png env (files w) image_dir filename_base));
        [reflexivity | apply send_to_epaper_decoders].
  - destruct (sorted (glob_png env (files w) image_dir filename_base));
      [reflexivity | apply send_to_epaper_decoders].
Qed.

(** Once the resampler has succeeded, and as long as the decoder and the
    transfer tool exit, whatever their exit status, and what they write to
    their standard error is valid UTF-8, the decoder is run once for each
    kind that the configuration has on, in the order of the kinds: a kind
    that fails does not stop the kinds after it. *)
Theorem decoder_failures_are_isolated
        (audio_file filename_base sat_name : string) (w : World) (fs : FS) :
  makedirs_ok env (dir_images (directories (config env))) (files w) = true ->
  subprocess_run env (sox_cmd audio_file (replace_wav audio_file)) (files w)
  = Exit 0 fs ->
  filter is_decoder_run
         (emitted (process_audio env audio_file filename_base sat_name w))
  = map (fun kind =>
           Run (noaa_apt_cmd kind (replace_wav audio_file)
                             (output_file (dir_images (directories (config env)))
                                          filename_base kind)))
        (enabled_kinds (processing (config env))).
Proof.
  intros Hdir Hsox. unfold process_audio.
  rewrite (SysFacts.bind_Ret _ _ w tt) by reflexivity.
  cbn [log emit final emitted outcome].
  assert (Hmk : os_makedirs env (dir_images (directories (config env))) w
                = mkResult (Ret tt) w [Makedirs (dir_images (directories (config env)))])
    by (unfold os_makedirs; rewrite Hdir; reflexivity).
  rewrite (SysFacts.bind_Ret _ _ w tt) by (now rewrite Hmk).
  rewrite Hmk. cbn [final emitted outcome].
  assert (Hres : try_except
                   (bind (run_checked env (sox_cmd audio_file (replace_wav audio_file)))
                         (fun _ => bind (log INFO AudioResampled) (fun _ => ret true)))
                   is_CalledProcessError
                   (fun _ => bind (log ERROR FailedToResample) (fun _ => ret false)) w
                 = mkResult (Ret true) (mkWorld (clock w) fs (sigint w))
                            [Run (sox_cmd audio_file (replace_wav audio_file));
                             Log INFO AudioResampled]).
  { unfold try_except, run_checked, bind, run. rewrite Hsox. reflexivity. }
  rewrite (SysFacts.bind_Ret _ _ w true) by (now rewrite Hres).
  rewrite Hres. cbn [final emitted outcome negb].
  rewrite !filter_app. cbn [filter is_decoder_run sox_cmd String.eqb Ascii.eqb Bool.eqb app].
  set (w0 := mkWorld (clock w) fs (sigint w)).
  set (dir := dir_images (directories (config env))).
  set (p := processing (config env)).
  rewrite (decoders_bind
             _ _ w0
             (if get_or_true (generate_basic p)
              then [Run (noaa_apt_cmd Basic (replace_wav audio_file)
                                      (output_file dir filename_base Basic))]
              else [])
             ((if get_or_true (generate_msa p)
               then [Run (noaa_apt_cmd MSA (replace_wav audio_file)
                                       (output_file dir filename_base MSA))]
               else [])
              ++ (if get_or_true (generate_msa_precip p)
                  then [Run (noaa_apt_cmd MSA_PRECIP (replace_wav audio_file)
                                          (output_file dir filename_base MSA_PRECIP))]
                  else [])
              ++ (if get_or_true (generate_hvct p)
                  then [Run (noaa_apt_cmd HVCT (replace_wav audio_file)
                                          (output_file dir filename_base HVCT))]
                  else [])
              ++ (if get_or_true (generate_therm p)
                  then [Run (noaa_apt_cmd THERM (replace_wav audio_file)
                                          (output_file dir filename_base THERM))]
                  else []))).
  - unfold enabled_kinds, flag. fold p. cbn [filter].
    destruct (get_or_true (generate_basic p)), (get_or_true (generate_msa p)),
      (get_or_true (generate_msa_precip p)), (get_or_true (generate_hvct p)),
      (get_or_true (generate_therm p)); reflexivity.
  - destruct (get_or_true (generate_basic p)); [|now eexists].
    destruct (PipelineFacts.generate_returns
                env Hexit Htext Basic (replace_wav audio_file)
                (output_file dir filename_base Basic) w0) as [ok Hok].
    eexists. rewrite (SysFacts.bind_Ret _ _ _ _ Hok). reflexivity.
  - destruct (get_or_true (generate_basic p)); [|reflexivity].
    rewrite (decoders_bind _ _ _ _ [] (PipelineFacts.generate_returns env Hexit Htext _ _ _ _)
                           (generate_decoders _ _ _ _)); [reflexivity|].
    intros; reflexivity.
  - intros first_image w1.
    apply decoders_bind;
      [now apply PipelineFacts.generate_if_returns | apply generate_if_decoders |].
    intros _ w2.
    apply decoders_bind;
      [now apply PipelineFacts.generate_if_returns | apply generate_if_decoders |].
    intros _ w3.
    apply decoders_bind;
      [now apply PipelineFacts.generate_if_returns | apply generate_if_decoders |].
    intros _ w4.
    rewrite <- (app_nil_r (if get_or_true (generate_therm p) then _ else _)).
    apply decoders_bind;
      [now apply PipelineFacts.generate_if_returns | apply generate_if_decoders |].
    intros _ w5.
    rewrite bind_emitted, filter_app, forward_decoders.
    destruct (outcome (forward env first_image dir filename_base w5)); [|reflexivity..].
    rewrite bind_emitted, filter_app.
    assert (Hrm : forall (m : M unit) w',
               (m = ret tt
                \/ m = try_except (bind (os_remove audio_file)
                                        (fun _ => log INFO (RemovedRawAudio audio_file)))
                                  catch_all (fun _ => ret tt)
                \/ m = try_except (os_remove (replace_wav audio_file)) catch_all
                                  (fun _ => ret tt)) ->
               filter is_decoder_run (emitted (m w')) = []).
    { intros m w' [-> | [-> | ->]]; [reflexivity| |].
      - apply (remove_audio_nothing _ (filter is_decoder_run) (@filter_app _ _) eq_refl);
          intros; reflexivity.
      - apply (remove_resampled_nothing _ (filter is_decoder_run) (@filter_app _ _) eq_refl);
          intros; reflexivity. }
    rewrite Hrm by (destruct (negb (get_or_true (save_raw_audio p))); auto).
    destruct (outcome _); [|reflexivity..].
    now rewrite Hrm by auto.
Qed.
End ProgramsExit.

Lemma decoder_of_hvct_only_exits (env : Env) :
  runs_to_end (Station2.with_programs Station2.decoder_of_hvct_only env).
Proof.
  intros argv fs. unfold Station2.with_programs, Station2.decoder_of_hvct_only.
  cbn [subprocess_run].
  destruct argv as [|program rest]; [eexists _, _; reflexivity|].
  destruct (String.eqb program "noaa-apt");
    [destruct (existsb (String.eqb "hvct") (program :: rest))|
     destruct (String.eqb program "sshpass")]; eexists _, _; reflexivity.
Qed.


(** At a station whose decoder fails for the plain image, for MSA, for
    MSA-PRECIP and for THERM, and succeeds for HVCT: all five are run. *)
Lemma decoder_failures_are_isolated_witness :
  let env := Station2.with_programs Station2.decoder_of_hvct_only
                                    (Station.station 0 true ["msa"] 100 true) in
  filter is_decoder_run
         (emitted (process_audio env Station.recording "NOAA_15_20240101_120000"
                                 "NOAA 15" Station.recorded_world))
  = map (fun kind =>
           Run (noaa_apt_cmd kind (replace_wav Station.recording)
                             (output_file "/home/pi/noaa/images"
                                          "NOAA_15_20240101_120000" kind)))
        [Basic; MSA; MSA_PRECIP; HVCT; THERM].
Proof.
  refine (decoder_failures_are_isolated
            (Station2.with_programs Station2.decoder_of_hvct_only
                                    (Station.station 0 true ["msa"] 100 true))
            _ _ Station.recording "NOAA_15_20240101_120000" "NOAA 15"
            Station.recorded_world
            [(Station.resampled, 4096); (Station.recording, 60000)]
            eq_refl eq_refl).
  - exact (decoder_of_hvct_only_exits (Station.station 0 true ["msa"] 100 true)).
  - intros argv fs. reflexivity.
Defined.

(** The failures of that station are in its log, between the runs. *)
Example decoder_failures_are_logged :
  let env := Station2.with_programs Station2.decoder_of_hvct_only
                                    (Station.station 0 true ["msa"] 100 true) in
  let r := process_audio env Station.recording "NOAA_15_20240101_120000" "NOAA 15"
                         Station.recorded_world in
  filter is_log (emitted r)
  = [Log INFO (ProcessingAudio Station.recording);
     Log INFO AudioResampled;
     Log ERROR (GenerationFailed Basic);
     Log DEBUG (GenerationFailed MSA);
     Log DEBUG (GenerationFailed MSA_PRECIP);
     Log INFO (Generated HVCT "/home/pi/noaa/images/NOAA_15_20240101_120000_HVCT.png");
     Log DEBUG (GenerationFailed THERM);
     Log INFO (SendingToDisplay "/home/pi/noaa/images/NOAA_15_20240101_120000_HVCT.png");
     Log INFO SentToDisplay].
Proof. vm_compute. reflexivity. Qed.

(** When the plain image is on and its decoder fails with a standard error
    that is not valid UTF-8, the handler raises before it logs:
    [process_audio] is left by [UnicodeDecodeError] right after the run of
    the decoder. No other kind is tried, nothing is forwarded, and nothing
    is removed: the resampled file stays. *)
Theorem undecodable_stderr_aborts_pipeline
        (env : Env) (audio_file filename_base sat_name : string) (w : World)
        (fs fs' : FS) (returncode : Z) :
  let cmd := noaa_apt_cmd Basic (replace_wav audio_file)
                          (output_file (dir_images (directories (config env)))
                                       filename_base Basic) in
  makedirs_ok env (dir_images (directories (config env))) (files w) = true ->
  subprocess_run env (sox_cmd audio_file (replace_wav audio_file)) (files w)
  = Exit 0 fs ->
  get_or_true (generate_basic (processing (config env))) = true ->
  subprocess_run env cmd fs = Exit returncode fs' ->
  returncode <> 0 ->
  stderr_decodes env cmd fs = false ->
  process_audio env audio_file filename_base sat_name w
  = mkResult (Raise UnicodeDecodeError)
             (mkWorld (clock w) fs' (sigint w))
             [Log INFO (ProcessingAudio audio_file);
              Makedirs (dir_images (directories (config env)));
              Run (sox_cmd audio_file (replace_wav audio_file));
              Log INFO AudioResampled;
              Run cmd].
Proof.
  intros cmd Hdir Hsox Hbasic Hrun Hrc Hdec.
  assert (Hcode : (returncode =? 0) = false) by (now apply Z.eqb_neq).
  unfold process_audio.
  rewrite (SysFacts.bind_Ret _ _ w tt) by reflexivity.
  cbn [log emit final emitted outcome].
  assert (Hmk : os_makedirs env (dir_images (directories (config env))) w
                = mkResult (Ret tt) w [Makedirs (dir_images (directories (config env)))])
    by (unfold os_makedirs; rewrite Hdir; reflexivity).
  rewrite (SysFacts.bind_Ret _ _ w tt) by (now rewrite Hmk).
  rewrite Hmk. cbn [final emitted outcome].
  assert (Hres : try_except
                   (bind (run_checked env (sox_cmd audio_file (replace_wav audio_file)))
                         (fun _ => bind (log INFO AudioResampled) (fun _ => ret true)))
                   is_CalledProcessError
                   (fun _ => bind (log ERROR FailedToResample) (fun _ => ret false)) w
                 = mkResult (Ret true) (mkWorld (clock w) fs (sigint w))
                            [Run (sox_cmd audio_file (replace_wav audio_file));
                             Log INFO AudioResampled]).
  { unfold try_except, run_checked, bind, run. rewrite Hsox. reflexivity. }
  rewrite (SysFacts.bind_Ret _ _ w true) by (now rewrite Hres).
  rewrite Hres. cbn [final emitted outcome negb].
  rewrite Hbasic.
  set (w0 := mkWorld (clock w) fs (sigint w)).
  assert (Hgen : generate env Basic (replace_wav audio_file)
                          (output_file (dir_images (directories (config env)))
                                       filename_base Basic) w0
                 = mkResult (Raise UnicodeDecodeError) (mkWorld (clock w) fs' (sigint w))
                            [Run cmd]).
  { clear Hres Hmk. unfold generate. fold cmd. clearbody cmd.
    rewrite (SysFacts.bind_Ret get_files _ w0 fs) by reflexivity.
    cbn [get_files outcome final emitted app].
    assert (Hraises : run_checked env cmd w0
                  = mkResult (Raise CalledProcessError) (mkWorld (clock w) fs' (sigint w))
                             [Run cmd]).
    { unfold run_checked, bind, run. cbn [w0 files]. rewrite Hrun.
      cbn [outcome final emitted]. rewrite Hcode. reflexivity. }
    unfold try_except.
    rewrite (SysFacts.bind_Raise _ _ w0 CalledProcessError) by (now rewrite Hraises).
    cbn [outcome final emitted is_CalledProcessError]. rewrite Hraises.
    cbn [outcome final emitted]. unfold decode_stderr. rewrite Hdec. reflexivity. }
  rewrite (SysFacts.bind_Raise _ _ w0 UnicodeDecodeError).
  - rewrite (SysFacts.bind_Raise _ _ w0 UnicodeDecodeError) by (now rewrite Hgen).
    rewrite Hgen. reflexivity.
  - rewrite (SysFacts.bind_Raise _ _ w0 UnicodeDecodeError) by (now rewrite Hgen).
    reflexivity.
Qed.

Lemma undecodable_stderr_aborts_pipeline_witness :
  let env := Station2.with_binary_stderr (Station.station 0 false ["msa"] 100 true) in
  process_audio env Station.recording "NOAA_15_20240101_120000" "NOAA 15"
                Station.recorded_world
  = mkResult (Raise UnicodeDecodeError)
             (mkWorld 700 [(Station.resampled, 4096); (Station.recording, 60000)] None)
             [Log INFO (ProcessingAudio Station.recording);
              Makedirs "/home/pi/noaa/images";
              Run (sox_cmd Station.recording (replace_wav Station.recording));
              Log INFO AudioResampled;
              Run (noaa_apt_cmd Basic (replace_wav Station.recording)
                                "/home/pi/noaa/images/NOAA_15_20240101_120000.png")].
Proof.
  refine (undecodable_stderr_aborts_pipeline
            (Station2.with_binary_stderr (Station.station 0 false ["msa"] 100 true))
            Station.recording "NOAA_15_20240101_120000" "NOAA 15" Station.recorded_world
            [(Station.resampled, 4096); (Station.recording, 60000)]
            [(Station.resampled, 4096); (Station.recording, 60000)] 1
            eq_refl eq_refl eq_refl eq_refl _ eq_refl).
  discriminate.
Defined.

End ForwardingFacts.

(** ** The raw recording *)

Module RawAudioFacts.
Import Sys Pipeline Trace Removals.
Local Open Scope list_scope.

Ltac bits c := destruct c as [[] [] [] [] [] [] [] []].

(** One step of [str.replace]: at an occurrence of [.wav] the replacement
    is written and the scan goes on after it; elsewhere the character is
    kept. *)
Lemma replace_wav_step (c : ascii) (s : string) :
  (exists rest, s = ("wav" ++ rest)%string
                /\ replace_wav (String c s) = ("_resampled.wav" ++ replace_wav rest)%string)
  \/ replace_wav (String c s) = String c (replace_wav s).
Proof.
  destruct s as [|c1 s]; [right; bits c; reflexivity|].
  bits c; try (right; reflexivity).
  destruct s as [|c2 s]; [right; bits c1; reflexivity|].
  bits c1; try (right; reflexivity).
  destruct s as [|c3 s]; [right; bits c2; reflexivity|].
  bits c2; try (right; reflexivity).
  bits c3; try (right; reflexivity).
  left. exists s. split; reflexivity.
Qed.

Lemma length_append (s t : string) :
  String.length (s ++ t)%string = (String.length s + String.length t)%nat.
Proof. induction s as [|c s IH]; simpl; [reflexivity | now rewrite IH]. Qed.

Lemma replace_wav_length (s : string) :
  (String.length s <= String.length (replace_wav s))%nat.
Proof.
  assert (H : forall n s, (String.length s <= n)%nat ->
                          (String.length s <= String.length (replace_wav s))%nat).
  { clear s. induction n as [|n IH]; intros [|c s] Hn; simpl in Hn; try (simpl; lia).
    destruct (replace_wav_step c s) as [(rest & -> & ->) | ->].
    - rewrite length_append. simpl in Hn.
      assert (Hrest := IH rest ltac:(lia)). simpl. lia.
    - assert (Hs := IH s ltac:(lia)). simpl. lia. }
  apply (H (String.length s)). lia.
Qed.

(** The resampled file is another file than a recording named [*.wav]. *)
Lemma replace_wav_changes (stem : string) :
  replace_wav (stem ++ ".wav")%string <> (stem ++ ".wav")%string.
Proof.
  assert (H : (String.length (stem ++ ".wav")%string
               < String.length (replace_wav (stem ++ ".wav")%string))%nat).
  { induction stem as [|c stem IH]; [simpl; lia|].
    change (String c stem ++ ".wav")%string with (String c (stem ++ ".wav")%string).
    destruct (replace_wav_step c (stem ++ ".wav")%string) as [(rest & Hs & ->) | ->].
    - rewrite length_append. assert (Hrest := replace_wav_length rest).
      change (String.length (String c (stem ++ ".wav")%string))
        with (S (String.length (stem ++ ".wav")%string)).
      rewrite Hs. simpl. lia.
    - simpl. simpl in IH. lia. }
  intros E. rewrite E in H. lia.
Qed.

Section Quiet.
(** Events other than a removal of [path]. *)
Variable path : string.

Lemma generate_removes_nothing (env : Env) (kind : Kind)
      (resampled_file output : string) (w : World) :
  filter (is_removal_of path) (emitted (generate env kind resampled_file output w)) = [].
Proof.
  destruct (ForwardingFacts.generate_emitted env kind resampled_file output w)
    as (rest & -> & [-> | [-> | [level ->]]]); reflexivity.
Qed.

Lemma send_to_epaper_removes_nothing (env : Env) (image_file : string) (w : World) :
  filter (is_removal_of path) (emitted (send_to_epaper env image_file w)) = [].
Proof.
  unfold send_to_epaper, try_except, bind, run. cbn [log emit outcome final emitted].
  destruct (subprocess_run env _ (files w)) as [returncode fs|e fs];
    cbn [outcome final emitted].
  - destruct (returncode =? 0); reflexivity.
  - destruct (is_Exception e); reflexivity.
Qed.

Lemma forward_removes_nothing (env : Env) (first_image : option string)
      (image_dir filename_base : string) (w : World) :
  filter (is_removal_of path)
         (emitted (forward env first_image image_dir filename_base w)) = [].
Proof.
  unfold forward. rewrite ForwardingFacts.bind_emitted.
  cbn [get_files outcome final emitted app].
  destruct first_image as [image|].
  - destruct (truthy image && exists_ (files w) image).
    + apply send_to_epaper_removes_nothing.
    + destruct (sorted (glob_png env (files w) image_dir filename_base));
        [reflexivity | apply send_to_epaper_removes_nothing].
  - destruct (sorted (glob_png env (files w) image_dir filename_base));
      [reflexivity | apply send_to_epaper_removes_nothing].
Qed.
End Quiet.

(** The raw recording is kept unless the configuration says otherwise:
    with [save_raw_audio] absent or true, [process_audio] never calls
    [os.remove] on a recording named [*.wav], whatever the programs do;
    what it removes is the resampled file, which is another file. *)
Theorem raw_recording_is_kept
        (env : Env) (stem filename_base sat_name : string) (w : World) :
  get_or_true (save_raw_audio (processing (config env))) = true ->
  ~ In (Remove (stem ++ ".wav")%string)
       (emitted (process_audio env (stem ++ ".wav")%string filename_base sat_name w)).
Proof.
  intros Hsave Hin.
  set (audio_file := (stem ++ ".wav")%string) in *.
  assert (Hnone : filter (is_removal_of audio_file)
                         (emitted (process_audio env audio_file filename_base sat_name w))
                  = []).
  { pose (f := filter (is_removal_of audio_file)).
    assert (f_app : forall l1 l2, f (l1 ++ l2) = f l1 ++ f l2)
      by (intros; apply filter_app).
    unfold process_audio. fold f.
    apply (ForwardingFacts.bind_nothing _ f f_app eq_refl); [reflexivity|]. intros _ w1.
    apply (ForwardingFacts.bind_nothing _ f f_app eq_refl).
    { unfold os_makedirs. destruct (makedirs_ok env _ (files w1)); reflexivity. }
    intros _ w2.
    apply (ForwardingFacts.bind_nothing _ f f_app eq_refl).
    { apply (ForwardingFacts.try_except_nothing _ f f_app eq_refl).
      - apply (ForwardingFacts.bind_nothing _ f f_app eq_refl).
        + now rewrite ForwardingFacts.run_checked_emitted.
        + intros _ w'. apply (ForwardingFacts.bind_nothing _ f f_app eq_refl);
            [reflexivity | intros; reflexivity].
      - intros e w'. apply (ForwardingFacts.bind_nothing _ f f_app eq_refl);
          [reflexivity | intros; reflexivity]. }
    intros resampled w3. destruct (negb resampled); [reflexivity|].
    assert (Hgen : forall flag kind w',
               f (emitted (generate_if env flag kind (replace_wav audio_file)
                                       (dir_images (directories (config env)))
                                       filename_base w')) = []).
    { intros flag kind w'. unfold generate_if. destruct (get_or_true flag); [|reflexivity].
      apply (ForwardingFacts.bind_nothing _ f f_app eq_refl);
        [apply generate_removes_nothing | intros; reflexivity]. }
    apply (ForwardingFacts.bind_nothing _ f f_app eq_refl).
    { destruct (get_or_true (generate_basic (processing (config env)))); [|reflexivity].
      apply (ForwardingFacts.bind_nothing _ f f_app eq_refl);
        [apply generate_removes_nothing | intros; reflexivity]. }
    intros first_image w4.
    apply (ForwardingFacts.bind_nothing _ f f_app eq_refl); [apply Hgen|]. intros _ w5.
    apply (ForwardingFacts.bind_nothing _ f f_app eq_refl); [apply Hgen|]. intros _ w6.
    apply (ForwardingFacts.bind_nothing _ f f_app eq_refl); [apply Hgen|]. intros _ w7.
    apply (ForwardingFacts.bind_nothing _ f f_app eq_refl); [apply Hgen|]. intros _ w8.
    apply (ForwardingFacts.bind_nothing _ f f_app eq_refl);
      [apply forward_removes_nothing|]. intros _ w9.
    rewrite Hsave. cbn [negb].
    apply (ForwardingFacts.bind_nothing _ f f_app eq_refl); [reflexivity|]. intros _ w10.
    apply (ForwardingFacts.try_except_nothing _ f f_app eq_refl); [|intros; reflexivity].
    assert (Hne : String.eqb (replace_wav audio_file) audio_file = false)
      by (apply String.eqb_neq, replace_wav_changes).
    unfold os_remove.
    destruct (exists_ (files w10) (replace_wav audio_file)); cbn [emitted];
      unfold f; cbn [filter is_removal_of]; now rewrite Hne. }
  assert (Hin' : In (Remove audio_file)
                    (filter (is_removal_of audio_file)
                            (emitted (process_audio env audio_file filename_base
                                                    sat_name w)))).
  { apply filter_In. split; [exact Hin|]. simpl. apply String.eqb_refl. }
  rewrite Hnone in Hin'. exact Hin'.
Qed.

Lemma raw_recording_is_kept_witness :
  let env := Station.station 0 true ["msa"] 100 true in
  get_or_true (save_raw_audio (processing (config env))) = true
  /\ ~ In (Remove Station.recording)
          (emitted (process_audio env Station.recording "NOAA_15_20240101_120000"
                                  "NOAA 15" Station.recorded_world)).
Proof.
  split; [reflexivity|].
  exact (raw_recording_is_kept (Station.station 0 true ["msa"] 100 true)
                               "/home/pi/noaa/audio/NOAA_15_20240101_120000"
                               "NOAA_15_20240101_120000" "NOAA 15"
                               Station.recorded_world eq_refl).
Defined.

End RawAudioFacts.
